(** * PyGPSClient: the UBX protocol handler ([pygpsclient/ubx_handler.py])

    A shallow embedding of the [UBXHandler] class: the handler object is a
    record, its methods are computations in a state-and-exception monad in
    which (as in Python) the assignments made before an exception is raised
    stay in place.  The calls made on the GUI frames of the hosting
    application are recorded, in order, in the application object.

    Python values are the ones a decoded UBX message carries: integers of
    arbitrary size, binary64 floats (as [spec_float], so that [/] is the
    correctly rounded true division of CPython), text, bytes and tuples. *)

From Stdlib Require Import ZArith List Ascii Floats DecimalString DecimalPos Lia.
From Stdlib Require String Strings.Byte.
From stdpp Require Import base gmap strings list.
Import Byte.

Set Warnings "-inexact-float,-register-all".
Local Open Scope Z_scope.

(** ** Python values and exceptions *)

Abbreviation bytes := (list Byte.byte).

#[global] Instance byte_eq_dec : EqDecision Byte.byte := Byte.byte_eq_dec.

Inductive pyval : Type :=
| PNone
| PInt (z : Z)
| PFloat (x : spec_float)
| PStr (s : string)
| PBytes (b : bytes)
| PTuple (vs : list pyval)
| PTime (hour minute second microsecond : Z).

Inductive exn : Type :=
| ValueError
| TypeError
| AttributeError
| KeyError
| ZeroDivisionError
| OverflowError
| FramingError.

Inductive outcome (A : Type) : Type :=
| Ok (a : A)
| Raise (e : exn).
Arguments Ok {A} a.
Arguments Raise {A} e.

Definition obind {A B} (o : outcome A) (f : A -> outcome B) : outcome B :=
  match o with
  | Ok a => f a
  | Raise e => Raise e
  end.

Declare Scope method_scope.
Delimit Scope method_scope with method.
Notation "o >>= f" := (obind o f) (at level 50, left associativity) : method_scope.
Local Open Scope method_scope.

(** ** Arithmetic of the interpreter *)

Module Py.

Definition SF_of_Z (z : Z) : spec_float :=
  match z with
  | Z0 => S754_zero false
  | Zpos p => S754_finite false p 0
  | Zneg p => S754_finite true p 0
  end.

(** [float(z)]: round to nearest even, [OverflowError] past the largest
    binary64. *)
Definition float_of_int (z : Z) : outcome spec_float :=
  match binary_normalize prec emax z 0 false with
  | S754_infinity _ => Raise OverflowError
  | x => Ok x
  end.

(** [a / b] on two ints: the quotient of the exact integers, rounded once. *)
Definition int_truediv (a b : Z) : outcome pyval :=
  if b =? 0 then Raise ZeroDivisionError
  else match SFdiv prec emax (SF_of_Z a) (SF_of_Z b) with
       | S754_infinity _ => Raise OverflowError
       | q => Ok (PFloat q)
       end.

Definition float_truediv (x y : spec_float) : outcome pyval :=
  match y with
  | S754_zero _ => Raise ZeroDivisionError
  | _ => Ok (PFloat (SFdiv prec emax x y))
  end.

(** [x / y] *)
Definition truediv (x y : pyval) : outcome pyval :=
  match x, y with
  | PInt a, PInt b => int_truediv a b
  | PFloat a, PFloat b => float_truediv a b
  | PFloat a, PInt b => float_of_int b >>= float_truediv a
  | PInt a, PFloat b => float_of_int a >>= fun a' => float_truediv a' b
  | _, _ => Raise TypeError
  end.

(** [x + y] *)
Definition add (x y : pyval) : outcome pyval :=
  match x, y with
  | PInt a, PInt b => Ok (PInt (a + b))
  | PFloat a, PFloat b => Ok (PFloat (SFadd prec emax a b))
  | PFloat a, PInt b =>
      float_of_int b >>= fun b' => Ok (PFloat (SFadd prec emax a b'))
  | PInt a, PFloat b =>
      float_of_int a >>= fun a' => Ok (PFloat (SFadd prec emax a' b))
  | PStr a, PStr b => Ok (PStr (a +:+ b))
  | PBytes a, PBytes b => Ok (PBytes (a ++ b))
  | PTuple a, PTuple b => Ok (PTuple (a ++ b))
  | _, _ => Raise TypeError
  end.

Definition text_of_bytes (b : bytes) : string :=
  String.string_of_list_byte b.

Section Int.
(** The grammar of integer literals accepted by [int(text)] belongs to
    the interpreter; [None] stands for its [ValueError]. *)
Variable int_of_text : string -> option Z.

Definition parse_int (s : string) : outcome Z :=
  match int_of_text s with
  | Some z => Ok z
  | None => Raise ValueError
  end.

(** [int(x)] *)
Definition int (x : pyval) : outcome Z :=
  match x with
  | PInt z => Ok z
  | PFloat (S754_zero _) => Ok 0
  | PFloat (S754_finite s m e) =>
      let a := match e with
               | Zneg k => Z.shiftr (Zpos m) (Zpos k)
               | _ => Z.shiftl (Zpos m) e
               end in
      Ok (if s then - a else a)
  | PFloat (S754_infinity _) => Raise OverflowError
  | PFloat S754_nan => Raise ValueError
  | PStr s => parse_int s
  | PBytes b => parse_int (text_of_bytes b)
  | _ => Raise TypeError
  end.
End Int.

(** ["{0:0=2d}".format(n)] for [n >= 0]: decimal, zero-filled to width 2. *)
Definition format_02d (n : N) : string :=
  let digits := NilZero.string_of_uint (N.to_uint n) in
  if (n <? 10)%N then "0" +:+ digits else digits.

End Py.

Declare Scope py_scope.
Delimit Scope py_scope with py.
Notation "x / y" := (Py.truediv x y) : py_scope.
Notation "x + y" := (Py.add x y) : py_scope.

(** ** Messages and the pyubx2 interface

    A decoded message is an object with an [identity] and one attribute per
    payload field; reading an attribute the message does not have raises
    [AttributeError]. *)

Record UBXMessage : Type := {
  identity : string;
  attrs : gmap string pyval
}.

Definition getattr (data : UBXMessage) (name : string) : outcome pyval :=
  match attrs data !! name with
  | Some v => Ok v
  | None => Raise AttributeError
  end.

(** What [ubx_handler.py] imports from pyubx2, and the tables pyubx2 reads.
    [serialize cls msgid payload] is
    [UBXMessage(cls, msgid, payload, POLL).serialize()]. *)
Record pyubx2 : Type := {
  UBX_HDR : bytes;
  calc_checksum : bytes -> bytes;
  UBX_MSGIDS : list (bytes * string);
  UBX_CONFIG_MESSAGES : list (bytes * string);
  payload_attrs : string -> bytes -> gmap string pyval;
  serialize : string -> string -> option bytes -> bytes;
  itow2utc : pyval -> outcome pyval;
  gpsfix2str : pyval -> outcome pyval
}.

(** A dict literal keyed by bytes, in insertion order. *)
Fixpoint dict_get (d : list (bytes * string)) (k : bytes) : option string :=
  match d with
  | [] => None
  | (k', v) :: d' => if decide (k' = k) then Some v else dict_get d' k
  end.

(** [d[key]] *)
Definition getitem (d : list (bytes * string)) (key : pyval) : outcome string :=
  match key with
  | PBytes k =>
      match dict_get d k with
      | Some v => Ok v
      | None => Raise KeyError
      end
  | _ => Raise KeyError
  end.

(** ** The hosting application

    [frm_settings.get_settings()] is read on every update; every call on a
    frame is appended to [calls]. *)

Record settings : Type := { raw : bool; webmap : bool }.

Inductive console_text : Type :=
| str_raw (raw_data : bytes)
| str_parsed (parsed_data : UBXMessage).

Inductive call : Type :=
| update_console (text : console_text)
| update_banner (kwargs : list (string * pyval))
| update_map (lat lon hacc vacc : pyval) (fix_ : string) (static : bool)
| update_sats (data : list pyval)
| update_graph (data : list pyval) (siv : pyval).

Record App : Type := {
  get_settings : settings;
  calls : list call
}.

(** ** The handler object *)

Record UBXHandler : Type := {
  app : App;
  _raw_data : pyval;
  _parsed_data : pyval;
  gsv_data : list pyval;
  lon : pyval;
  lat : pyval;
  alt : pyval;
  track : pyval;
  speed : pyval;
  pdop : pyval;
  hdop : pyval;
  vdop : pyval;
  hacc : pyval;
  vacc : pyval;
  utc : pyval;
  sip : pyval;
  fix_ : pyval;
  ubx_state : gmap string pyval
}.

(** [__init__] *)
Definition init (a : App) : UBXHandler := {|
  app := a;
  _raw_data := PNone;
  _parsed_data := PNone;
  gsv_data := [];
  lon := PInt 0;
  lat := PInt 0;
  alt := PInt 0;
  track := PInt 0;
  speed := PInt 0;
  pdop := PInt 0;
  hdop := PInt 0;
  vdop := PInt 0;
  hacc := PInt 0;
  vacc := PInt 0;
  utc := PStr "";
  sip := PInt 0;
  fix_ := PStr "-";
  ubx_state := ∅
|}.

(** The navigation attributes the handlers assign. *)
Inductive attr : Type :=
| Lon | Lat | Alt | Track | Speed | Pdop | Hdop | Vdop | Hacc | Vacc | Utc | Sip.

#[global] Instance attr_eq_dec : EqDecision attr.
Proof. solve_decision. Defined.

Definition self_get (a : attr) (self : UBXHandler) : pyval :=
  match a with
  | Lon => lon self
  | Lat => lat self
  | Alt => alt self
  | Track => track self
  | Speed => speed self
  | Pdop => pdop self
  | Hdop => hdop self
  | Vdop => vdop self
  | Hacc => hacc self
  | Vacc => vacc self
  | Utc => utc self
  | Sip => sip self
  end.

(** [self.a = v] *)
Definition self_set (a : attr) (v : pyval) (self : UBXHandler) : UBXHandler :=
  let new b := if decide (a = b) then v else self_get b self in {|
  app := app self;
  _raw_data := _raw_data self;
  _parsed_data := _parsed_data self;
  gsv_data := gsv_data self;
  lon := new Lon;
  lat := new Lat;
  alt := new Alt;
  track := new Track;
  speed := new Speed;
  pdop := new Pdop;
  hdop := new Hdop;
  vdop := new Vdop;
  hacc := new Hacc;
  vacc := new Vacc;
  utc := new Utc;
  sip := new Sip;
  fix_ := fix_ self;
  ubx_state := ubx_state self
|}.

Definition set_gsv_data (l : list pyval) (self : UBXHandler) : UBXHandler := {|
  app := app self;
  _raw_data := _raw_data self;
  _parsed_data := _parsed_data self;
  gsv_data := l;
  lon := lon self;
  lat := lat self;
  alt := alt self;
  track := track self;
  speed := speed self;
  pdop := pdop self;
  hdop := hdop self;
  vdop := vdop self;
  hacc := hacc self;
  vacc := vacc self;
  utc := utc self;
  sip := sip self;
  fix_ := fix_ self;
  ubx_state := ubx_state self
|}.

Definition set_ubx_state (m : gmap string pyval) (self : UBXHandler) : UBXHandler := {|
  app := app self;
  _raw_data := _raw_data self;
  _parsed_data := _parsed_data self;
  gsv_data := gsv_data self;
  lon := lon self;
  lat := lat self;
  alt := alt self;
  track := track self;
  speed := speed self;
  pdop := pdop self;
  hdop := hdop self;
  vdop := vdop self;
  hacc := hacc self;
  vacc := vacc self;
  utc := utc self;
  sip := sip self;
  fix_ := fix_ self;
  ubx_state := m
|}.

Definition app_call (c : call) (self : UBXHandler) : UBXHandler := {|
  app := {| get_settings := get_settings (app self);
            calls := calls (app self) ++ [c] |};
  _raw_data := _raw_data self;
  _parsed_data := _parsed_data self;
  gsv_data := gsv_data self;
  lon := lon self;
  lat := lat self;
  alt := alt self;
  track := track self;
  speed := speed self;
  pdop := pdop self;
  hdop := hdop self;
  vdop := vdop self;
  hacc := hacc self;
  vacc := vacc self;
  utc := utc self;
  sip := sip self;
  fix_ := fix_ self;
  ubx_state := ubx_state self
|}.

(** ** Methods: state passing with exceptions

    A method maps the object to an outcome and the object as the method left
    it, whether it returned or raised. *)

Definition M (A : Type) : Type := UBXHandler -> outcome A * UBXHandler.

Definition ret {A} (a : A) : M A := fun self => (Ok a, self).

Definition bind {A B} (m : M A) (k : A -> M B) : M B :=
  fun self =>
    match m self with
    | (Ok a, self') => k a self'
    | (Raise e, self') => (Raise e, self')
    end.

Definition eval {A} (o : outcome A) : M A := fun self => (o, self).

Definition read {A} (f : UBXHandler -> A) : M A := fun self => (Ok (f self), self).

Definition update (f : UBXHandler -> UBXHandler) : M unit :=
  fun self => (Ok tt, f self).

Notation "x <- m ;; k" := (bind m (fun x => k))
  (at level 100, m at next level, right associativity) : method_scope.
Notation "m ;; k" := (bind m (fun _ => k))
  (at level 100, right associativity) : method_scope.

(** [self.a = e]: the right-hand side is evaluated first. *)
Definition assign (a : attr) (e : outcome pyval) : M unit :=
  v <- eval e ;; update (self_set a v).
Notation "a ::= e" := (assign a e) (at level 70, no associativity) : method_scope.

(** [try: body  except ValueError: pass] *)
Definition try_except_ValueError (body : M unit) : M unit :=
  fun self =>
    match body self with
    | (Raise ValueError, self') => (Ok tt, self')
    | r => r
    end.

Definition when (b : bool) (m : M unit) : M unit := if b then m else ret tt.

(** [for i in range(n): body i] *)
Fixpoint for_range (i : N) (n : nat) (body : N -> M unit) : M unit :=
  match n with
  | O => ret tt
  | S n' => body i ;; for_range (N.succ i) n' body
  end.

(** A tuple display: the items are evaluated from left to right. *)
Fixpoint tuple_items (items : list (outcome pyval)) : outcome (list pyval) :=
  match items with
  | [] => Ok []
  | o :: items' => o >>= fun v => tuple_items items' >>= fun vs => Ok (v :: vs)
  end.

Definition tuple (items : list (outcome pyval)) : outcome pyval :=
  tuple_items items >>= fun vs => Ok (PTuple vs).

(** ** Outbound polls *)

(** [UBXMessage(ubxClass, ubxID, payload, POLL)] *)
Record UBXPoll : Type := {
  ubxClass : string;
  ubxID : string;
  payload : option bytes
}.

Section Handler.

Variable lib : pyubx2.
Variable int_of_text : string -> option Z.

Definition serial_write (msg : UBXPoll) (serial : list bytes) : list bytes :=
  serial ++ [serialize lib (ubxClass msg) (ubxID msg) (payload msg)].

(** [poll_ubx_config]: [serial] is the sequence of chunks written so far. *)
Definition poll_ubx_config (serial : list bytes) : list bytes :=
  let serial :=
    fold_left (fun serial msgtype =>
                 let msg := {| ubxClass := "CFG"; ubxID := msgtype; payload := None |} in
                 serial_write msg serial)
              ["CFG-PRT"; "CFG-USB"] serial in
  let serial :=
    fold_left (fun serial payload =>
                 let msg := {| ubxClass := "CFG"; ubxID := "CFG-MSG";
                               payload := Some payload |} in
                 serial_write msg serial)
              (map fst (UBX_CONFIG_MESSAGES lib)) serial in
  let msg := {| ubxClass := "CFG"; ubxID := "CFG-INF"; payload := Some [x00] |} in
  serial_write msg serial.

(** ** The Message Decoder

    [UBXMessage.parse] is pyubx2's and not among the sources; the handler only
    calls it, as [parse(data, False)]. *)

(** Modelled from the spec: the decoder's frame layout (§4.1), 2 sync bytes
    first. *)
Definition frame_sync (message : bytes) : bytes := take 2 message.

(** Modelled from the spec: class, id, 2-byte length and payload (§4.1), that
    is everything between the sync marker and the two checksum bytes. *)
Definition frame_body (message : bytes) : bytes :=
  take (length message - 4)%nat (drop 2 message).

(** Modelled from the spec: the 2 checksum bytes that end the frame (§4.1). *)
Definition frame_checksum (message : bytes) : bytes :=
  drop (length message - 2)%nat message.

(** Modelled from the spec: the checksum is computed over class..payload
    (§4.1); the algorithm is the receiver protocol's and comes with [lib]. *)
Definition checksum_ok (message : bytes) : bool :=
  bool_decide (frame_checksum message = calc_checksum lib (frame_body message)).

(** Modelled from the spec: the explicit "unknown" identity marker (§3). *)
Definition UNKNOWN : UBXMessage := {| identity := "unknown"; attrs := ∅ |}.

(** Modelled from the spec: [parse(bytes, strict)] of the Message Decoder
    (§4.1, §7, §8).  It fails with [FramingError] on a bad sync marker and on
    a checksum mismatch (§8: a corrupted checksum always yields
    [FramingError]); a class/id that is not in the table fails in strict mode
    and yields the "unknown" identity in permissive mode (§7: the unknown
    identity is that of a valid frame).  The sync marker, the class/id table
    and the field layouts are the receiver protocol's: they come with
    [lib]. *)
Definition parse (message : bytes) (strict : bool) : outcome UBXMessage :=
  if negb (bool_decide (frame_sync message = UBX_HDR lib)) then Raise FramingError
  else if negb (checksum_ok message) then Raise FramingError
  else
    let body := frame_body message in
    match dict_get (UBX_MSGIDS lib) (take 2 body) with
    | Some ident =>
        Ok {| identity := ident; attrs := payload_attrs lib ident (drop 4 body) |}
    | None => if strict then Raise FramingError else Ok UNKNOWN
    end.

(** ** The handlers *)

Definition frm (c : call) : M unit := update (app_call c).

Definition settings_get {A} (key : settings -> A) : M A :=
  read (fun self => key (get_settings (app self))).

Definition _update_console (raw_data : bytes) (parsed_data : UBXMessage) : M unit :=
  is_raw <- settings_get raw ;;
  if is_raw then frm (update_console (str_raw raw_data))
  else frm (update_console (str_parsed parsed_data)).

Definition _process_CFG_MSG (data : UBXMessage) : M unit :=
  msgtype <- eval (getattr data "msgClass" >>= fun c =>
                   getattr data "msgID" >>= fun i =>
                   (c + i)%py >>= getitem (UBX_CONFIG_MESSAGES lib)) ;;
  rates <- eval (tuple [getattr data "rateDDC"; getattr data "rateUART1";
                        getattr data "rateUART2"; getattr data "rateUSB";
                        getattr data "rateSPI"; getattr data "reserved"]) ;;
  update (fun self => set_ubx_state (<[msgtype := rates]> (ubx_state self)) self).

Definition _process_CFG_INF (data : UBXMessage) : M unit :=
  cfg <- eval (tuple [getattr data "infMsgMaskDDC"; getattr data "infMsgMaskUART1";
                      getattr data "infMsgMaskUART2"; getattr data "infMsgMaskUSB";
                      getattr data "infMsgMaskSPI"]) ;;
  update (fun self => set_ubx_state (<["CFG-INF" := cfg]> (ubx_state self)) self).

Definition _process_CFG_PRT (data : UBXMessage) : M unit :=
  cfg <- eval (tuple [getattr data "mode"; getattr data "baudRate";
                      getattr data "inProtoMask"; getattr data "outProtoMask"]) ;;
  update (fun self => set_ubx_state (<["CFG-PRT" := cfg]> (ubx_state self)) self).

Definition divided_by (d : Z) (x : pyval) : outcome pyval := (x / PInt d)%py.

(** The two branches on the [webmap] setting. *)
Definition frm_mapview_update_map : M unit :=
  self <- read id ;;
  is_webmap <- settings_get webmap ;;
  if is_webmap
  then frm (update_map (lat self) (lon self) (hacc self) (vacc self) "3D" false)
  else frm (update_map (lat self) (lon self) (hacc self) (vacc self) "3D" true).

Definition _process_NAV_POSLLH (data : UBXMessage) : M unit :=
  try_except_ValueError (
    Utc ::= getattr data "iTOW" >>= itow2utc lib ;;
    Lat ::= getattr data "lat" >>= divided_by (10 ^ 7) ;;
    Lon ::= getattr data "lon" >>= divided_by (10 ^ 7) ;;
    Alt ::= getattr data "hMSL" >>= divided_by 1000 ;;
    Hacc ::= getattr data "hAcc" >>= divided_by 1000 ;;
    Vacc ::= getattr data "vAcc" >>= divided_by 1000 ;;
    self <- read id ;;
    frm (update_banner [("time", utc self); ("lat", lat self); ("lon", lon self);
                        ("alt", alt self); ("hacc", hacc self); ("vacc", vacc self)]) ;;
    frm_mapview_update_map).

Definition _process_NAV_PVT (data : UBXMessage) : M unit :=
  try_except_ValueError (
    Utc ::= getattr data "iTOW" >>= itow2utc lib ;;
    Lat ::= getattr data "lat" >>= divided_by (10 ^ 7) ;;
    Lon ::= getattr data "lon" >>= divided_by (10 ^ 7) ;;
    Alt ::= getattr data "hMSL" >>= divided_by 1000 ;;
    Hacc ::= getattr data "hAcc" >>= divided_by 1000 ;;
    Vacc ::= getattr data "vAcc" >>= divided_by 1000 ;;
    Pdop ::= getattr data "pDOP" ;;
    Sip ::= getattr data "numSV" ;;
    Speed ::= getattr data "gSpeed" >>= divided_by 100 ;;
    Track ::= getattr data "headMot" >>= divided_by (10 ^ 5) ;;
    fix' <- eval (getattr data "fixType" >>= gpsfix2str lib) ;;
    self <- read id ;;
    frm (update_banner [("time", utc self); ("lat", lat self); ("lon", lon self);
                        ("alt", alt self); ("hacc", hacc self); ("vacc", vacc self);
                        ("pdop", pdop self); ("sip", sip self);
                        ("speed", speed self); ("fix", fix');
                        ("track", track self)]) ;;
    frm_mapview_update_map).

Definition _process_NAV_VELNED (data : UBXMessage) : M unit :=
  try_except_ValueError (
    Track ::= getattr data "heading" >>= divided_by (10 ^ 5) ;;
    Speed ::= getattr data "gSpeed" >>= divided_by 100 ;;
    self <- read id ;;
    frm (update_banner [("speed", speed self); ("track", track self)])).

Definition sat_record (data : UBXMessage) (idx : string) : outcome pyval :=
  tuple [getattr data ("svid" +:+ idx); getattr data ("elev" +:+ idx);
         getattr data ("azim" +:+ idx); getattr data ("cno" +:+ idx)].

(** The body of the loop: the statement built for index [i] and run by
    [exec]. *)
Definition append_sat (data : UBXMessage) (i : N) : M unit :=
  let idx := "_" +:+ Py.format_02d (i + 1) in
  sat <- eval (sat_record data idx) ;;
  update (fun self => set_gsv_data (gsv_data self ++ [sat]) self).

Definition _process_NAV_SVINFO (data : UBXMessage) : M unit :=
  try_except_ValueError (
    update (set_gsv_data []) ;;
    num_siv <- eval (getattr data "numCh" >>= Py.int int_of_text) ;;
    frm (update_banner [("siv", PInt num_siv)]) ;;
    for_range 0 (Z.to_nat num_siv) (append_sat data) ;;
    self <- read id ;;
    frm (update_sats (gsv_data self)) ;;
    frm (update_graph (gsv_data self) (PInt num_siv))).

Definition _process_NAV_SOL (data : UBXMessage) : M unit :=
  try_except_ValueError (
    Pdop ::= getattr data "pDOP" >>= divided_by 100 ;;
    Sip ::= getattr data "numSV" ;;
    fix' <- eval (getattr data "gpsFix" >>= gpsfix2str lib) ;;
    self <- read id ;;
    frm (update_banner [("dop", pdop self); ("fix", fix'); ("sip", sip self)])).

Definition _process_NAV_DOP (data : UBXMessage) : M unit :=
  try_except_ValueError (
    Pdop ::= getattr data "pDOP" >>= divided_by 100 ;;
    Hdop ::= getattr data "hDOP" >>= divided_by 100 ;;
    Vdop ::= getattr data "vDOP" >>= divided_by 100 ;;
    self <- read id ;;
    frm (update_banner [("dop", pdop self); ("hdop", hdop self);
                        ("vdop", vdop self)])).

(** An instance of a class that defines neither [__bool__] nor [__len__]. *)
Definition object_bool (parsed_data : UBXMessage) : bool := true.

Definition bytes_bool (data : bytes) : bool :=
  match data with
  | [] => false
  | _ => true
  end.

Definition process_data (data : bytes) : M UBXMessage :=
  parsed_data <- eval (parse data false) ;;
  when (String.eqb (identity parsed_data) "CFG-MSG") (_process_CFG_MSG parsed_data) ;;
  when (String.eqb (identity parsed_data) "CFG-PRT") (_process_CFG_PRT parsed_data) ;;
  when (String.eqb (identity parsed_data) "CFG-INF") (_process_CFG_INF parsed_data) ;;
  when (String.eqb (identity parsed_data) "NAV-POSLLH")
       (_process_NAV_POSLLH parsed_data) ;;
  when (String.eqb (identity parsed_data) "NAV-PVT") (_process_NAV_PVT parsed_data) ;;
  when (String.eqb (identity parsed_data) "NAV-VELNED")
       (_process_NAV_VELNED parsed_data) ;;
  when (String.eqb (identity parsed_data) "NAV-SVINFO")
       (_process_NAV_SVINFO parsed_data) ;;
  when (String.eqb (identity parsed_data) "NAV-SOL") (_process_NAV_SOL parsed_data) ;;
  when (String.eqb (identity parsed_data) "NAV-DOP") (_process_NAV_DOP parsed_data) ;;
  when (bytes_bool data || object_bool parsed_data)
       (_update_console data parsed_data) ;;
  ret parsed_data.

End Handler.

(** ** The u-blox receiver protocol

    An instance of the interface, used to run the handler on frames: the sync
    marker, the 8-bit Fletcher checksum, little-endian field layouts of the
    messages the handler knows, and the two conversion helpers. *)

Module Ublox.

Definition byte_of_Z (z : Z) : Byte.byte :=
  match Byte.of_N (Z.to_N (z mod 256)) with
  | Some b => b
  | None => x00
  end.

Definition Z_of_byte (b : Byte.byte) : Z := Z.of_N (Byte.to_N b).

Definition calc_checksum (content : bytes) : bytes :=
  let '(check_a, check_b) :=
    fold_left (fun '(a, b) char =>
                 let a := Z.land (a + Z_of_byte char) 255 in
                 let b := Z.land (b + a) 255 in
                 (a, b))
              content (0, 0) in
  [byte_of_Z check_a; byte_of_Z check_b].

Inductive ubx_type : Type := U1 | U2 | U4 | I1 | I2 | I4 | X1 | X2 | X4 | X6.

Definition width (t : ubx_type) : nat :=
  match t with
  | U1 | I1 | X1 => 1
  | U2 | I2 | X2 => 2
  | U4 | I4 | X4 => 4
  | X6 => 6
  end.

Definition unsigned (bs : bytes) : Z :=
  fold_right (fun b acc => Z_of_byte b + 256 * acc) 0 bs.

Definition signed (bs : bytes) : Z :=
  let v := unsigned bs in
  let top := 2 ^ (8 * Z.of_nat (length bs)) in
  if 2 * v <? top then v else v - top.

Definition field_value (t : ubx_type) (bs : bytes) : pyval :=
  match t with
  | U1 | U2 | U4 => PInt (unsigned bs)
  | I1 | I2 | I4 => PInt (signed bs)
  | X1 | X2 | X4 | X6 => PBytes bs
  end.

(** [z] on [n] bytes, least significant first. *)
Fixpoint le_bytes (n : nat) (z : Z) : bytes :=
  match n with
  | O => []
  | S n' => byte_of_Z z :: le_bytes n' (z / 256)
  end.

(** Every field of the layout is read, in order, from the slice of the
    payload at its offset.  A slice that reaches past the end of a short
    payload is short or empty, and is decoded like any other: to the integer
    of the bytes it has ([0] for none), or to those bytes. *)
Fixpoint read_fields (fields : list (string * ubx_type)) (suffix : string)
    (payload : bytes) (acc : gmap string pyval) : gmap string pyval * bytes :=
  match fields with
  | [] => (acc, payload)
  | (name, t) :: fields' =>
      read_fields fields' suffix (drop (width t) payload)
        (<[name +:+ suffix := field_value t (take (width t) payload)]> acc)
  end.

Fixpoint read_groups (i : N) (n : nat) (fields : list (string * ubx_type))
    (payload : bytes) (acc : gmap string pyval) : gmap string pyval :=
  match n with
  | O => acc
  | S n' =>
      let '(acc, rest) := read_fields fields ("_" +:+ Py.format_02d i) payload acc in
      read_groups (N.succ i) n' fields rest acc
  end.

Record layout : Type := {
  fields : list (string * ubx_type);
  counter : string;
  group : list (string * ubx_type)
}.

Definition flat (fs : list (string * ubx_type)) : layout :=
  {| fields := fs; counter := ""; group := [] |}.

Definition UBX_PAYLOADS : list (string * layout) := [
  ("NAV-POSLLH", flat [("iTOW", U4); ("lon", I4); ("lat", I4); ("height", I4);
                       ("hMSL", I4); ("hAcc", U4); ("vAcc", U4)]);
  ("NAV-STATUS", flat [("iTOW", U4); ("gpsFix", U1); ("flags", X1);
                       ("fixStat", X1); ("flags2", X1); ("ttff", U4);
                       ("msss", U4)]);
  ("NAV-DOP", flat [("iTOW", U4); ("gDOP", U2); ("pDOP", U2); ("tDOP", U2);
                    ("vDOP", U2); ("hDOP", U2); ("nDOP", U2); ("eDOP", U2)]);
  ("NAV-SOL", flat [("iTOW", U4); ("fTOW", I4); ("week", I2); ("gpsFix", U1);
                    ("flags", X1); ("ecefX", I4); ("ecefY", I4); ("ecefZ", I4);
                    ("pAcc", U4); ("ecefVX", I4); ("ecefVY", I4); ("ecefVZ", I4);
                    ("sAcc", U4); ("pDOP", U2); ("reserved1", U1); ("numSV", U1);
                    ("reserved2", U4)]);
  ("NAV-PVT", flat [("iTOW", U4); ("year", U2); ("month", U1); ("day", U1);
                    ("hour", U1); ("min", U1); ("second", U1); ("valid", X1);
                    ("tAcc", U4); ("nano", I4); ("fixType", U1); ("flags", X1);
                    ("flags2", X1); ("numSV", U1); ("lon", I4); ("lat", I4);
                    ("height", I4); ("hMSL", I4); ("hAcc", U4); ("vAcc", U4);
                    ("velN", I4); ("velE", I4); ("velD", I4); ("gSpeed", I4);
                    ("headMot", I4); ("sAcc", U4); ("headAcc", U4); ("pDOP", U2);
                    ("reserved1", X6); ("headVeh", I4); ("magDec", I2);
                    ("magAcc", U2)]);
  ("NAV-VELNED", flat [("iTOW", U4); ("velN", I4); ("velE", I4); ("velD", I4);
                       ("speed", U4); ("gSpeed", U4); ("heading", I4);
                       ("sAcc", U4); ("cAcc", U4)]);
  ("NAV-SVINFO", {| fields := [("iTOW", U4); ("numCh", U1); ("globalFlags", X1);
                               ("reserved2", U2)];
                    counter := "numCh";
                    group := [("chn", U1); ("svid", U1); ("flags", X1);
                              ("quality", X1); ("cno", U1); ("elev", I1);
                              ("azim", I2); ("prRes", I4)] |});
  ("CFG-PRT", flat [("portID", U1); ("reserved0", U1); ("txReady", X2);
                    ("mode", X4); ("baudRate", U4); ("inProtoMask", X2);
                    ("outProtoMask", X2); ("reserved4", U2); ("reserved5", U2)]);
  ("CFG-MSG", flat [("msgClass", X1); ("msgID", X1); ("rateDDC", U1);
                    ("rateUART1", U1); ("rateUART2", U1); ("rateUSB", U1);
                    ("rateSPI", U1); ("reserved", U1)]);
  ("CFG-INF", flat [("protocolID", U1); ("reserved0", U1); ("reserved1", U2);
                    ("infMsgMaskDDC", X1); ("infMsgMaskUART1", X1);
                    ("infMsgMaskUART2", X1); ("infMsgMaskUSB", X1);
                    ("infMsgMaskSPI", X1); ("reserved2", X1)])
].

Fixpoint layout_of (table : list (string * layout)) (ident : string) : option layout :=
  match table with
  | [] => None
  | (name, l) :: table' => if String.eqb name ident then Some l else layout_of table' ident
  end.

(** The attributes of a message.  A frame of length zero is a message
    without payload (a poll): it has no payload attribute at all. *)
Definition payload_attrs (ident : string) (payload : bytes) : gmap string pyval :=
  match payload, layout_of UBX_PAYLOADS ident with
  | [], _ | _, None => ∅
  | _, Some l =>
      let '(acc, rest) := read_fields (fields l) "" payload ∅ in
      match acc !! counter l with
      | Some (PInt n) => read_groups 1 (Z.to_nat n) (group l) rest acc
      | _ => acc
      end
  end.

Definition UBX_HDR : bytes := [xb5; x62].

Definition UBX_MSGIDS : list (bytes * string) := [
  ([x01; x02], "NAV-POSLLH"); ([x01; x03], "NAV-STATUS"); ([x01; x04], "NAV-DOP");
  ([x01; x06], "NAV-SOL"); ([x01; x07], "NAV-PVT"); ([x01; x12], "NAV-VELNED");
  ([x01; x30], "NAV-SVINFO"); ([x05; x00], "ACK-NAK"); ([x05; x01], "ACK-ACK");
  ([x06; x00], "CFG-PRT"); ([x06; x01], "CFG-MSG"); ([x06; x02], "CFG-INF");
  ([x06; x1b], "CFG-USB")
].

Definition UBX_CONFIG_MESSAGES : list (bytes * string) := [
  ([x01; x02], "NAV-POSLLH"); ([x01; x03], "NAV-STATUS"); ([x01; x04], "NAV-DOP");
  ([x01; x06], "NAV-SOL"); ([x01; x07], "NAV-PVT"); ([x01; x12], "NAV-VELNED");
  ([x01; x30], "NAV-SVINFO"); ([xf0; x00], "GGA"); ([xf0; x01], "GLL");
  ([xf0; x02], "GSA"); ([xf0; x03], "GSV"); ([xf0; x04], "RMC"); ([xf0; x05], "VTG")
].

Fixpoint msgid_of (table : list (bytes * string)) (ident : string) : bytes :=
  match table with
  | [] => []
  | (k, name) :: table' => if String.eqb name ident then k else msgid_of table' ident
  end.

(** sync marker, class, id, length, payload, checksum *)
Definition frame (ident : string) (payload : bytes) : bytes :=
  let body := msgid_of UBX_MSGIDS ident ++ le_bytes 2 (Z.of_nat (length payload))
              ++ payload in
  UBX_HDR ++ body ++ calc_checksum body.

Definition serialize (ubxClass ubxID : string) (payload : option bytes) : bytes :=
  frame ubxID (default [] payload).

(** GPS time of week in milliseconds to UTC time of day:
    [(datetime(1980, 1, 6) + timedelta(seconds=iTOW / 1000 - (35 - 19))).time()],
    on the integer a decoded [iTOW] is.  The seconds are a binary64 that
    [timedelta] rounds to the microsecond, which for the 32-bit values of the
    field is the exact number of microseconds taken here. *)
Definition itow2utc (iTOW : pyval) : outcome pyval :=
  match iTOW with
  | PInt ms =>
      let us := ((ms - 16000) * 1000) mod 86400000000 in
      Ok (PTime (us / 3600000000) ((us / 60000000) mod 60)
                ((us / 1000000) mod 60) (us mod 1000000))
  | _ => Raise TypeError
  end.

Definition gpsfix2str (fix' : pyval) : outcome pyval :=
  match fix' with
  | PInt 5 => Ok (PStr "TIME ONLY")
  | PInt 4 => Ok (PStr "GPS + DR")
  | PInt 3 => Ok (PStr "3D")
  | PInt 2 => Ok (PStr "2D")
  | PInt 1 => Ok (PStr "DR")
  | _ => Ok (PStr "NO FIX")
  end.

Definition lib : pyubx2 :=
  Build_pyubx2 UBX_HDR calc_checksum UBX_MSGIDS UBX_CONFIG_MESSAGES payload_attrs
               serialize itow2utc gpsfix2str.

(** [int(text)] in base 10, on ASCII text: surrounding whitespace is
    dropped, then comes an optional sign and at least one digit, with single
    underscores allowed between digits. *)
Definition is_space (c : ascii) : bool :=
  let n := nat_of_ascii c in
  ((9 <=? n) && (n <=? 13) || (28 <=? n) && (n <=? 32))%nat.

Definition digit_of (c : ascii) : option Z :=
  let n := Z.of_nat (nat_of_ascii c) in
  if (48 <=? n) && (n <=? 57) then Some (n - 48) else None.

Fixpoint lstrip (s : list ascii) : list ascii :=
  match s with
  | c :: s' => if is_space c then lstrip s' else s
  | [] => []
  end.

Definition strip (s : list ascii) : list ascii := rev (lstrip (rev (lstrip s))).

(** [after_digit]: the character before was a digit. *)
Fixpoint digits (acc : Z) (after_digit : bool) (s : list ascii) : option Z :=
  match s with
  | [] => if after_digit then Some acc else None
  | c :: s' =>
      match digit_of c with
      | Some d => digits (10 * acc + d) true s'
      | None => if Ascii.eqb c "_" && after_digit then digits acc false s' else None
      end
  end.

Definition int_of_text (s : string) : option Z :=
  match strip (String.list_ascii_of_string s) with
  | "-"%char :: s' => Z.opp <$> digits 0 false s'
  | "+"%char :: s' => digits 0 false s'
  | s' => digits 0 false s'
  end.

(** Encoding of a payload: each value on the width of its field. *)
Fixpoint payload_of (vs : list (ubx_type * Z)) : bytes :=
  match vs with
  | [] => []
  | (t, z) :: vs' => le_bytes (width t) z ++ payload_of vs'
  end.

End Ublox.

(** ** Frames and message objects used in the examples *)

Module Frames.
Import Ublox.

Definition app0 : App :=
  {| get_settings := {| raw := false; webmap := false |}; calls := [] |}.

Definition posllh : bytes :=
  frame "NAV-POSLLH"
    (payload_of [(U4, 100000); (I4, -1234567); (I4, 473397625); (I4, 500000);
                 (I4, 412345); (U4, 2500); (U4, 3500)]).

(** A message object given by its attributes, for the handlers called on
    their own. *)
Definition message (ident : string) (fields : list (string * pyval)) : UBXMessage :=
  {| identity := ident; attrs := list_to_map fields |}.

(** A fix a little further north, as an object that has no accuracy
    attribute. *)
Definition posllh_no_accuracy : UBXMessage :=
  message "NAV-POSLLH"
    [("iTOW", PInt 101000); ("lon", PInt (-1234000)); ("lat", PInt 473400000);
     ("height", PInt 500000); ("hMSL", PInt 412000)].

(** The same with the horizontal accuracy and without the vertical one. *)
Definition posllh_no_vacc : UBXMessage :=
  message "NAV-POSLLH"
    [("iTOW", PInt 101000); ("lon", PInt (-1234000)); ("lat", PInt 473400000);
     ("height", PInt 500000); ("hMSL", PInt 412000); ("hAcc", PInt 1500)].

(** [posllh] with its last checksum byte changed. *)
Definition posllh_corrupted : bytes := take 35 posllh ++ [xf9].

Definition status : bytes :=
  frame "NAV-STATUS"
    (payload_of [(U4, 100000); (U1, 3); (X1, 0); (X1, 0); (X1, 0); (U4, 0);
                 (U4, 0)]).

Definition dop : bytes :=
  frame "NAV-DOP"
    (payload_of [(U4, 100000); (U2, 300); (U2, 250); (U2, 120); (U2, 200);
                 (U2, 150); (U2, 100); (U2, 100)]).

Definition pvt : bytes :=
  frame "NAV-PVT"
    (payload_of [(U4, 101000); (U2, 2020); (U1, 9); (U1, 30); (U1, 12); (U1, 0);
                 (U1, 1); (X1, 7); (U4, 20); (I4, 0); (U1, 3); (X1, 1); (X1, 0);
                 (U1, 9); (I4, -1234567); (I4, 473397625); (I4, 500000);
                 (I4, 412345); (U4, 2500); (U4, 3500); (I4, 0); (I4, 0); (I4, 0);
                 (I4, 125); (I4, 9000000); (U4, 10); (U4, 10); (U2, 999);
                 (X6, 0); (I4, 0); (I2, 0); (U2, 0)]).

Definition svinfo : bytes :=
  frame "NAV-SVINFO"
    (payload_of [(U4, 100000); (U1, 2); (X1, 0); (U2, 0);
                 (U1, 0); (U1, 5); (X1, 0); (X1, 0); (U1, 40); (I1, 45);
                 (I2, 180); (I4, 0);
                 (U1, 1); (U1, 7); (X1, 0); (X1, 0); (U1, 33); (I1, -3);
                 (I2, 270); (I4, 0)]).

Definition cfg_msg : bytes :=
  frame "CFG-MSG"
    (payload_of [(X1, 1); (X1, 2); (U1, 0); (U1, 1); (U1, 0); (U1, 1); (U1, 0);
                 (U1, 0)]).

(** The message a frame decodes to. *)
Definition parsed (data : bytes) : UBXMessage :=
  match parse lib data false with
  | Ok m => m
  | Raise _ => UNKNOWN
  end.

Definition run (data : bytes) (self : UBXHandler) : outcome UBXMessage * UBXHandler :=
  process_data lib int_of_text data self.

(** The handler after the application has started and [posllh] has been
    processed. *)
Definition after_posllh : UBXHandler :=
  snd (process_data lib int_of_text posllh (init app0)).


(** A complete port configuration. *)
Definition cfg_prt : bytes :=
  frame "CFG-PRT"
    (payload_of [(U1, 1); (U1, 0); (X2, 0); (X4, 2240); (U4, 9600); (X2, 7);
                 (X2, 3); (U2, 0); (U2, 0)]).

Definition cfg_inf : bytes :=
  frame "CFG-INF"
    (payload_of [(U1, 0); (U1, 0); (U2, 0); (X1, 7); (X1, 7); (X1, 0); (X1, 7);
                 (X1, 0); (X1, 0)]).

(** The rates of NAV-PVT. *)
Definition cfg_msg_pvt : bytes :=
  frame "CFG-MSG"
    (payload_of [(X1, 1); (X1, 7); (U1, 0); (U1, 0); (U1, 0); (U1, 1); (U1, 0);
                 (U1, 0)]).

(** The rates of a message (class 0a, id 04) the catalog does not list. *)
Definition cfg_msg_unlisted : bytes :=
  frame "CFG-MSG"
    (payload_of [(X1, 10); (X1, 4); (U1, 0); (U1, 1); (U1, 0); (U1, 1); (U1, 0);
                 (U1, 0)]).

Definition velned : bytes :=
  frame "NAV-VELNED"
    (payload_of [(U4, 102000); (I4, 10); (I4, -20); (I4, 0); (U4, 22);
                 (U4, 250); (I4, 4500000); (U4, 5); (U4, 100)]).

Definition sol : bytes :=
  frame "NAV-SOL"
    (payload_of [(U4, 102000); (I4, 0); (I2, 2125); (U1, 3); (X1, 13);
                 (I4, 0); (I4, 0); (I4, 0); (U4, 100); (I4, 0); (I4, 0);
                 (I4, 0); (U4, 10); (U2, 180); (U1, 0); (U1, 8); (U4, 0)]).



(** An object that announces three satellites and has no elevation for the
    third. *)
Definition svinfo_two_of_three : UBXMessage :=
  message "NAV-SVINFO"
    [("iTOW", PInt 104000); ("numCh", PInt 3);
     ("svid_01", PInt 12); ("elev_01", PInt 10); ("azim_01", PInt 90);
     ("cno_01", PInt 28);
     ("svid_02", PInt 19); ("elev_02", PInt 62); ("azim_02", PInt 315);
     ("cno_02", PInt 44);
     ("svid_03", PInt 24); ("azim_03", PInt 200); ("cno_03", PInt 17)].

(** An object without a satellite count, and one whose count is text that is
    not a number. *)
Definition svinfo_no_count : UBXMessage :=
  message "NAV-SVINFO" [("iTOW", PInt 104000)].

Definition svinfo_count_text : UBXMessage :=
  message "NAV-SVINFO" [("iTOW", PInt 104000); ("numCh", PStr "n/a")].

Definition svinfo_empty : bytes :=
  frame "NAV-SVINFO" (payload_of [(U4, 100000); (U1, 0); (X1, 0); (U2, 0)]).

(** The handler after [svinfo] has been processed. *)
Definition after_svinfo : UBXHandler := snd (run svinfo (init app0)).

End Frames.

(** ** Vocabulary of the properties *)

Definition succeeds {A} (o : outcome A) : Prop := exists v, o = Ok v.

(** The identities [process_data] has a handler for. *)
Definition registered : list string :=
  ["CFG-MSG"; "CFG-PRT"; "CFG-INF"; "NAV-POSLLH"; "NAV-PVT"; "NAV-VELNED";
   "NAV-SVINFO"; "NAV-SOL"; "NAV-DOP"].

(** The call [_update_console] makes. *)
Definition console_echo (data : bytes) (m : UBXMessage) (self : UBXHandler) : call :=
  update_console
    (if raw (get_settings (app self)) then str_raw data else str_parsed m).

Definition poll (msgtype : string) (payload : option bytes) : UBXPoll :=
  {| ubxClass := "CFG"; ubxID := msgtype; payload := payload |}.

(** The polls of one run of the poller, in the order they are written. *)
Definition polls (lib : pyubx2) : list UBXPoll :=
  [poll "CFG-PRT" None; poll "CFG-USB" None]
  ++ map (fun entry => poll "CFG-MSG" (Some (fst entry))) (UBX_CONFIG_MESSAGES lib)
  ++ [poll "CFG-INF" (Some [x00])].

Definition is_poll (msgtype : string) (p : UBXPoll) : bool :=
  String.eqb (ubxID p) msgtype.

(** A run of assignments [self.a = e], stopped by the first [e] that raises. *)
Fixpoint assigns (steps : list (attr * outcome pyval)) : M unit :=
  match steps with
  | [] => ret tt
  | (a, e) :: steps' => a ::= e ;; assigns steps'
  end.

(** The object after the assignments of [steps] that have a value. *)
Definition assigned (steps : list (attr * outcome pyval)) (self : UBXHandler)
    : UBXHandler :=
  fold_left (fun self '(a, e) =>
               match e with
               | Ok v => self_set a v self
               | Raise _ => self
               end) steps self.

Section Assignments.

Variable lib : pyubx2.
Variable data : UBXMessage.

(** The assignments of each navigation handler, in the order of the text. *)
Definition POSLLH_assignments : list (attr * outcome pyval) :=
  [(Utc, getattr data "iTOW" >>= itow2utc lib);
   (Lat, getattr data "lat" >>= divided_by (10 ^ 7));
   (Lon, getattr data "lon" >>= divided_by (10 ^ 7));
   (Alt, getattr data "hMSL" >>= divided_by 1000);
   (Hacc, getattr data "hAcc" >>= divided_by 1000);
   (Vacc, getattr data "vAcc" >>= divided_by 1000)].

Definition PVT_assignments : list (attr * outcome pyval) :=
  [(Utc, getattr data "iTOW" >>= itow2utc lib);
   (Lat, getattr data "lat" >>= divided_by (10 ^ 7));
   (Lon, getattr data "lon" >>= divided_by (10 ^ 7));
   (Alt, getattr data "hMSL" >>= divided_by 1000);
   (Hacc, getattr data "hAcc" >>= divided_by 1000);
   (Vacc, getattr data "vAcc" >>= divided_by 1000);
   (Pdop, getattr data "pDOP");
   (Sip, getattr data "numSV");
   (Speed, getattr data "gSpeed" >>= divided_by 100);
   (Track, getattr data "headMot" >>= divided_by (10 ^ 5))].

Definition VELNED_assignments : list (attr * outcome pyval) :=
  [(Track, getattr data "heading" >>= divided_by (10 ^ 5));
   (Speed, getattr data "gSpeed" >>= divided_by 100)].

Definition SOL_assignments : list (attr * outcome pyval) :=
  [(Pdop, getattr data "pDOP" >>= divided_by 100);
   (Sip, getattr data "numSV")].

Definition DOP_assignments : list (attr * outcome pyval) :=
  [(Pdop, getattr data "pDOP" >>= divided_by 100);
   (Hdop, getattr data "hDOP" >>= divided_by 100);
   (Vdop, getattr data "vDOP" >>= divided_by 100)].

End Assignments.

(** [method] makes the assignments of [steps] in order inside
    [try: ... except ValueError: pass], and what it does after them changes
    no attribute, nor the satellite list, nor the configuration store. *)
Definition runs_assignments (steps : list (attr * outcome pyval)) (method : M unit)
    : Prop :=
  forall self : UBXHandler,
    match assigns steps self with
    | (Raise e, self') =>
        method self = (match e with ValueError => Ok tt | _ => Raise e end, self')
    | (Ok _, self') =>
        (forall a, self_get a (snd (method self)) = self_get a self')
        /\ gsv_data (snd (method self)) = gsv_data self'
        /\ ubx_state (snd (method self)) = ubx_state self'
    end.

(** The steps of [steps] before rank [k] all have a value. *)
Definition decodes_before (k : nat) (steps : list (attr * outcome pyval)) : Prop :=
  forall i, (i < k)%nat -> exists b v, steps !! i = Some (b, Ok v).

Definition decodes_beforeb (k : nat) (steps : list (attr * outcome pyval)) : bool :=
  (k <=? length steps)%nat
  && forallb (fun step => match snd step with Ok _ => true | Raise _ => false end)
             (take k steps).

(** [method] stops at the first assignment of [steps] that raises: the
    attributes assigned before it have their new values, the attributes from
    there on and everything else in the object are as before, and only a
    [ValueError] is kept from the caller. *)
Definition prefix_update (steps : list (attr * outcome pyval)) (method : M unit)
    : Prop :=
  forall (self : UBXHandler) (k : nat) (a : attr) (e : exn),
    steps !! k = Some (a, Raise e) ->
    decodes_before k steps ->
    fst (method self) = match e with ValueError => Ok tt | _ => Raise e end
    /\ (forall i b v, (i < k)%nat -> steps !! i = Some (b, Ok v) ->
        self_get b (snd (method self)) = v)
    /\ (forall j b o, (k <= j)%nat -> steps !! j = Some (b, o) ->
        self_get b (snd (method self)) = self_get b self)
    /\ (forall b, b ∉ (take k steps).*1 ->
        self_get b (snd (method self)) = self_get b self)
    /\ gsv_data (snd (method self)) = gsv_data self
    /\ ubx_state (snd (method self)) = ubx_state self
    /\ app (snd (method self)) = app self.

(** The suffix of the attribute names of satellite [i]. *)
Definition sat_idx (i : N) : string := "_" +:+ Py.format_02d i.

(** The character of the decimal digit [d]. *)
Definition digit_char (d : N) : ascii := ascii_of_N (48 + d).

(** The decimal digits of [n], the most significant first, in front of
    [acc]; [fuel] bounds their number. *)
Fixpoint decimal (fuel : nat) (n : N) (acc : string) : string :=
  match fuel with
  | O => acc
  | S fuel' =>
      let acc' := String (digit_char (n mod 10)) acc in
      if (n <? 10)%N then acc' else decimal fuel' (n / 10) acc'
  end.

(** The suffix of the names of the attributes of the satellite of index [i],
    written out digit by digit: an underscore, then [i] in decimal on two
    digits at least ([_01], ..., [_09], [_10], ..., [_99], [_100], ...). *)
Definition index_suffix (i : nat) : string :=
  let n := N.of_nat i in
  "_" +:+ (if (n <? 10)%N then "0" else "") +:+ decimal (S (N.size_nat n)) n "".

(** [data] has the four attributes of the satellite of index [i], with the
    values given for that index. *)
Definition has_satellite (data : UBXMessage) (svid elev azim cno : nat -> pyval)
    (i : nat) : Prop :=
  attrs data !! ("svid" +:+ index_suffix i) = Some (svid i)
  /\ attrs data !! ("elev" +:+ index_suffix i) = Some (elev i)
  /\ attrs data !! ("azim" +:+ index_suffix i) = Some (azim i)
  /\ attrs data !! ("cno" +:+ index_suffix i) = Some (cno i).

(** The satellite list with one record per index from 1 to [n], in order. *)
Definition records (svid elev azim cno : nat -> pyval) (n : nat) : list pyval :=
  map (fun i => PTuple [svid i; elev i; azim i; cno i]) (seq 1 n).

(** The float a literal denotes. *)
Definition float_literal (x : float) : pyval := PFloat (Prim2SF x).

(** The method [process_data] calls for an identity. *)
Definition handler_of (lib : pyubx2) (int_of_text : string -> option Z)
    (ident : string) : option (UBXMessage -> M unit) :=
  if String.eqb ident "CFG-MSG" then Some (_process_CFG_MSG lib)
  else if String.eqb ident "CFG-PRT" then Some _process_CFG_PRT
  else if String.eqb ident "CFG-INF" then Some _process_CFG_INF
  else if String.eqb ident "NAV-POSLLH" then Some (_process_NAV_POSLLH lib)
  else if String.eqb ident "NAV-PVT" then Some (_process_NAV_PVT lib)
  else if String.eqb ident "NAV-VELNED" then Some _process_NAV_VELNED
  else if String.eqb ident "NAV-SVINFO" then Some (_process_NAV_SVINFO int_of_text)
  else if String.eqb ident "NAV-SOL" then Some (_process_NAV_SOL lib)
  else if String.eqb ident "NAV-DOP" then Some _process_NAV_DOP
  else None.

(** The key and the tuple a configuration message is stored under. *)
Definition CFG_MSG_entry (lib : pyubx2) (data : UBXMessage) : outcome (string * pyval) :=
  (getattr data "msgClass" >>= fun c =>
   getattr data "msgID" >>= fun i =>
   (c + i)%py >>= getitem (UBX_CONFIG_MESSAGES lib)) >>= fun msgtype =>
  tuple [getattr data "rateDDC"; getattr data "rateUART1";
         getattr data "rateUART2"; getattr data "rateUSB";
         getattr data "rateSPI"; getattr data "reserved"] >>= fun rates =>
  Ok (msgtype, rates).

Definition CFG_INF_entry (data : UBXMessage) : outcome (string * pyval) :=
  tuple [getattr data "infMsgMaskDDC"; getattr data "infMsgMaskUART1";
         getattr data "infMsgMaskUART2"; getattr data "infMsgMaskUSB";
         getattr data "infMsgMaskSPI"] >>= fun cfg =>
  Ok ("CFG-INF", cfg).

Definition CFG_PRT_entry (data : UBXMessage) : outcome (string * pyval) :=
  tuple [getattr data "mode"; getattr data "baudRate";
         getattr data "inProtoMask"; getattr data "outProtoMask"] >>= fun cfg =>
  Ok ("CFG-PRT", cfg).

(** Storing an entry, or raising what its evaluation raised. *)
Definition store_entry (entry : outcome (string * pyval)) : M unit :=
  fun self =>
    match entry with
    | Ok (key, cfg) => (Ok tt, set_ubx_state (<[key := cfg]> (ubx_state self)) self)
    | Raise e => (Raise e, self)
    end.

(** The record of satellite [i + 1], ... , [i + n] of a message, in order. *)
Fixpoint sats (data : UBXMessage) (i : N) (n : nat) : list pyval :=
  match n with
  | O => []
  | S n' =>
      match sat_record data (sat_idx (i + 1)) with
      | Ok sat => sat :: sats data (N.succ i) n'
      | Raise _ => []
      end
  end.

(** ** Vocabulary of the properties of the whole class *)

(** [m] leaves the part [f] of the object as it found it, whether it returns
    or raises. *)
Definition preserves {A B} (f : UBXHandler -> B) (m : M A) : Prop :=
  forall self, f (snd (m self)) = f self.

(** The attributes set by [__init__] that no method assigns. *)
Definition never_assigned (self : UBXHandler) : pyval * pyval * pyval :=
  (fix_ self, _raw_data self, _parsed_data self).

(** The navigation attributes the handler of an identity assigns. *)
Definition written_attrs (ident : string) : list attr :=
  if String.eqb ident "NAV-POSLLH" then [Utc; Lat; Lon; Alt; Hacc; Vacc]
  else if String.eqb ident "NAV-PVT"
       then [Utc; Lat; Lon; Alt; Hacc; Vacc; Pdop; Sip; Speed; Track]
  else if String.eqb ident "NAV-VELNED" then [Track; Speed]
  else if String.eqb ident "NAV-SOL" then [Pdop; Sip]
  else if String.eqb ident "NAV-DOP" then [Pdop; Hdop; Vdop]
  else [].

Definition config_identities : list string := ["CFG-MSG"; "CFG-PRT"; "CFG-INF"].

(** The names of the six rates of a CFG-MSG response, in tuple order. *)
Definition rate_names : list string :=
  ["rateDDC"; "rateUART1"; "rateUART2"; "rateUSB"; "rateSPI"; "reserved"].

(** The calls a handler makes once its assignments are done. *)
Definition map_call (self : UBXHandler) : call :=
  update_map (lat self) (lon self) (hacc self) (vacc self) "3D"
             (negb (webmap (get_settings (app self)))).

Definition POSLLH_banner (self : UBXHandler) : call :=
  update_banner [("time", utc self); ("lat", lat self); ("lon", lon self);
                 ("alt", alt self); ("hacc", hacc self); ("vacc", vacc self)].

Definition PVT_banner (self : UBXHandler) (fix' : pyval) : call :=
  update_banner [("time", utc self); ("lat", lat self); ("lon", lon self);
                 ("alt", alt self); ("hacc", hacc self); ("vacc", vacc self);
                 ("pdop", pdop self); ("sip", sip self); ("speed", speed self);
                 ("fix", fix'); ("track", track self)].

Definition VELNED_banner (self : UBXHandler) : call :=
  update_banner [("speed", speed self); ("track", track self)].

Definition SOL_banner (self : UBXHandler) (fix' : pyval) : call :=
  update_banner [("dop", pdop self); ("fix", fix'); ("sip", sip self)].

Definition DOP_banner (self : UBXHandler) : call :=
  update_banner [("dop", pdop self); ("hdop", hdop self); ("vdop", vdop self)].

(** Every assignment of [steps] has a value, and the object holds them. *)
Definition all_assigned (steps : list (attr * outcome pyval)) (self : UBXHandler)
    : Prop :=
  forall a e, (a, e) ∈ steps -> e = Ok (self_get a self).

(** The assignments the handler of an identity makes for a message. *)
Definition assignments_of (lib : pyubx2) (ident : string) (data : UBXMessage)
    : list (attr * outcome pyval) :=
  if String.eqb ident "NAV-POSLLH" then POSLLH_assignments lib data
  else if String.eqb ident "NAV-PVT" then PVT_assignments lib data
  else if String.eqb ident "NAV-VELNED" then VELNED_assignments data
  else if String.eqb ident "NAV-SOL" then SOL_assignments data
  else if String.eqb ident "NAV-DOP" then DOP_assignments data
  else [].

(** The four attribute names of a satellite record, without their suffix. *)
Definition sat_fields : list string := ["svid"; "elev"; "azim"; "cno"].

(** The calls the satellite handler makes once the list is built. *)
Definition SVINFO_calls (num_siv : Z) (gsv : list pyval) : list call :=
  [update_banner [("siv", PInt num_siv)]; update_sats gsv;
   update_graph gsv (PInt num_siv)].

(** * Properties *)

(** ** The interpreter's arithmetic and the protocol instance on examples *)

Example truediv_250 :
  (PInt 250 / PInt 100)%py = Ok (float_literal 2.5).
Proof. vm_compute. reflexivity. Qed.

Example truediv_neg_zero :
  (PInt 0 / PInt (-5))%py = Ok (PFloat (S754_zero true)).
Proof. reflexivity. Qed.

Example truediv_bytes : (PBytes [x01] / PInt 100)%py = Raise TypeError.
Proof. reflexivity. Qed.

Example truediv_overflow : (PInt (2 ^ 1100) / PInt 3)%py = Raise OverflowError.
Proof. vm_compute. reflexivity. Qed.

(** The stored latitude is the binary64 nearest to 473397625 / 10^7: it is
    within half a unit in the last place (2^-48) of the quotient. *)
Example truediv_lat_nearest :
  Py.int_truediv 473397625 (10 ^ 7)
  = Ok (PFloat (S754_finite false 6662479273587743 (-47)))
  /\ 2 * Z.abs (6662479273587743 * 10 ^ 7 - 473397625 * 2 ^ 47) <= 10 ^ 7.
Proof. split; [vm_compute; reflexivity|vm_compute; discriminate]. Qed.

Example format_02d_7 : Py.format_02d 7 = "07".
Proof. reflexivity. Qed.

Example format_02d_12 : Py.format_02d 12 = "12".
Proof. reflexivity. Qed.

Example format_02d_100 : Py.format_02d 100 = "100".
Proof. reflexivity. Qed.

Example checksum_cfg_prt_poll :
  Ublox.serialize "CFG" "CFG-PRT" None = [xb5; x62; x06; x00; x00; x00; x06; x18].
Proof. reflexivity. Qed.

Example parse_unknown_permissive :
  parse Ublox.lib ([xb5; x62] ++ [x0a; x04; x00; x00] ++ [x0e; x34]) false = Ok UNKNOWN.
Proof. vm_compute. reflexivity. Qed.

Example parse_unknown_strict :
  parse Ublox.lib ([xb5; x62] ++ [x0a; x04; x00; x00] ++ [x0e; x34]) true
  = Raise FramingError.
Proof. vm_compute. reflexivity. Qed.

Example parse_bad_sync :
  parse Ublox.lib ([xb5; x63] ++ [x0a; x04; x00; x00] ++ [x0e; x34]) false
  = Raise FramingError.
Proof. vm_compute. reflexivity. Qed.

(** A port configuration cut after [mode]: the fields the payload lacks
    decode to [0] and to empty bytes, and the handler stores them. *)
Example cfg_prt_short_payload :
  ubx_state
    (snd (Frames.run
            (Ublox.frame "CFG-PRT"
               (Ublox.payload_of [(Ublox.U1, 1); (Ublox.U1, 0); (Ublox.X2, 0);
                                  (Ublox.X4, 2240)]))
            (init Frames.app0))) !! "CFG-PRT"
  = Some (PTuple [PBytes [xc0; x08; x00; x00]; PInt 0; PBytes []; PBytes []]).
Proof. vm_compute. reflexivity. Qed.

(** A position cut before the accuracy fields: both accuracies decode to
    [0], and the handler returns after its three calls. *)
Example posllh_short_payload :
  let data :=
    Ublox.frame "NAV-POSLLH"
      (Ublox.payload_of [(Ublox.U4, 101000); (Ublox.I4, -1234000);
                         (Ublox.I4, 473400000); (Ublox.I4, 500000);
                         (Ublox.I4, 412000)]) in
  fst (Frames.run data Frames.after_posllh) = Ok (Frames.parsed data)
  /\ hacc (snd (Frames.run data Frames.after_posllh)) = float_literal 0
  /\ vacc (snd (Frames.run data Frames.after_posllh)) = float_literal 0
  /\ length (calls (app (snd (Frames.run data Frames.after_posllh)))) = 6%nat.
Proof. vm_compute. repeat split; reflexivity. Qed.

Example int_of_text_literals :
  map Ublox.int_of_text ["42"; "+5"; " 5 "; "1_0"; "-12"; "007"]
  = [Some 42; Some 5; Some 5; Some 10; Some (-12); Some 7]
  /\ map Ublox.int_of_text [""; "-"; "1__0"; "_1"; "1_"; "- 5"; "0x10"; "n/a"]
     = [None; None; None; None; None; None; None; None].
Proof. vm_compute. split; reflexivity. Qed.

Example itow2utc_millisecond :
  Ublox.itow2utc (PInt 100001) = Ok (PTime 0 1 24 1000).
Proof. vm_compute. reflexivity. Qed.


(** ** Running methods *)

Lemma self_get_set_eq a v self : self_get a (self_set a v self) = v.
Proof. destruct a; reflexivity. Qed.

Lemma self_get_set_ne a b v self :
  a <> b -> self_get b (self_set a v self) = self_get b self.
Proof. destruct a, b; intros H; try reflexivity; congruence. Qed.

Lemma not_registered_eqb (s t : string) :
  s ∉ registered -> t ∈ registered -> String.eqb s t = false.
Proof.
  intros Hs Ht. apply String.eqb_neq. intros ->. exact (Hs Ht).
Qed.

Lemma fold_left_write {A B} (f : A -> B) (l : list A) (out : list B) :
  fold_left (fun out x => out ++ [f x]) l out = out ++ map f l.
Proof.
  revert out. induction l as [|x l IH]; intros out; simpl.
  - symmetry. apply app_nil_r.
  - rewrite IH, <- app_assoc. reflexivity.
Qed.

Lemma filter_other_polls (t : string) (catalog : list (bytes * string)) :
  t <> "CFG-MSG" ->
  List.filter (is_poll t)
    (map (fun entry => poll "CFG-MSG" (Some (fst entry))) catalog) = [].
Proof.
  intros Ht. induction catalog as [|x l IH]; [reflexivity|].
  cbn [map List.filter]. unfold is_poll at 1. cbn [ubxID poll].
  destruct (String.eqb_spec "CFG-MSG" t) as [E|E]; [congruence|exact IH].
Qed.

Lemma filter_rate_polls (catalog : list (bytes * string)) :
  List.filter (is_poll "CFG-MSG")
    (map (fun entry => poll "CFG-MSG" (Some (fst entry))) catalog)
  = map (fun entry => poll "CFG-MSG" (Some (fst entry))) catalog.
Proof.
  induction catalog as [|x l IH]; [reflexivity|].
  cbn [map List.filter]. unfold is_poll at 1. cbn [ubxID poll].
  rewrite String.eqb_refl. f_equal. exact IH.
Qed.

(** ** The suffix of the satellite attributes *)

Example index_suffix_1 : index_suffix 1 = "_01".
Proof. reflexivity. Qed.

Example index_suffix_12 : index_suffix 12 = "_12".
Proof. reflexivity. Qed.

Example index_suffix_100 : index_suffix 100 = "_100".
Proof. reflexivity. Qed.

Lemma digit_cases (P : N -> Prop) :
  Forall P (map N.of_nat (seq 0 10)) -> forall d, (d < 10)%N -> P d.
Proof.
  intros H d Hd. apply (proj1 (List.Forall_forall P _) H).
  apply in_map_iff. exists (N.to_nat d). split; [lia|]. apply in_seq. lia.
Qed.

Ltac by_digit d Hd :=
  pattern d; refine (digit_cases _ _ d Hd); repeat constructor.

Lemma to_lu_succ_digit (q r : N) :
  (0 < q)%N -> (r < 10)%N ->
  Unsigned.to_lu (r + 10 * q)
  = Decimal.revapp (Unsigned.to_lu r) (Unsigned.to_lu q).
Proof.
  intros Hq. induction r as [|r IH] using N.peano_ind; intros Hr.
  - destruct q as [|p]; [lia|]. apply Unsigned.to_ldec_tenfold.
  - replace (N.succ r + 10 * q)%N with (N.succ (r + 10 * q)) by lia.
    rewrite Unsigned.to_lu_succ, IH by lia.
    assert (Hr' : (r < 9)%N) by lia. clear IH Hr.
    generalize (Unsigned.to_lu q). intros l.
    assert (Hd : (r < 10)%N) by lia. revert Hr'.
    by_digit r Hd; intros; try reflexivity; lia.
Qed.

Lemma to_lu_cons (q r : N) (acc : Decimal.uint) :
  (0 < q)%N -> (r < 10)%N ->
  Decimal.revapp (Unsigned.to_lu (r + 10 * q)) acc
  = Decimal.revapp (Unsigned.to_lu q) (Decimal.revapp (Unsigned.to_lu r) acc).
Proof.
  intros Hq Hr. rewrite (to_lu_succ_digit q r Hq Hr).
  generalize (Unsigned.to_lu q). intros l.
  by_digit r Hr.
Qed.

Lemma string_of_digit (d : N) (acc : Decimal.uint) :
  (d < 10)%N ->
  NilEmpty.string_of_uint (Decimal.revapp (Unsigned.to_lu d) acc)
  = String (digit_char d) (NilEmpty.string_of_uint acc).
Proof. intros Hd. by_digit d Hd. Qed.

Lemma string_of_to_lu (fuel : nat) : forall (n : N) (acc : Decimal.uint),
  (n < 10 ^ N.of_nat fuel)%N -> (0 < fuel)%nat ->
  NilEmpty.string_of_uint (Decimal.revapp (Unsigned.to_lu n) acc)
  = decimal fuel n (NilEmpty.string_of_uint acc).
Proof.
  induction fuel as [|fuel IH]; intros n acc Hn Hf; [lia|].
  cbn [decimal]. destruct (N.ltb_spec n 10) as [Hlt|Hge].
  - rewrite N.mod_small by exact Hlt. apply string_of_digit. exact Hlt.
  - destruct fuel as [|fuel'].
    { change (10 ^ N.of_nat 1)%N with 10%N in Hn. lia. }
    pose proof (N.div_mod n 10 ltac:(lia)) as Hdm.
    pose proof (N.mod_lt n 10 ltac:(lia)) as Hr.
    assert (Hq : (0 < n / 10)%N) by (apply N.div_str_pos; lia).
    assert (Hq' : (n / 10 < 10 ^ N.of_nat (S fuel'))%N).
    { apply N.Div0.div_lt_upper_bound.
      replace (N.of_nat (S (S fuel'))) with (N.succ (N.of_nat (S fuel'))) in Hn by lia.
      rewrite N.pow_succ_r' in Hn. exact Hn. }
    replace n with (n mod 10 + 10 * (n / 10))%N at 1 by lia.
    rewrite (to_lu_cons _ _ _ Hq Hr), (IH _ _ Hq') by lia.
    f_equal. apply (string_of_digit _ acc Hr).
Qed.

Lemma size_nat_pow (n : N) : (n < 10 ^ N.of_nat (S (N.size_nat n)))%N.
Proof.
  assert (H : (n < 2 ^ N.of_nat (N.size_nat n))%N).
  { destruct n as [|p]; [reflexivity|]. cbn [N.size_nat].
    induction p as [p IH|p IH|]; cbn [Pos.size_nat];
      rewrite ?Nat2N.inj_succ, ?N.pow_succ_r'; cbn [Pos.size_nat] in *; lia. }
  eapply N.lt_le_trans; [exact H|].
  rewrite Nat2N.inj_succ, N.pow_succ_r'.
  assert (H2 : (2 ^ N.of_nat (N.size_nat n) <= 10 ^ N.of_nat (N.size_nat n))%N)
    by (apply N.pow_le_mono_l; lia).
  lia.
Qed.

Lemma string_of_uint_decimal (n : N) :
  NilZero.string_of_uint (N.to_uint n) = decimal (S (N.size_nat n)) n "".
Proof.
  assert (H : NilEmpty.string_of_uint (N.to_uint n) = decimal (S (N.size_nat n)) n "").
  { replace (N.to_uint n) with (Decimal.revapp (Unsigned.to_lu n) Decimal.Nil)
      by (destruct n; reflexivity).
    apply (string_of_to_lu _ n Decimal.Nil (size_nat_pow n)). lia. }
  rewrite <- H. destruct (N.to_uint n) eqn:E; try reflexivity.
  destruct n as [|p]; [discriminate E|].
  destruct (Unsigned.to_uint_nonnil p E).
Qed.

(** The suffix the handler formats is the index in decimal on two digits at
    least. *)
Lemma sat_idx_index_suffix (i : nat) : sat_idx (N.of_nat i) = index_suffix i.
Proof.
  unfold sat_idx, index_suffix, Py.format_02d. cbv zeta.
  rewrite string_of_uint_decimal. destruct (N.of_nat i <? 10)%N; reflexivity.
Qed.

Section Properties.

Variable lib : pyubx2.
Variable int_of_text : string -> option Z.

(** C3: a frame whose checksum bytes differ from the checksum computed over
    class..payload makes [process_data] raise [FramingError]; the handler
    object (configuration store, navigation attributes, satellite list, and
    the calls made on the application) is exactly as before. *)
Theorem process_data_checksum_mismatch (data : bytes) (self : UBXHandler) :
  frame_checksum data <> calc_checksum lib (frame_body data) ->
  process_data lib int_of_text data self = (Raise FramingError, self).
Proof.
  intros Hck.
  assert (Hp : parse lib data false = Raise FramingError).
  { unfold parse, checksum_ok.
    rewrite (bool_decide_eq_false_2 _ Hck).
    destruct (bool_decide _); reflexivity. }
  unfold process_data, bind, eval. rewrite Hp. reflexivity.
Qed.

(** C7: a parsed message whose identity is none of the nine registered ones
    reaches no handler: [process_data] returns it, and the only change to the
    object is one more call on the application, the console update. *)
Theorem process_data_unregistered (data : bytes) (m : UBXMessage)
    (self : UBXHandler) :
  parse lib data false = Ok m ->
  identity m ∉ registered ->
  process_data lib int_of_text data self
  = (Ok m, app_call (console_echo data m self) self)
  /\ ubx_state (snd (process_data lib int_of_text data self)) = ubx_state self
  /\ (forall a, self_get a (snd (process_data lib int_of_text data self))
                = self_get a self)
  /\ gsv_data (snd (process_data lib int_of_text data self)) = gsv_data self
  /\ calls (app (snd (process_data lib int_of_text data self)))
     = calls (app self) ++ [console_echo data m self].
Proof.
  intros Hp Hid.
  assert (Hrun : process_data lib int_of_text data self
                 = (Ok m, app_call (console_echo data m self) self)).
  { unfold process_data, bind, eval. rewrite Hp.
    rewrite !(not_registered_eqb (identity m)) by
      (first [exact Hid | unfold registered; set_solver]).
    unfold when, ret, console_echo.
    replace (bytes_bool data || object_bool m) with true
      by (unfold object_bool; destruct (bytes_bool data); reflexivity).
    unfold _update_console, bind, settings_get, read, frm, update.
    destruct (raw (get_settings (app self))); reflexivity. }
  rewrite Hrun. split; [reflexivity|].
  split; [reflexivity|]. split; [intros []; reflexivity|].
  split; reflexivity.
Qed.

(** C6: one run of the poller appends to the sink, in this order and with
    nothing read back: the port-configuration poll, the USB-configuration
    poll, one message-rate poll for each entry of the catalog (in catalog
    order, carrying that entry's key), and the info-configuration poll. *)
Theorem poll_ubx_config_polls (serial : list bytes) :
  poll_ubx_config lib serial
  = serial ++ map (fun p => serialize lib (ubxClass p) (ubxID p) (payload p))
                  (polls lib)
  /\ length (List.filter (is_poll "CFG-PRT") (polls lib)) = 1%nat
  /\ length (List.filter (is_poll "CFG-USB") (polls lib)) = 1%nat
  /\ List.filter (is_poll "CFG-MSG") (polls lib)
     = map (fun entry => poll "CFG-MSG" (Some (fst entry))) (UBX_CONFIG_MESSAGES lib)
  /\ length (List.filter (is_poll "CFG-MSG") (polls lib))
     = length (UBX_CONFIG_MESSAGES lib)
  /\ length (List.filter (is_poll "CFG-INF") (polls lib)) = 1%nat.
Proof.
  split.
  { unfold poll_ubx_config, serial_write, polls. cbn [fold_left ubxClass ubxID payload].
    rewrite (fold_left_write
               (fun payload => serialize lib "CFG" "CFG-MSG" (Some payload))).
    rewrite !map_app, !map_map. cbn [map poll ubxClass ubxID payload fst].
    rewrite <- !app_assoc. reflexivity. }
  unfold polls.
  rewrite !List.filter_app, filter_rate_polls, !filter_other_polls by discriminate.
  cbn [List.filter is_poll ubxID poll String.eqb Ascii.eqb Bool.eqb app].
  rewrite !app_nil_r, !app_nil_l, length_map.
  repeat split; reflexivity.
Qed.

(** ** Dispatch *)

Lemma process_data_dispatch (data : bytes) (m : UBXMessage)
    (h : UBXMessage -> M unit) (self : UBXHandler) :
  parse lib data false = Ok m ->
  handler_of lib int_of_text (identity m) = Some h ->
  process_data lib int_of_text data self
  = (h m ;; _update_console data m ;; ret m) self.
Proof.
  intros Hp Hh. unfold process_data, bind at 1, eval. rewrite Hp.
  replace (bytes_bool data || object_bool m) with true
    by (unfold object_bool; destruct (bytes_bool data); reflexivity).
  unfold handler_of in Hh.
  repeat match type of Hh with
  | context [String.eqb (identity m) ?t] =>
      destruct (String.eqb_spec (identity m) t) as [E|_];
      [ try rewrite E in Hh; try rewrite E;
        cbn [String.eqb Ascii.eqb Bool.eqb] in Hh |- *;
        injection Hh as Hh; subst h; unfold bind, when, ret; reflexivity
      | ]
  end.
  discriminate Hh.
Qed.

Lemma handler_escape (data : bytes) (m : UBXMessage)
    (h : UBXMessage -> M unit) (self self' : UBXHandler) (e : exn) :
  parse lib data false = Ok m ->
  handler_of lib int_of_text (identity m) = Some h ->
  h m self = (Raise e, self') ->
  process_data lib int_of_text data self = (Raise e, self').
Proof.
  intros Hp Hh Hr. rewrite (process_data_dispatch _ _ _ _ Hp Hh).
  unfold bind. rewrite Hr. reflexivity.
Qed.

Lemma handler_return (data : bytes) (m : UBXMessage)
    (h : UBXMessage -> M unit) (self self' : UBXHandler) :
  parse lib data false = Ok m ->
  handler_of lib int_of_text (identity m) = Some h ->
  h m self = (Ok tt, self') ->
  process_data lib int_of_text data self
  = (Ok m, app_call (console_echo data m self') self').
Proof.
  intros Hp Hh Hr. rewrite (process_data_dispatch _ _ _ _ Hp Hh).
  unfold bind at 1. rewrite Hr.
  unfold _update_console, bind, settings_get, read, frm, update, console_echo, ret.
  destruct (raw (get_settings (app self'))); reflexivity.
Qed.

(** ** Configuration handlers *)

Lemma _process_CFG_MSG_run (data : UBXMessage) (self : UBXHandler) :
  _process_CFG_MSG lib data self = store_entry (CFG_MSG_entry lib data) self.
Proof.
  unfold _process_CFG_MSG, CFG_MSG_entry, store_entry, bind, eval, update.
  destruct (getattr data "msgClass" >>= _) as [k|e]; [|reflexivity].
  cbn [obind]. destruct (tuple _) as [v|e]; reflexivity.
Qed.

Lemma _process_CFG_INF_run (data : UBXMessage) (self : UBXHandler) :
  _process_CFG_INF data self = store_entry (CFG_INF_entry data) self.
Proof.
  unfold _process_CFG_INF, CFG_INF_entry, store_entry, bind, eval, update.
  destruct (tuple _) as [v|e]; reflexivity.
Qed.

Lemma _process_CFG_PRT_run (data : UBXMessage) (self : UBXHandler) :
  _process_CFG_PRT data self = store_entry (CFG_PRT_entry data) self.
Proof.
  unfold _process_CFG_PRT, CFG_PRT_entry, store_entry, bind, eval, update.
  destruct (tuple _) as [v|e]; reflexivity.
Qed.

Lemma store_entry_raise entry (self self' : UBXHandler) (e : exn) :
  store_entry entry self = (Raise e, self') -> self' = self.
Proof.
  unfold store_entry. destruct entry as [[k v]|e']; intros H; congruence.
Qed.

(** C2, as the code has it: the configuration handlers have no exception
    handler.  When the evaluation of the key or of a field of a CFG-MSG,
    CFG-PRT or CFG-INF message raises, the exception leaves the handler and
    [process_data] (no console update, no return value), and the object, with
    its configuration store, is as before. *)
Theorem config_handler_error_escapes (data : bytes) (m : UBXMessage)
    (self : UBXHandler) (e : exn) :
  parse lib data false = Ok m ->
  (identity m = "CFG-MSG" /\ fst (_process_CFG_MSG lib m self) = Raise e)
  \/ (identity m = "CFG-PRT" /\ fst (_process_CFG_PRT m self) = Raise e)
  \/ (identity m = "CFG-INF" /\ fst (_process_CFG_INF m self) = Raise e) ->
  process_data lib int_of_text data self = (Raise e, self)
  /\ ubx_state (snd (process_data lib int_of_text data self)) = ubx_state self.
Proof.
  intros Hp Hfail.
  assert (Hrun : process_data lib int_of_text data self = (Raise e, self)).
  { destruct Hfail as [[Hid Hr]|[[Hid Hr]|[Hid Hr]]].
    - apply (handler_escape data m (_process_CFG_MSG lib) self self e Hp); [rewrite Hid; reflexivity|].
      destruct (_process_CFG_MSG lib m self) as [o s'] eqn:E. cbn in Hr. subst o.
      rewrite _process_CFG_MSG_run in E. rewrite (store_entry_raise _ _ _ _ E).
      reflexivity.
    - apply (handler_escape data m _process_CFG_PRT self self e Hp); [rewrite Hid; reflexivity|].
      destruct (_process_CFG_PRT m self) as [o s'] eqn:E. cbn in Hr. subst o.
      rewrite _process_CFG_PRT_run in E. rewrite (store_entry_raise _ _ _ _ E).
      reflexivity.
    - apply (handler_escape data m _process_CFG_INF self self e Hp); [rewrite Hid; reflexivity|].
      destruct (_process_CFG_INF m self) as [o s'] eqn:E. cbn in Hr. subst o.
      rewrite _process_CFG_INF_run in E. rewrite (store_entry_raise _ _ _ _ E).
      reflexivity. }
  rewrite Hrun. split; reflexivity.
Qed.

(** C8: processing the same CFG-MSG response a second time leaves the
    configuration store as the first processing left it; when the response
    decodes, both store its rates tuple under its message type. *)
Theorem cfg_msg_idempotent (data : bytes) (m : UBXMessage) (self : UBXHandler) :
  parse lib data false = Ok m ->
  identity m = "CFG-MSG" ->
  let once := snd (process_data lib int_of_text data self) in
  let twice := snd (process_data lib int_of_text data once) in
  ubx_state twice = ubx_state once
  /\ forall msgtype rates,
       CFG_MSG_entry lib m = Ok (msgtype, rates) ->
       ubx_state once = <[msgtype := rates]> (ubx_state self)
       /\ ubx_state once !! msgtype = Some rates
       /\ ubx_state twice !! msgtype = Some rates.
Proof.
  intros Hp Hid once twice.
  assert (Hh : handler_of lib int_of_text (identity m) = Some (_process_CFG_MSG lib))
    by (rewrite Hid; reflexivity).
  assert (Hstep : forall s,
            match CFG_MSG_entry lib m with
            | Ok (k, v) =>
                ubx_state (snd (process_data lib int_of_text data s))
                = <[k := v]> (ubx_state s)
            | Raise _ => snd (process_data lib int_of_text data s) = s
            end).
  { intros s. pose proof (_process_CFG_MSG_run m s) as Hrun.
    unfold store_entry in Hrun.
    destruct (CFG_MSG_entry lib m) as [[k v]|e'].
    - rewrite (handler_return _ _ _ _ _ Hp Hh Hrun). reflexivity.
    - rewrite (handler_escape _ _ _ _ _ _ Hp Hh Hrun). reflexivity. }
  pose proof (Hstep self) as H1. pose proof (Hstep once) as H2.
  fold once in H1. fold twice in H2.
  destruct (CFG_MSG_entry lib m) as [[k v]|e'].
  - split.
    + rewrite H2, H1. apply insert_insert_eq.
    + intros msgtype rates [= <- <-]. split; [exact H1|].
      split; [rewrite H1|rewrite H2]; apply lookup_insert_eq.
  - split; [rewrite H2; reflexivity|]. intros ? ? [=].
Qed.

(** ** Runs of assignments *)

Lemma assigns_cons_ok a v steps (self : UBXHandler) :
  assigns ((a, Ok v) :: steps) self = assigns steps (self_set a v self).
Proof. reflexivity. Qed.

Lemma assigns_cons_raise a e steps (self : UBXHandler) :
  assigns ((a, Raise e) :: steps) self = (Raise e, self).
Proof. reflexivity. Qed.

Lemma decodes_before_cons k o steps :
  decodes_before (S k) (o :: steps) ->
  (exists b v, o = (b, Ok v)) /\ decodes_before k steps.
Proof.
  intros H. split.
  - destruct (H 0%nat) as (b & v & E); [lia|]. exists b, v.
    injection E as ->. reflexivity.
  - intros i Hi. apply (H (S i)). lia.
Qed.

Lemma assigns_raise_prefix steps : forall (self : UBXHandler) k a e,
  steps !! k = Some (a, Raise e) ->
  decodes_before k steps ->
  assigns steps self = (Raise e, assigned (take k steps) self).
Proof.
  induction steps as [|[b o] steps IH]; intros self k a e Hk Hpre.
  - discriminate Hk.
  - destruct k as [|k].
    + injection Hk as -> ->. reflexivity.
    + apply decodes_before_cons in Hpre as [(b' & v & [= -> ->]) Hpre].
      rewrite assigns_cons_ok. cbn [take assigned fold_left].
      apply (IH _ k a e); assumption.
Qed.

Lemma assigned_frame steps : forall self : UBXHandler,
  gsv_data (assigned steps self) = gsv_data self
  /\ ubx_state (assigned steps self) = ubx_state self
  /\ app (assigned steps self) = app self.
Proof.
  induction steps as [|[b [v|e]] steps IH]; intros self; cbn [assigned fold_left].
  - repeat split.
  - destruct (IH (self_set b v self)) as (H1 & H2 & H3).
    unfold assigned in *. rewrite H1, H2, H3. repeat split.
  - apply IH.
Qed.

Lemma assigned_get_notin steps : forall (self : UBXHandler) b,
  b ∉ steps.*1 -> self_get b (assigned steps self) = self_get b self.
Proof.
  induction steps as [|[c o] steps IH]; intros self b Hb; [reflexivity|].
  cbn [fmap list_fmap fst] in Hb. apply not_elem_of_cons in Hb as [Hne Hb].
  cbn [assigned fold_left]. fold (assigned steps).
  destruct o as [v|e]; rewrite (IH _ _ Hb); [|reflexivity].
  apply self_get_set_ne. congruence.
Qed.

Lemma assigned_get_in steps : forall (self : UBXHandler) i b v,
  NoDup steps.*1 ->
  steps !! i = Some (b, Ok v) ->
  self_get b (assigned steps self) = v.
Proof.
  induction steps as [|[c o] steps IH]; intros self i b v Hnd Hi; [discriminate Hi|].
  cbn [fmap list_fmap fst] in Hnd. apply NoDup_cons in Hnd as [Hc Hnd].
  cbn [assigned fold_left]. fold (assigned steps).
  destruct i as [|i].
  - injection Hi as -> ->. rewrite (assigned_get_notin _ _ _ Hc).
    apply self_get_set_eq.
  - apply (IH _ i); assumption.
Qed.

Lemma assigns_get_notin steps : forall (self : UBXHandler) b,
  b ∉ steps.*1 -> self_get b (snd (assigns steps self)) = self_get b self.
Proof.
  induction steps as [|[c o] steps IH]; intros self b Hb; [reflexivity|].
  cbn [fmap list_fmap fst] in Hb. apply not_elem_of_cons in Hb as [Hne Hb].
  destruct o as [v|e].
  - rewrite assigns_cons_ok, (IH _ _ Hb). apply self_get_set_ne. congruence.
  - reflexivity.
Qed.

Lemma assigns_get steps : forall (self : UBXHandler) k b v,
  NoDup steps.*1 ->
  steps !! k = Some (b, Ok v) ->
  decodes_before k steps ->
  self_get b (snd (assigns steps self)) = v.
Proof.
  induction steps as [|[c o] steps IH]; intros self k b v Hnd Hk Hpre;
    [discriminate Hk|].
  cbn [fmap list_fmap fst] in Hnd. apply NoDup_cons in Hnd as [Hc Hnd].
  destruct k as [|k].
  - injection Hk as -> ->. rewrite assigns_cons_ok, (assigns_get_notin _ _ _ Hc).
    apply self_get_set_eq.
  - apply decodes_before_cons in Hpre as [(b' & v' & [= -> ->]) Hpre].
    rewrite assigns_cons_ok. apply (IH _ k); assumption.
Qed.

Lemma runs_assignments_get steps method (self : UBXHandler) k b v :
  NoDup steps.*1 ->
  runs_assignments steps method ->
  steps !! k = Some (b, Ok v) ->
  decodes_before k steps ->
  self_get b (snd (method self)) = v.
Proof.
  intros Hnd Hrun Hk Hpre.
  pose proof (assigns_get steps self k b v Hnd Hk Hpre) as Hget.
  specialize (Hrun self). destruct (assigns steps self) as [[[]|e] s'].
  - destruct Hrun as [Ha _]. rewrite Ha. exact Hget.
  - rewrite Hrun. exact Hget.
Qed.

Lemma runs_assignments_raise steps method (self : UBXHandler) k a e :
  runs_assignments steps method ->
  steps !! k = Some (a, Raise e) ->
  decodes_before k steps ->
  method self = (match e with ValueError => Ok tt | _ => Raise e end,
                 assigned (take k steps) self).
Proof.
  intros Hrun Hk Hpre. specialize (Hrun self).
  rewrite (assigns_raise_prefix steps self k a e Hk Hpre) in Hrun. exact Hrun.
Qed.

Lemma prefix_update_of_runs steps method :
  NoDup steps.*1 -> runs_assignments steps method -> prefix_update steps method.
Proof.
  intros Hnd Hrun self k a e Hk Hpre.
  rewrite (runs_assignments_raise steps method self k a e Hrun Hk Hpre).
  cbn [fst snd].
  destruct (assigned_frame (take k steps) self) as (Hg & Hu & Ha).
  assert (Hlen : (k < length steps)%nat) by (apply lookup_lt_Some in Hk; exact Hk).
  split; [reflexivity|]. split; [|split; [|split]].
  - intros i b v Hi Hb. apply (assigned_get_in _ _ i).
    + rewrite fmap_take. apply (sublist_NoDup _ _ Hnd (sublist_take _ _)).
    + rewrite lookup_take_lt by exact Hi. exact Hb.
  - intros j b o Hj Hb. apply assigned_get_notin.
    rewrite fmap_take. intros Hin.
    apply list_elem_of_lookup in Hin as [i Hi].
    assert (Hik : (i < k)%nat).
    { apply lookup_lt_Some in Hi. rewrite length_take in Hi. lia. }
    rewrite lookup_take_lt in Hi by exact Hik.
    assert (Hjb : steps.*1 !! j = Some b) by (rewrite list_lookup_fmap, Hb; reflexivity).
    pose proof (NoDup_lookup _ _ _ _ Hnd Hi Hjb). lia.
  - intros b Hb. apply assigned_get_notin. exact Hb.
  - auto.
Qed.

Lemma getattr_missing (m : UBXMessage) (name : string) :
  attrs m !! name = None -> getattr m name = Raise AttributeError.
Proof. unfold getattr. intros ->. reflexivity. Qed.

Lemma getattr_present (m : UBXMessage) (name : string) (v : pyval) :
  attrs m !! name = Some v -> getattr m name = Ok v.
Proof. unfold getattr. intros ->. reflexivity. Qed.

(** ** Navigation handlers *)

Ltac hide_outcomes data :=
  repeat match goal with
  | |- context [getattr data ?n >>= ?f] =>
      generalize (getattr data n >>= f); intro
  end;
  repeat match goal with
  | |- context [getattr data ?n] => generalize (getattr data n); intro
  end.

Ltac method_steps :=
  cbv [assigns bind assign eval update ret read try_except_ValueError frm
       frm_mapview_update_map settings_get id fst snd].

Ltac run_assignments data :=
  intros self;
  cbv [POSLLH_assignments PVT_assignments VELNED_assignments SOL_assignments
       DOP_assignments
       _process_NAV_POSLLH _process_NAV_PVT _process_NAV_VELNED
       _process_NAV_SOL _process_NAV_DOP];
  hide_outcomes data;
  repeat match goal with
  | |- context [assigns ((_, ?o) :: _) _] =>
      let e := fresh "e" in
      destruct o as [?|e];
      [ rewrite assigns_cons_ok
      | rewrite assigns_cons_raise; destruct e; method_steps; reflexivity ]
  end;
  method_steps;
  repeat match goal with
  | o : outcome pyval |- _ => destruct o as [?|[]]
  end;
  repeat match goal with
  | |- context [webmap ?s] => destruct (webmap s)
  end;
  (split; [intros []; vm_compute; reflexivity | split; vm_compute; reflexivity]).

Lemma _process_NAV_POSLLH_runs (data : UBXMessage) :
  runs_assignments (POSLLH_assignments lib data) (_process_NAV_POSLLH lib data).
Proof. run_assignments data. Qed.

Lemma _process_NAV_PVT_runs (data : UBXMessage) :
  runs_assignments (PVT_assignments lib data) (_process_NAV_PVT lib data).
Proof. run_assignments data. Qed.

Lemma _process_NAV_VELNED_runs (data : UBXMessage) :
  runs_assignments (VELNED_assignments data) (_process_NAV_VELNED data).
Proof. run_assignments data. Qed.

Lemma _process_NAV_SOL_runs (data : UBXMessage) :
  runs_assignments (SOL_assignments data) (_process_NAV_SOL lib data).
Proof. run_assignments data. Qed.

Lemma _process_NAV_DOP_runs (data : UBXMessage) :
  runs_assignments (DOP_assignments data) (_process_NAV_DOP data).
Proof. run_assignments data. Qed.

Lemma NoDup_attrs (l : list attr) : bool_decide (NoDup l) = true -> NoDup l.
Proof. intros H. apply bool_decide_eq_true_1 in H. exact H. Qed.

Lemma for_range_attrs (m : UBXMessage) (a : attr) :
  forall (n : nat) (i : N) (self : UBXHandler),
    self_get a (snd (for_range i n (append_sat m) self)) = self_get a self.
Proof.
  induction n as [|n IH]; intros i self; [reflexivity|].
  cbn [for_range]. unfold bind at 1, append_sat at 1.
  unfold bind at 1, eval at 1, update at 1.
  destruct (sat_record m _) as [sat|e]; [|reflexivity].
  rewrite IH. destruct a; reflexivity.
Qed.

Lemma _process_NAV_SVINFO_attrs (m : UBXMessage) (self : UBXHandler) (a : attr) :
  self_get a (snd (_process_NAV_SVINFO int_of_text m self)) = self_get a self.
Proof.
  unfold _process_NAV_SVINFO, try_except_ValueError.
  unfold bind at 1, update at 1. unfold bind at 1, eval at 1.
  destruct (getattr m "numCh" >>= Py.int int_of_text) as [n|e];
    [|destruct e, a; reflexivity].
  unfold bind at 1, frm at 1, update at 1. unfold bind at 1.
  pose proof (for_range_attrs m a (Z.to_nat n) 0
                (app_call (update_banner [("siv", PInt n)]) (set_gsv_data [] self)))
    as Hloop.
  destruct (for_range 0 (Z.to_nat n) (append_sat m) _) as [[[]|e] s'];
    cbn [snd] in Hloop.
  - unfold bind, read, frm, update. cbn [snd].
    transitivity (self_get a s'); [destruct a; reflexivity|].
    rewrite Hloop. destruct a; reflexivity.
  - transitivity (self_get a s'); [destruct e; reflexivity|].
    rewrite Hloop. destruct a; reflexivity.
Qed.

(** C10: in each navigation handler the attributes are assigned one after the
    other in the order of the text.  When the right-hand side of the k-th
    assignment raises, the attributes assigned before it hold the values of
    the new message and the attributes from the k-th on (and the rest of the
    object) hold their prior values: the update is a prefix of the message,
    not all or nothing.  (A [ValueError] is then dropped by the handler,
    any other exception leaves it.)  The satellite handler assigns no
    navigation attribute at all. *)
Theorem nav_handlers_prefix_update (data : UBXMessage) :
  prefix_update (POSLLH_assignments lib data) (_process_NAV_POSLLH lib data)
  /\ prefix_update (PVT_assignments lib data) (_process_NAV_PVT lib data)
  /\ prefix_update (VELNED_assignments data) (_process_NAV_VELNED data)
  /\ prefix_update (SOL_assignments data) (_process_NAV_SOL lib data)
  /\ prefix_update (DOP_assignments data) (_process_NAV_DOP data)
  /\ forall self a,
       self_get a (snd (_process_NAV_SVINFO int_of_text data self)) = self_get a self.
Proof.
  split; [|split; [|split; [|split; [|split]]]].
  1-5: apply prefix_update_of_runs; [apply NoDup_attrs; reflexivity|].
  - apply _process_NAV_POSLLH_runs.
  - apply _process_NAV_PVT_runs.
  - apply _process_NAV_VELNED_runs.
  - apply _process_NAV_SOL_runs.
  - apply _process_NAV_DOP_runs.
  - intros self a. apply _process_NAV_SVINFO_attrs.
Qed.

Lemma process_data_state (data : bytes) (m : UBXMessage)
    (h : UBXMessage -> M unit) (self : UBXHandler) :
  parse lib data false = Ok m ->
  handler_of lib int_of_text (identity m) = Some h ->
  (forall a, self_get a (snd (process_data lib int_of_text data self))
             = self_get a (snd (h m self)))
  /\ gsv_data (snd (process_data lib int_of_text data self)) = gsv_data (snd (h m self))
  /\ ubx_state (snd (process_data lib int_of_text data self))
     = ubx_state (snd (h m self)).
Proof.
  intros Hp Hh. destruct (h m self) as [[[]|e] s'] eqn:Hr.
  - rewrite (handler_return _ _ _ _ _ Hp Hh Hr). cbn [snd].
    split; [intros []; reflexivity|split; reflexivity].
  - rewrite (handler_escape _ _ _ _ _ _ Hp Hh Hr). cbn [snd].
    split; [intros a; reflexivity|split; reflexivity].
Qed.

Lemma decodes_before_0 steps : decodes_before 0 steps.
Proof. intros i Hi. lia. Qed.

Lemma decodes_before_S k b v steps :
  decodes_before k steps -> decodes_before (S k) ((b, Ok v) :: steps).
Proof.
  intros H [|i] Hi; [exists b, v; reflexivity|]. apply (H i). lia.
Qed.

Lemma decodes_beforeb_true k steps :
  decodes_beforeb k steps = true -> decodes_before k steps.
Proof.
  unfold decodes_beforeb. intros H.
  apply andb_prop in H as [Hlen Hall]. apply Nat.leb_le in Hlen.
  intros i Hi.
  destruct (lookup_lt_is_Some_2 (take k steps) i) as [[b o] Hbo];
    [rewrite length_take; lia|].
  rewrite forallb_forall in Hall.
  pose proof (Hall (b, o)) as Hok.
  rewrite lookup_take_lt in Hbo by exact Hi.
  exists b. destruct o as [v|e].
  - exists v. exact Hbo.
  - discriminate Hok. apply list_elem_of_In.
    apply list_elem_of_lookup. exists i. rewrite lookup_take_lt by exact Hi.
    exact Hbo.
Qed.

Lemma decodes_before_le k k' steps :
  (k' <= k)%nat -> decodes_before k steps -> decodes_before k' steps.
Proof. intros Hle H i Hi. apply H. lia. Qed.

(** C9: the position handler stores the correctly rounded quotients: a
    latitude field of 473397625 is stored as the float 47.3397625 and a
    height field of 412345 as the float 412.345. *)
Theorem posllh_scale (data : bytes) (m : UBXMessage) (self : UBXHandler) :
  parse lib data false = Ok m ->
  identity m = "NAV-POSLLH" ->
  succeeds (getattr m "iTOW" >>= itow2utc lib) ->
  attrs m !! "lat" = Some (PInt 473397625) ->
  succeeds (getattr m "lon" >>= divided_by (10 ^ 7)) ->
  attrs m !! "hMSL" = Some (PInt 412345) ->
  lat (snd (process_data lib int_of_text data self)) = float_literal 47.3397625
  /\ alt (snd (process_data lib int_of_text data self)) = float_literal 412.345.
Proof.
  intros Hp Hid [t Ht] Hlat [lo Hlo] Halt.
  assert (Hh : handler_of lib int_of_text (identity m)
               = Some (_process_NAV_POSLLH lib)) by (rewrite Hid; reflexivity).
  destruct (process_data_state _ _ _ self Hp Hh) as (Hattr & _ & _).
  assert (Elat : getattr m "lat" >>= divided_by (10 ^ 7)
                 = Ok (float_literal 47.3397625)).
  { rewrite (getattr_present _ _ _ Hlat). vm_compute. reflexivity. }
  assert (Ealt : getattr m "hMSL" >>= divided_by 1000
                 = Ok (float_literal 412.345)).
  { rewrite (getattr_present _ _ _ Halt). vm_compute. reflexivity. }
  assert (Hpre : decodes_before 4 (POSLLH_assignments lib m)).
  { unfold POSLLH_assignments. rewrite Ht, Elat, Hlo, Ealt.
    repeat apply decodes_before_S. apply decodes_before_0. }
  assert (Hnd : NoDup (POSLLH_assignments lib m).*1)
    by (apply NoDup_attrs; reflexivity).
  split.
  - change (self_get Lat (snd (process_data lib int_of_text data self))
            = float_literal 47.3397625).
    rewrite Hattr.
    apply (runs_assignments_get _ _ self 1 Lat _ Hnd (_process_NAV_POSLLH_runs m)).
    + unfold POSLLH_assignments. rewrite Elat. reflexivity.
    + apply (decodes_before_le 4); [lia|exact Hpre].
  - change (self_get Alt (snd (process_data lib int_of_text data self))
            = float_literal 412.345).
    rewrite Hattr.
    apply (runs_assignments_get _ _ self 3 Alt _ Hnd (_process_NAV_POSLLH_runs m)).
    + unfold POSLLH_assignments. rewrite Ealt. reflexivity.
    + apply (decodes_before_le 4); [lia|exact Hpre].
Qed.

(** C4: after a NAV-DOP message with pDOP 250, [pdop] is the float 2.5; a
    NAV-PVT message with pDOP 999 processed next leaves [pdop] at the integer
    999, unscaled. *)
Theorem dop_then_pvt (d1 d2 : bytes) (m1 m2 : UBXMessage) (self : UBXHandler) :
  parse lib d1 false = Ok m1 ->
  identity m1 = "NAV-DOP" ->
  attrs m1 !! "pDOP" = Some (PInt 250) ->
  parse lib d2 false = Ok m2 ->
  identity m2 = "NAV-PVT" ->
  attrs m2 !! "pDOP" = Some (PInt 999) ->
  decodes_before 6 (PVT_assignments lib m2) ->
  let after_dop := snd (process_data lib int_of_text d1 self) in
  let after_pvt := snd (process_data lib int_of_text d2 after_dop) in
  pdop after_dop = float_literal 2.5 /\ pdop after_pvt = PInt 999.
Proof.
  intros Hp1 Hid1 Hdop Hp2 Hid2 Hpvt Hpre after_dop after_pvt.
  assert (Hh1 : handler_of lib int_of_text (identity m1) = Some _process_NAV_DOP)
    by (rewrite Hid1; reflexivity).
  assert (Hh2 : handler_of lib int_of_text (identity m2)
                = Some (_process_NAV_PVT lib)) by (rewrite Hid2; reflexivity).
  split.
  - destruct (process_data_state _ _ _ self Hp1 Hh1) as (Hattr & _ & _).
    change (self_get Pdop after_dop = float_literal 2.5).
    unfold after_dop. rewrite Hattr.
    apply (runs_assignments_get (DOP_assignments m1) _ self 0 Pdop).
    + apply NoDup_attrs. reflexivity.
    + apply _process_NAV_DOP_runs.
    + unfold DOP_assignments. rewrite (getattr_present _ _ _ Hdop).
      vm_compute. reflexivity.
    + apply decodes_before_0.
  - destruct (process_data_state _ _ _ after_dop Hp2 Hh2) as (Hattr & _ & _).
    change (self_get Pdop after_pvt = PInt 999).
    unfold after_pvt. rewrite Hattr.
    apply (runs_assignments_get (PVT_assignments lib m2) _ after_dop 6 Pdop).
    + apply NoDup_attrs. reflexivity.
    + apply _process_NAV_PVT_runs.
    + unfold PVT_assignments. rewrite (getattr_present _ _ _ Hpvt). reflexivity.
    + exact Hpre.
Qed.

(** C1, as the code has it: on a NAV-POSLLH message whose time, latitude,
    longitude and height decode but which has no accuracy attribute ([hAcc]
    missing, or [hAcc] decoding and [vAcc] missing), the handler raises
    [AttributeError], which its [except ValueError] does not catch.  By then
    time, latitude, longitude and altitude hold the values of the new
    message, and so does the horizontal accuracy when it is [vAcc] that is
    missing.  The rest of the object is as before: the horizontal accuracy
    when [hAcc] is missing, the vertical accuracy, the configuration store,
    the satellite list and the application (no banner or map call).  A frame
    decoded to such a message makes [process_data] raise likewise, with no
    console call. *)
Theorem posllh_missing_accuracy (m : UBXMessage) (self : UBXHandler)
    (t la lo al : pyval) :
  getattr m "iTOW" >>= itow2utc lib = Ok t ->
  getattr m "lat" >>= divided_by (10 ^ 7) = Ok la ->
  getattr m "lon" >>= divided_by (10 ^ 7) = Ok lo ->
  getattr m "hMSL" >>= divided_by 1000 = Ok al ->
  attrs m !! "hAcc" = None
  \/ (succeeds (getattr m "hAcc" >>= divided_by 1000) /\ attrs m !! "vAcc" = None) ->
  let positioned :=
    self_set Alt al (self_set Lon lo (self_set Lat la (self_set Utc t self))) in
  let self' :=
    match getattr m "hAcc" >>= divided_by 1000 with
    | Ok ha => self_set Hacc ha positioned
    | Raise _ => positioned
    end in
  _process_NAV_POSLLH lib m self = (Raise AttributeError, self')
  /\ utc self' = t /\ lat self' = la /\ lon self' = lo /\ alt self' = al
  /\ (attrs m !! "hAcc" = None -> hacc self' = hacc self)
  /\ (forall ha, getattr m "hAcc" >>= divided_by 1000 = Ok ha -> hacc self' = ha)
  /\ vacc self' = vacc self
  /\ ubx_state self' = ubx_state self
  /\ gsv_data self' = gsv_data self
  /\ app self' = app self
  /\ forall data, parse lib data false = Ok m -> identity m = "NAV-POSLLH" ->
       process_data lib int_of_text data self = (Raise AttributeError, self').
Proof.
  intros Ht Hla Hlo Hal Hmiss positioned self'.
  assert (Hrun : _process_NAV_POSLLH lib m self = (Raise AttributeError, self')).
  { destruct Hmiss as [Hh0|[[ha Hha] Hv]].
    - rewrite (runs_assignments_raise _ _ self 4 Hacc AttributeError
                 (_process_NAV_POSLLH_runs m)).
      + unfold self', positioned, POSLLH_assignments.
        rewrite Ht, Hla, Hlo, Hal, (getattr_missing _ _ Hh0). reflexivity.
      + unfold POSLLH_assignments. rewrite (getattr_missing _ _ Hh0). reflexivity.
      + unfold POSLLH_assignments. rewrite Ht, Hla, Hlo, Hal.
        repeat apply decodes_before_S. apply decodes_before_0.
    - rewrite (runs_assignments_raise _ _ self 5 Vacc AttributeError
                 (_process_NAV_POSLLH_runs m)).
      + unfold self', positioned, POSLLH_assignments.
        rewrite Ht, Hla, Hlo, Hal, Hha. reflexivity.
      + unfold POSLLH_assignments. rewrite (getattr_missing _ _ Hv). reflexivity.
      + unfold POSLLH_assignments. rewrite Ht, Hla, Hlo, Hal, Hha.
        repeat apply decodes_before_S. apply decodes_before_0. }
  split; [exact Hrun|].
  assert (Hframe : utc self' = t /\ lat self' = la /\ lon self' = lo /\ alt self' = al
                   /\ vacc self' = vacc self /\ ubx_state self' = ubx_state self
                   /\ gsv_data self' = gsv_data self /\ app self' = app self).
  { unfold self', positioned.
    destruct (getattr m "hAcc" >>= divided_by 1000); repeat split; reflexivity. }
  destruct Hframe as (Hu & Hl & Hn & Ha & Hv & Hs & Hg & Hp).
  repeat (split; [assumption|]).
  split.
  { intros Hh0. unfold self', positioned. rewrite (getattr_missing _ _ Hh0).
    reflexivity. }
  split.
  { intros ha Hha. unfold self', positioned. rewrite Hha. reflexivity. }
  repeat (split; [assumption|]).
  intros data Hp' Hid.
  apply (handler_escape data m (_process_NAV_POSLLH lib) self self' _ Hp');
    [rewrite Hid; reflexivity|exact Hrun].
Qed.

(** ** Satellite list *)

Lemma set_gsv_data_id (self : UBXHandler) :
  set_gsv_data (gsv_data self) self = self.
Proof. destruct self; reflexivity. Qed.

Lemma sat_record_attrs (m : UBXMessage) (idx : string) :
  (forall field, field ∈ ["svid"; "elev"; "azim"; "cno"] ->
     is_Some (attrs m !! (field +:+ idx))) ->
  exists svid elev azim cno,
    attrs m !! ("svid" +:+ idx) = Some svid
    /\ attrs m !! ("elev" +:+ idx) = Some elev
    /\ attrs m !! ("azim" +:+ idx) = Some azim
    /\ attrs m !! ("cno" +:+ idx) = Some cno
    /\ sat_record m idx = Ok (PTuple [svid; elev; azim; cno]).
Proof.
  intros H.
  destruct (H "svid") as [a Ha]; [set_solver|].
  destruct (H "elev") as [b Hb]; [set_solver|].
  destruct (H "azim") as [c Hc]; [set_solver|].
  destruct (H "cno") as [d Hd]; [set_solver|].
  exists a, b, c, d. repeat (split; [assumption|]).
  unfold sat_record, tuple, tuple_items.
  rewrite (getattr_present _ _ _ Ha), (getattr_present _ _ _ Hb),
    (getattr_present _ _ _ Hc), (getattr_present _ _ _ Hd).
  reflexivity.
Qed.

Lemma for_range_sats (m : UBXMessage) : forall (n : nat) (i : N) (self : UBXHandler),
  (forall j, (j < n)%nat ->
     succeeds (sat_record m (sat_idx (i + 1 + N.of_nat j)))) ->
  for_range i n (append_sat m) self
  = (Ok tt, set_gsv_data (gsv_data self ++ sats m i n) self)
  /\ length (sats m i n) = n
  /\ forall j, (j < n)%nat ->
       Ok <$> (sats m i n !! j) = Some (sat_record m (sat_idx (i + 1 + N.of_nat j))).
Proof.
  induction n as [|n IH]; intros i self Hok.
  - split; [|split; [reflexivity|intros j Hj; lia]].
    cbn [for_range sats]. unfold ret. rewrite app_nil_r, set_gsv_data_id.
    reflexivity.
  - destruct (Hok 0%nat) as [sat Hsat]; [lia|].
    rewrite N.add_0_r in Hsat.
    assert (Hok' : forall j, (j < n)%nat ->
              succeeds (sat_record m (sat_idx (N.succ i + 1 + N.of_nat j)))).
    { intros j Hj. specialize (Hok (S j)).
      replace (N.succ i + 1 + N.of_nat j)%N with (i + 1 + N.of_nat (S j))%N by lia.
      apply Hok. lia. }
    cbn [for_range sats]. rewrite Hsat.
    unfold bind at 1, append_sat at 1. fold (sat_idx (i + 1)). rewrite Hsat.
    unfold bind at 1, eval at 1, update at 1.
    destruct (IH (N.succ i) (set_gsv_data (gsv_data self ++ [sat]) self) Hok')
      as (Hrun & Hlen & Hnth).
    rewrite Hrun. cbn [gsv_data set_gsv_data]. rewrite <- app_assoc.
    split; [reflexivity|]. split; [cbn [length]; rewrite Hlen; reflexivity|].
    intros [|j] Hj.
    + rewrite N.add_0_r, Hsat. reflexivity.
    + cbn [lookup list_lookup]. rewrite Hnth by lia. do 3 f_equal. lia.
Qed.

Lemma sat_record_indexed (m : UBXMessage) (svid elev azim cno : nat -> pyval)
    (i : nat) :
  has_satellite m svid elev azim cno i ->
  sat_record m (sat_idx (N.of_nat i)) = Ok (PTuple [svid i; elev i; azim i; cno i]).
Proof.
  intros (Ha & Hb & Hc & Hd). rewrite sat_idx_index_suffix.
  unfold sat_record, tuple, tuple_items.
  rewrite (getattr_present _ _ _ Ha), (getattr_present _ _ _ Hb),
    (getattr_present _ _ _ Hc), (getattr_present _ _ _ Hd).
  reflexivity.
Qed.

Lemma sats_records (m : UBXMessage) (svid elev azim cno : nat -> pyval) :
  forall n k : nat,
    (forall i, (k < i <= k + n)%nat -> has_satellite m svid elev azim cno i) ->
    sats m (N.of_nat k) n
    = map (fun i => PTuple [svid i; elev i; azim i; cno i]) (seq (S k) n).
Proof.
  induction n as [|n IH]; intros k Hsat; [reflexivity|].
  cbn [sats seq map].
  replace (N.of_nat k + 1)%N with (N.of_nat (S k)) by lia.
  rewrite (sat_record_indexed m svid elev azim cno (S k)) by (apply Hsat; lia).
  replace (N.succ (N.of_nat k)) with (N.of_nat (S k)) by lia.
  rewrite (IH (S k)) by (intros i Hi; apply Hsat; lia).
  reflexivity.
Qed.

Lemma sat_records_decode (m : UBXMessage) (svid elev azim cno : nat -> pyval)
    (n : nat) :
  (forall i, (1 <= i <= n)%nat -> has_satellite m svid elev azim cno i) ->
  forall j, (j < n)%nat -> succeeds (sat_record m (sat_idx (0 + 1 + N.of_nat j))).
Proof.
  intros Hsat j Hj. replace (0 + 1 + N.of_nat j)%N with (N.of_nat (S j)) by lia.
  eexists. apply (sat_record_indexed m svid elev azim cno). apply Hsat. lia.
Qed.


End Properties.

(** ** The properties on frames and message objects *)

Lemma parsed_ok (data : bytes) :
  match parse Ublox.lib data false with Ok _ => true | Raise _ => false end = true ->
  parse Ublox.lib data false = Ok (Frames.parsed data).
Proof.
  unfold Frames.parsed. destruct (parse Ublox.lib data false); [reflexivity|discriminate].
Defined.

Lemma process_data_checksum_mismatch_witness :
  frame_checksum Frames.posllh_corrupted
    <> calc_checksum Ublox.lib (frame_body Frames.posllh_corrupted)
  /\ Frames.run Frames.posllh_corrupted (init Frames.app0)
     = (Raise FramingError, init Frames.app0).
Proof.
  assert (H : frame_checksum Frames.posllh_corrupted
              <> calc_checksum Ublox.lib (frame_body Frames.posllh_corrupted)).
  { vm_compute. discriminate. }
  split; [exact H | exact (process_data_checksum_mismatch _ _ _ _ H)].
Defined.

Lemma process_data_unregistered_witness :
  (identity (Frames.parsed Frames.status) ∉ registered)
  /\ Frames.run Frames.status (init Frames.app0)
     = (Ok (Frames.parsed Frames.status),
        app_call (update_console (str_parsed (Frames.parsed Frames.status)))
                 (init Frames.app0)).
Proof.
  assert (Hp : parse Ublox.lib Frames.status false = Ok (Frames.parsed Frames.status))
    by (apply parsed_ok; vm_compute; reflexivity).
  assert (Hid : identity (Frames.parsed Frames.status) ∉ registered).
  { intros H. apply list_elem_of_In in H. vm_compute in H.
    repeat (destruct H as [H|H]; [discriminate H|]). exact H. }
  split; [exact Hid|].
  exact (proj1 (process_data_unregistered Ublox.lib Ublox.int_of_text
                  Frames.status _ (init Frames.app0) Hp Hid)).
Defined.

(** C2 as stated fails: the rates of a message the catalog does not list
    make the CFG-MSG handler raise [KeyError], and [process_data] with it;
    the console is not updated. *)
Lemma config_error_escapes_counterexample :
  identity (Frames.parsed Frames.cfg_msg_unlisted) = "CFG-MSG"
  /\ fst (_process_CFG_MSG Ublox.lib (Frames.parsed Frames.cfg_msg_unlisted)
           (init Frames.app0)) = Raise KeyError
  /\ fst (Frames.run Frames.cfg_msg_unlisted (init Frames.app0)) = Raise KeyError
  /\ calls (app (snd (Frames.run Frames.cfg_msg_unlisted (init Frames.app0)))) = [].
Proof. vm_compute. repeat split; reflexivity. Qed.

Lemma config_handler_error_escapes_witness :
  Frames.run Frames.cfg_msg_unlisted (snd (Frames.run Frames.cfg_prt (init Frames.app0)))
  = (Raise KeyError, snd (Frames.run Frames.cfg_prt (init Frames.app0)))
  /\ is_Some (ubx_state (snd (Frames.run Frames.cfg_prt (init Frames.app0)))
              !! "CFG-PRT").
Proof.
  assert (Hp : parse Ublox.lib Frames.cfg_msg_unlisted false
               = Ok (Frames.parsed Frames.cfg_msg_unlisted))
    by (apply parsed_ok; vm_compute; reflexivity).
  split; [|eexists; vm_compute; reflexivity].
  refine (proj1 (config_handler_error_escapes Ublox.lib Ublox.int_of_text
                   Frames.cfg_msg_unlisted _ _ KeyError Hp _)).
  left. split; vm_compute; reflexivity.
Defined.

Lemma cfg_msg_idempotent_witness :
  ubx_state (snd (Frames.run Frames.cfg_msg
                    (snd (Frames.run Frames.cfg_msg (init Frames.app0)))))
  = ubx_state (snd (Frames.run Frames.cfg_msg (init Frames.app0)))
  /\ ubx_state (snd (Frames.run Frames.cfg_msg (init Frames.app0))) !! "NAV-POSLLH"
     = Some (PTuple [PInt 0; PInt 1; PInt 0; PInt 1; PInt 0; PInt 0]).
Proof.
  assert (Hp : parse Ublox.lib Frames.cfg_msg false = Ok (Frames.parsed Frames.cfg_msg))
    by (apply parsed_ok; vm_compute; reflexivity).
  assert (Hid : identity (Frames.parsed Frames.cfg_msg) = "CFG-MSG")
    by (vm_compute; reflexivity).
  assert (He : CFG_MSG_entry Ublox.lib (Frames.parsed Frames.cfg_msg)
               = Ok ("NAV-POSLLH",
                     PTuple [PInt 0; PInt 1; PInt 0; PInt 1; PInt 0; PInt 0]))
    by (vm_compute; reflexivity).
  pose proof (cfg_msg_idempotent Ublox.lib Ublox.int_of_text Frames.cfg_msg _
                (init Frames.app0) Hp Hid) as [Hsame Hentry].
  split; [exact Hsame|]. exact (proj1 (proj2 (Hentry _ _ He))).
Defined.

(** C1 as stated fails: after [posllh], a message that has no accuracy
    attribute makes the handler raise, and latitude and longitude have
    changed. *)
Lemma posllh_missing_accuracy_counterexample :
  attrs Frames.posllh_no_accuracy !! "hAcc" = None
  /\ fst (_process_NAV_POSLLH Ublox.lib Frames.posllh_no_accuracy Frames.after_posllh)
     = Raise AttributeError
  /\ lat Frames.after_posllh = float_literal 47.3397625
  /\ lat (snd (_process_NAV_POSLLH Ublox.lib Frames.posllh_no_accuracy
                 Frames.after_posllh)) = float_literal 47.34
  /\ lon Frames.after_posllh = float_literal (-0.1234567)
  /\ lon (snd (_process_NAV_POSLLH Ublox.lib Frames.posllh_no_accuracy
                 Frames.after_posllh)) = float_literal (-0.1234).
Proof. vm_compute. repeat split; reflexivity. Qed.

Lemma posllh_missing_accuracy_witness :
  (fst (_process_NAV_POSLLH Ublox.lib Frames.posllh_no_accuracy Frames.after_posllh)
   = Raise AttributeError
   /\ lat (snd (_process_NAV_POSLLH Ublox.lib Frames.posllh_no_accuracy
                  Frames.after_posllh)) = float_literal 47.34
   /\ hacc (snd (_process_NAV_POSLLH Ublox.lib Frames.posllh_no_accuracy
                   Frames.after_posllh)) = float_literal 2.5
   /\ vacc (snd (_process_NAV_POSLLH Ublox.lib Frames.posllh_no_accuracy
                   Frames.after_posllh)) = float_literal 3.5)
  /\ (fst (_process_NAV_POSLLH Ublox.lib Frames.posllh_no_vacc Frames.after_posllh)
      = Raise AttributeError
      /\ hacc (snd (_process_NAV_POSLLH Ublox.lib Frames.posllh_no_vacc
                      Frames.after_posllh)) = float_literal 1.5
      /\ vacc (snd (_process_NAV_POSLLH Ublox.lib Frames.posllh_no_vacc
                      Frames.after_posllh)) = float_literal 3.5).
Proof.
  split.
  - pose proof (posllh_missing_accuracy Ublox.lib Ublox.int_of_text
                  Frames.posllh_no_accuracy Frames.after_posllh
                  (PTime 0 1 25 0) (float_literal 47.34) (float_literal (-0.1234))
                  (float_literal 412)) as H.
    destruct H as (Hrun & _ & Hlat & _ & _ & Hhacc & _ & Hvacc & _);
      [vm_compute; reflexivity ..| left; vm_compute; reflexivity |].
    rewrite Hrun. cbn [fst snd]. split; [reflexivity|]. split; [exact Hlat|].
    split.
    + rewrite Hhacc by (vm_compute; reflexivity). vm_compute. reflexivity.
    + rewrite Hvacc. vm_compute. reflexivity.
  - pose proof (posllh_missing_accuracy Ublox.lib Ublox.int_of_text
                  Frames.posllh_no_vacc Frames.after_posllh
                  (PTime 0 1 25 0) (float_literal 47.34) (float_literal (-0.1234))
                  (float_literal 412)) as H.
    destruct H as (Hrun & _ & _ & _ & _ & _ & Hhacc & Hvacc & _);
      [vm_compute; reflexivity ..
      | right; split; [eexists|]; vm_compute; reflexivity |].
    rewrite Hrun. cbn [fst snd]. split; [reflexivity|]. split.
    + apply Hhacc. vm_compute. reflexivity.
    + rewrite Hvacc. vm_compute. reflexivity.
Defined.

Lemma posllh_scale_witness :
  lat (snd (Frames.run Frames.posllh (init Frames.app0))) = float_literal 47.3397625
  /\ alt (snd (Frames.run Frames.posllh (init Frames.app0))) = float_literal 412.345.
Proof.
  assert (Hp : parse Ublox.lib Frames.posllh false = Ok (Frames.parsed Frames.posllh))
    by (apply parsed_ok; vm_compute; reflexivity).
  apply (posllh_scale Ublox.lib Ublox.int_of_text Frames.posllh _
           (init Frames.app0) Hp).
  - vm_compute. reflexivity.
  - eexists. vm_compute. reflexivity.
  - vm_compute. reflexivity.
  - eexists. vm_compute. reflexivity.
  - vm_compute. reflexivity.
Defined.

Lemma dop_then_pvt_witness :
  pdop (snd (Frames.run Frames.dop (init Frames.app0))) = float_literal 2.5
  /\ pdop (snd (Frames.run Frames.pvt (snd (Frames.run Frames.dop (init Frames.app0)))))
     = PInt 999.
Proof.
  assert (Hp1 : parse Ublox.lib Frames.dop false = Ok (Frames.parsed Frames.dop))
    by (apply parsed_ok; vm_compute; reflexivity).
  assert (Hp2 : parse Ublox.lib Frames.pvt false = Ok (Frames.parsed Frames.pvt))
    by (apply parsed_ok; vm_compute; reflexivity).
  apply (dop_then_pvt Ublox.lib Ublox.int_of_text Frames.dop Frames.pvt
           (Frames.parsed Frames.dop) (Frames.parsed Frames.pvt)
           (init Frames.app0) Hp1).
  - vm_compute. reflexivity.
  - vm_compute. reflexivity.
  - exact Hp2.
  - vm_compute. reflexivity.
  - vm_compute. reflexivity.
  - apply decodes_beforeb_true. vm_compute. reflexivity.
Defined.



Lemma nav_handlers_prefix_update_witness :
  fst (_process_NAV_POSLLH Ublox.lib Frames.posllh_no_accuracy
         Frames.after_posllh) = Raise AttributeError
  /\ lat (snd (_process_NAV_POSLLH Ublox.lib Frames.posllh_no_accuracy
                 Frames.after_posllh)) = float_literal 47.34
  /\ hacc (snd (_process_NAV_POSLLH Ublox.lib Frames.posllh_no_accuracy
                  Frames.after_posllh)) = hacc Frames.after_posllh.
Proof.
  pose proof (proj1 (nav_handlers_prefix_update Ublox.lib Ublox.int_of_text
                       Frames.posllh_no_accuracy)
                Frames.after_posllh 4%nat Hacc AttributeError) as H.
  destruct H as (Hraise & Hnew & Hold & _).
  - vm_compute. reflexivity.
  - apply decodes_beforeb_true. vm_compute. reflexivity.
  - split; [exact Hraise|]. split.
    + apply (Hnew 1%nat Lat); [lia|vm_compute; reflexivity].
    + apply (Hold 4%nat Hacc (Raise AttributeError)); [lia|vm_compute; reflexivity].
Defined.

(** * Properties of the whole class *)

(** ** What a method leaves alone *)

Lemma preserves_ret {A B} (f : UBXHandler -> B) (a : A) : preserves f (ret a).
Proof. intros self. reflexivity. Qed.

Lemma preserves_eval {A B} (f : UBXHandler -> B) (o : outcome A) :
  preserves f (eval o).
Proof. intros self. reflexivity. Qed.

Lemma preserves_read {A B} (f : UBXHandler -> B) (g : UBXHandler -> A) :
  preserves f (read g).
Proof. intros self. reflexivity. Qed.

Lemma preserves_update {B} (f : UBXHandler -> B) (g : UBXHandler -> UBXHandler) :
  (forall self, f (g self) = f self) -> preserves f (update g).
Proof. intros H self. apply H. Qed.

Lemma preserves_bind {A A' B} (f : UBXHandler -> B) (m : M A) (k : A -> M A') :
  preserves f m -> (forall a, preserves f (k a)) -> preserves f (bind m k).
Proof.
  intros Hm Hk self. unfold bind. specialize (Hm self).
  destruct (m self) as [[a|e] self']; cbn [snd] in *.
  - rewrite (Hk a self'). exact Hm.
  - exact Hm.
Qed.

Lemma preserves_try {B} (f : UBXHandler -> B) (body : M unit) :
  preserves f body -> preserves f (try_except_ValueError body).
Proof.
  intros Hb self. unfold try_except_ValueError. specialize (Hb self).
  destruct (body self) as [[[]|[]] self']; exact Hb.
Qed.

Lemma preserves_when {B} (f : UBXHandler -> B) (b : bool) (m : M unit) :
  preserves f m -> preserves f (when b m).
Proof. intros Hm. destruct b; [exact Hm|apply preserves_ret]. Qed.

Lemma preserves_for_range {B} (f : UBXHandler -> B) (body : N -> M unit) :
  (forall i, preserves f (body i)) ->
  forall n i, preserves f (for_range i n body).
Proof.
  intros Hb. induction n as [|n IH]; intros i; cbn [for_range].
  - apply preserves_ret.
  - apply preserves_bind; [apply Hb|intros _; apply IH].
Qed.

Lemma preserves_assigns {B} (f : UBXHandler -> B) steps :
  (forall a v self, a ∈ steps.*1 -> f (self_set a v self) = f self) ->
  preserves f (assigns steps).
Proof.
  induction steps as [|[a e] steps IH]; intros Hset; cbn [assigns].
  - apply preserves_ret.
  - apply preserves_bind.
    + unfold assign. apply preserves_bind; [apply preserves_eval|].
      intros v. apply preserves_update. intros self. apply Hset.
      cbn. apply list_elem_of_here.
    + intros _. apply IH. intros b v self Hb. apply Hset.
      cbn. apply list_elem_of_further, Hb.
Qed.

Ltac preserve_step :=
  first
    [ apply preserves_try
    | apply preserves_bind; [|intros ?]
    | apply preserves_eval
    | apply preserves_read
    | apply preserves_ret
    | apply preserves_when
    | apply preserves_for_range; intros ?
    | apply preserves_update; intros ?; reflexivity
    | match goal with
      | |- preserves _ (if ?b then _ else _) => destruct b
      end ].

Ltac preserve :=
  cbv beta zeta delta
    [_process_CFG_MSG _process_CFG_INF _process_CFG_PRT
     _process_NAV_POSLLH _process_NAV_PVT _process_NAV_VELNED
     _process_NAV_SVINFO _process_NAV_SOL _process_NAV_DOP
     _update_console frm_mapview_update_map settings_get frm assign
     append_sat];
  repeat preserve_step.
Lemma preserves_at {A B} (f : UBXHandler -> B) (m : M A) (self : UBXHandler) :
  preserves f m -> f (snd (m self)) = f self.
Proof. intros H. apply H. Qed.

Section Whole.

Variable lib : pyubx2.
Variable int_of_text : string -> option Z.

(** ** One handler for each identity *)

Lemma handler_of_cases (ident : string) :
  (ident = "CFG-MSG"
   /\ handler_of lib int_of_text ident = Some (_process_CFG_MSG lib))
  \/ (ident = "CFG-PRT" /\ handler_of lib int_of_text ident = Some _process_CFG_PRT)
  \/ (ident = "CFG-INF" /\ handler_of lib int_of_text ident = Some _process_CFG_INF)
  \/ (ident = "NAV-POSLLH"
      /\ handler_of lib int_of_text ident = Some (_process_NAV_POSLLH lib))
  \/ (ident = "NAV-PVT"
      /\ handler_of lib int_of_text ident = Some (_process_NAV_PVT lib))
  \/ (ident = "NAV-VELNED"
      /\ handler_of lib int_of_text ident = Some _process_NAV_VELNED)
  \/ (ident = "NAV-SVINFO"
      /\ handler_of lib int_of_text ident = Some (_process_NAV_SVINFO int_of_text))
  \/ (ident = "NAV-SOL"
      /\ handler_of lib int_of_text ident = Some (_process_NAV_SOL lib))
  \/ (ident = "NAV-DOP" /\ handler_of lib int_of_text ident = Some _process_NAV_DOP)
  \/ ((ident ∉ registered) /\ handler_of lib int_of_text ident = None).
Proof.
  unfold handler_of.
  destruct (String.eqb_spec ident "CFG-MSG") as [E|N1]; [tauto|].
  destruct (String.eqb_spec ident "CFG-PRT") as [E|N2]; [tauto|].
  destruct (String.eqb_spec ident "CFG-INF") as [E|N3]; [tauto|].
  destruct (String.eqb_spec ident "NAV-POSLLH") as [E|N4]; [tauto|].
  destruct (String.eqb_spec ident "NAV-PVT") as [E|N5]; [tauto|].
  destruct (String.eqb_spec ident "NAV-VELNED") as [E|N6]; [tauto|].
  destruct (String.eqb_spec ident "NAV-SVINFO") as [E|N7]; [tauto|].
  destruct (String.eqb_spec ident "NAV-SOL") as [E|N8]; [tauto|].
  destruct (String.eqb_spec ident "NAV-DOP") as [E|N9]; [tauto|].
  do 9 right. split; [|reflexivity].
  unfold registered. rewrite !not_elem_of_cons.
  repeat (split; [assumption|]). apply not_elem_of_nil.
Qed.

Lemma process_data_handler (data : bytes) (m : UBXMessage) (self : UBXHandler) :
  parse lib data false = Ok m ->
  process_data lib int_of_text data self
  = (match handler_of lib int_of_text (identity m) with
     | Some h => h m
     | None => ret tt
     end ;; _update_console data m ;; ret m) self.
Proof.
  intros Hp.
  destruct (handler_of lib int_of_text (identity m)) as [h|] eqn:Hh.
  - apply (process_data_dispatch lib int_of_text data m h self Hp Hh).
  - unfold process_data, bind at 1, eval. rewrite Hp.
    replace (bytes_bool data || object_bool m) with true
      by (unfold object_bool; destruct (bytes_bool data); reflexivity).
    unfold handler_of in Hh.
    repeat match type of Hh with
    | context [String.eqb (identity m) ?t] =>
        destruct (String.eqb_spec (identity m) t) as [E|_]; [discriminate Hh|]
    end.
    unfold bind, when, ret. reflexivity.
Qed.

Ltac by_identity m Hid Hh :=
  destruct (handler_of_cases (identity m))
    as [[Hid Hh]|[[Hid Hh]|[[Hid Hh]|[[Hid Hh]|[[Hid Hh]|[[Hid Hh]|[[Hid Hh]|
        [[Hid Hh]|[[Hid Hh]|[Hid Hh]]]]]]]]]];
  rewrite Hh.

Ltac is_member := solve [repeat constructor].

(** X10: no method assigns [self.fix], [self._raw_data] or
    [self._parsed_data]: whatever the input, they are after [process_data]
    what they were before (the fix string goes to the banner only). *)
Theorem process_data_never_assigns (data : bytes) (self : UBXHandler) :
  never_assigned (snd (process_data lib int_of_text data self)) = never_assigned self.
Proof.
  destruct (parse lib data false) as [m|e] eqn:Hp.
  - rewrite (process_data_handler data m self Hp).
    apply preserves_at. apply preserves_bind; [|intros _; preserve].
    by_identity m Hid Hh; preserve.
  - unfold process_data, bind, eval. rewrite Hp. reflexivity.
Qed.

(** X8: a message changes only the navigation attributes its handler
    assigns: every other attribute has its prior value after
    [process_data], whether the handler returned or raised.  Configuration,
    satellite and unregistered messages change none. *)
Theorem process_data_other_attributes (data : bytes) (m : UBXMessage)
    (self : UBXHandler) (b : attr) :
  parse lib data false = Ok m ->
  b ∉ written_attrs (identity m) ->
  self_get b (snd (process_data lib int_of_text data self)) = self_get b self.
Proof.
  intros Hp Hb.
  rewrite (process_data_handler data m self Hp).
  apply preserves_at. apply preserves_bind; [|intros _; destruct b; preserve].
  by_identity m Hid Hh; try rewrite Hid in Hb;
    try (destruct b; first [exfalso; apply Hb; vm_compute; is_member | preserve]).
Qed.

(** X9: the configuration store is changed by CFG-MSG, CFG-PRT and CFG-INF
    messages only, and the satellite list by NAV-SVINFO messages only. *)
Theorem process_data_state_owners (data : bytes) (m : UBXMessage)
    (self : UBXHandler) :
  parse lib data false = Ok m ->
  (identity m ∉ config_identities ->
   ubx_state (snd (process_data lib int_of_text data self)) = ubx_state self)
  /\ (identity m <> "NAV-SVINFO" ->
      gsv_data (snd (process_data lib int_of_text data self)) = gsv_data self).
Proof.
  intros Hp. rewrite (process_data_handler data m self Hp). split.
  - intros Hcfg. apply preserves_at. apply preserves_bind; [|intros _; preserve].
    by_identity m Hid Hh; try rewrite Hid in Hcfg;
      first [exfalso; apply Hcfg; is_member | preserve].
  - intros Hsv. apply preserves_at. apply preserves_bind; [|intros _; preserve].
    by_identity m Hid Hh; first [contradiction | preserve].
Qed.
(** ** The configuration store *)

Lemma tuple_present (m : UBXMessage) (names : list string) :
  (forall n, n ∈ names -> is_Some (attrs m !! n)) ->
  exists vs, tuple (map (getattr m) names) = Ok (PTuple vs)
             /\ Forall2 (fun n v => attrs m !! n = Some v) names vs.
Proof.
  unfold tuple. induction names as [|n names IH]; intros H.
  - exists []. split; [reflexivity|constructor].
  - destruct (H n) as [v Hv]; [apply list_elem_of_here|].
    destruct IH as (vs & Hvs & Hall).
    { intros n' Hn'. apply H, list_elem_of_further, Hn'. }
    exists (v :: vs). split; [|constructor; assumption].
    cbn [map tuple_items]. rewrite (getattr_present _ _ _ Hv). cbn [obind].
    destruct (tuple_items (map (getattr m) names)) as [vs'|e]; [|discriminate Hvs].
    cbn [obind] in *. injection Hvs as ->. reflexivity.
Qed.

Lemma dict_get_elem (d : list (bytes * string)) (k : bytes) :
  k ∈ d.*1 -> exists v, dict_get d k = Some v /\ (k, v) ∈ d.
Proof.
  induction d as [|[k' v'] d IH]; intros Hk; [inversion Hk|].
  cbn [dict_get]. destruct (decide (k' = k)) as [->|Hne].
  - exists v'. split; [reflexivity|apply list_elem_of_here].
  - cbn in Hk. apply elem_of_cons in Hk as [Hk|Hk]; [congruence|].
    destruct (IH Hk) as (v & Hv & Hin). exists v.
    split; [exact Hv|apply list_elem_of_further, Hin].
Qed.

Lemma cfg_msg_store_step (data : bytes) (m : UBXMessage) (self : UBXHandler)
    (key : string) (cfg : pyval) :
  parse lib data false = Ok m ->
  identity m = "CFG-MSG" ->
  CFG_MSG_entry lib m = Ok (key, cfg) ->
  process_data lib int_of_text data self
  = (Ok m, app_call (console_echo data m self)
             (set_ubx_state (<[key := cfg]> (ubx_state self)) self)).
Proof.
  intros Hp Hid He.
  assert (Hh : handler_of lib int_of_text (identity m) = Some (_process_CFG_MSG lib))
    by (rewrite Hid; reflexivity).
  assert (Hrun : _process_CFG_MSG lib m self
                 = (Ok tt, set_ubx_state (<[key := cfg]> (ubx_state self)) self)).
  { rewrite _process_CFG_MSG_run. unfold store_entry. rewrite He. reflexivity. }
  rewrite (handler_return lib int_of_text data m _ self _ Hp Hh Hrun). reflexivity.
Qed.

Lemma cfg_msg_entry_bytes (m : UBXMessage) (c i : bytes) :
  attrs m !! "msgClass" = Some (PBytes c) ->
  attrs m !! "msgID" = Some (PBytes i) ->
  CFG_MSG_entry lib m
  = match dict_get (UBX_CONFIG_MESSAGES lib) (c ++ i) with
    | Some name =>
        tuple (map (getattr m) rate_names) >>= fun rates => Ok (name, rates)
    | None => Raise KeyError
    end.
Proof.
  intros Hc Hi. unfold CFG_MSG_entry.
  rewrite (getattr_present _ _ _ Hc), (getattr_present _ _ _ Hi).
  cbn [obind Py.add getitem].
  destruct (dict_get (UBX_CONFIG_MESSAGES lib) (c ++ i)); reflexivity.
Qed.

(** X2: a CFG-PRT message that has its four fields is stored as the tuple
    (mode, baudRate, inProtoMask, outProtoMask) under "CFG-PRT"; the other
    entries of the store are kept, the console is updated and the message is
    returned. *)
Theorem cfg_prt_stores (data : bytes) (m : UBXMessage) (self : UBXHandler)
    (mode baud inp outp : pyval) :
  parse lib data false = Ok m ->
  identity m = "CFG-PRT" ->
  attrs m !! "mode" = Some mode ->
  attrs m !! "baudRate" = Some baud ->
  attrs m !! "inProtoMask" = Some inp ->
  attrs m !! "outProtoMask" = Some outp ->
  process_data lib int_of_text data self
  = (Ok m, app_call (console_echo data m self)
             (set_ubx_state
                (<["CFG-PRT" := PTuple [mode; baud; inp; outp]]> (ubx_state self))
                self))
  /\ forall key, key <> "CFG-PRT" ->
       ubx_state (snd (process_data lib int_of_text data self)) !! key
       = ubx_state self !! key.
Proof.
  intros Hp Hid H1 H2 H3 H4.
  assert (Hh : handler_of lib int_of_text (identity m) = Some _process_CFG_PRT)
    by (rewrite Hid; reflexivity).
  assert (Hrun : _process_CFG_PRT m self
                 = (Ok tt, set_ubx_state
                             (<["CFG-PRT" := PTuple [mode; baud; inp; outp]]>
                                (ubx_state self)) self)).
  { rewrite _process_CFG_PRT_run. unfold store_entry, CFG_PRT_entry, tuple, tuple_items.
    rewrite (getattr_present _ _ _ H1), (getattr_present _ _ _ H2),
      (getattr_present _ _ _ H3), (getattr_present _ _ _ H4). reflexivity. }
  rewrite (handler_return lib int_of_text data m _ self _ Hp Hh Hrun).
  split; [reflexivity|]. intros key Hkey. cbn [snd].
  change (<["CFG-PRT" := PTuple [mode; baud; inp; outp]]> (ubx_state self) !! key
          = ubx_state self !! key).
  apply lookup_insert_ne. congruence.
Qed.

(** X3: a CFG-INF message that has its five masks is stored as their tuple
    under "CFG-INF"; the other entries of the store are kept, the console is
    updated and the message is returned. *)
Theorem cfg_inf_stores (data : bytes) (m : UBXMessage) (self : UBXHandler)
    (ddc uart1 uart2 usb spi : pyval) :
  parse lib data false = Ok m ->
  identity m = "CFG-INF" ->
  attrs m !! "infMsgMaskDDC" = Some ddc ->
  attrs m !! "infMsgMaskUART1" = Some uart1 ->
  attrs m !! "infMsgMaskUART2" = Some uart2 ->
  attrs m !! "infMsgMaskUSB" = Some usb ->
  attrs m !! "infMsgMaskSPI" = Some spi ->
  process_data lib int_of_text data self
  = (Ok m, app_call (console_echo data m self)
             (set_ubx_state
                (<["CFG-INF" := PTuple [ddc; uart1; uart2; usb; spi]]>
                   (ubx_state self))
                self))
  /\ forall key, key <> "CFG-INF" ->
       ubx_state (snd (process_data lib int_of_text data self)) !! key
       = ubx_state self !! key.
Proof.
  intros Hp Hid H1 H2 H3 H4 H5.
  assert (Hh : handler_of lib int_of_text (identity m) = Some _process_CFG_INF)
    by (rewrite Hid; reflexivity).
  assert (Hrun : _process_CFG_INF m self
                 = (Ok tt, set_ubx_state
                             (<["CFG-INF" := PTuple [ddc; uart1; uart2; usb; spi]]>
                                (ubx_state self)) self)).
  { rewrite _process_CFG_INF_run. unfold store_entry, CFG_INF_entry, tuple, tuple_items.
    rewrite (getattr_present _ _ _ H1), (getattr_present _ _ _ H2),
      (getattr_present _ _ _ H3), (getattr_present _ _ _ H4),
      (getattr_present _ _ _ H5). reflexivity. }
  rewrite (handler_return lib int_of_text data m _ self _ Hp Hh Hrun).
  split; [reflexivity|]. intros key Hkey. cbn [snd].
  change (<["CFG-INF" := PTuple [ddc; uart1; uart2; usb; spi]]> (ubx_state self) !! key
          = ubx_state self !! key).
  apply lookup_insert_ne. congruence.
Qed.

(** X4: a CFG-MSG message whose class and id bytes are a key of the catalog
    and that has its six rates is stored as the tuple of the rates under the
    catalog's name for that key; the other entries of the store are kept. *)
Theorem cfg_msg_stores (data : bytes) (m : UBXMessage) (self : UBXHandler)
    (c i : bytes) (name : string) :
  parse lib data false = Ok m ->
  identity m = "CFG-MSG" ->
  attrs m !! "msgClass" = Some (PBytes c) ->
  attrs m !! "msgID" = Some (PBytes i) ->
  dict_get (UBX_CONFIG_MESSAGES lib) (c ++ i) = Some name ->
  (forall n, n ∈ rate_names -> is_Some (attrs m !! n)) ->
  exists rates,
    Forall2 (fun n v => attrs m !! n = Some v) rate_names rates
    /\ process_data lib int_of_text data self
       = (Ok m, app_call (console_echo data m self)
                  (set_ubx_state (<[name := PTuple rates]> (ubx_state self)) self))
    /\ forall key, key <> name ->
         ubx_state (snd (process_data lib int_of_text data self)) !! key
         = ubx_state self !! key.
Proof.
  intros Hp Hid Hc Hi Hname Hrates.
  destruct (tuple_present m rate_names Hrates) as (rates & Ht & Hall).
  exists rates. split; [exact Hall|].
  assert (He : CFG_MSG_entry lib m = Ok (name, PTuple rates)).
  { rewrite (cfg_msg_entry_bytes m c i Hc Hi), Hname, Ht. reflexivity. }
  rewrite (cfg_msg_store_step data m self name _ Hp Hid He).
  split; [reflexivity|]. intros key Hkey. cbn [snd].
  change (<[name := PTuple rates]> (ubx_state self) !! key = ubx_state self !! key).
  apply lookup_insert_ne. congruence.
Qed.

(** X5: a CFG-MSG message whose class and id bytes are not a key of the
    catalog raises [KeyError], which leaves [process_data]; nothing is stored
    and the console is not updated. *)
Theorem cfg_msg_unknown_key (data : bytes) (m : UBXMessage) (self : UBXHandler)
    (c i : bytes) :
  parse lib data false = Ok m ->
  identity m = "CFG-MSG" ->
  attrs m !! "msgClass" = Some (PBytes c) ->
  attrs m !! "msgID" = Some (PBytes i) ->
  dict_get (UBX_CONFIG_MESSAGES lib) (c ++ i) = None ->
  process_data lib int_of_text data self = (Raise KeyError, self).
Proof.
  intros Hp Hid Hc Hi Hnone.
  assert (Hh : handler_of lib int_of_text (identity m) = Some (_process_CFG_MSG lib))
    by (rewrite Hid; reflexivity).
  apply (handler_escape lib int_of_text data m _ self self KeyError Hp Hh).
  rewrite _process_CFG_MSG_run, (cfg_msg_entry_bytes m c i Hc Hi), Hnone.
  reflexivity.
Qed.

(** X6: of two CFG-MSG responses processed one after the other, the second
    one's entry is in the store; when they are for different message types,
    the first one's entry is there too and the store does not depend on the
    order in which they arrived. *)
Theorem cfg_msg_two_responses (d1 d2 : bytes) (m1 m2 : UBXMessage)
    (self : UBXHandler) (k1 k2 : string) (v1 v2 : pyval) :
  parse lib d1 false = Ok m1 -> identity m1 = "CFG-MSG" ->
  parse lib d2 false = Ok m2 -> identity m2 = "CFG-MSG" ->
  CFG_MSG_entry lib m1 = Ok (k1, v1) ->
  CFG_MSG_entry lib m2 = Ok (k2, v2) ->
  let s12 := snd (process_data lib int_of_text d2
                    (snd (process_data lib int_of_text d1 self))) in
  let s21 := snd (process_data lib int_of_text d1
                    (snd (process_data lib int_of_text d2 self))) in
  ubx_state s12 !! k2 = Some v2
  /\ (k1 <> k2 -> ubx_state s12 !! k1 = Some v1 /\ ubx_state s12 = ubx_state s21).
Proof.
  intros Hp1 Hid1 Hp2 Hid2 He1 He2 s12 s21.
  assert (H1 : forall s, ubx_state (snd (process_data lib int_of_text d1 s))
                         = <[k1 := v1]> (ubx_state s)).
  { intros s. rewrite (cfg_msg_store_step d1 m1 s k1 v1 Hp1 Hid1 He1). reflexivity. }
  assert (H2 : forall s, ubx_state (snd (process_data lib int_of_text d2 s))
                         = <[k2 := v2]> (ubx_state s)).
  { intros s. rewrite (cfg_msg_store_step d2 m2 s k2 v2 Hp2 Hid2 He2). reflexivity. }
  unfold s12, s21. rewrite !H1, !H2, !H1.
  split; [apply lookup_insert_eq|]. intros Hne. split.
  - rewrite lookup_insert_ne by congruence. apply lookup_insert_eq.
  - apply insert_insert_ne. congruence.
Qed.

(** X7: what the poller asks for, the handler can store: the payload of
    every message-rate poll is a key of the catalog, so a CFG-MSG response
    that echoes it as class and id bytes and has its six rates is stored,
    under the catalog's name for that key, and never raises [KeyError]. *)
Theorem poll_response_stored (data : bytes) (m : UBXMessage) (self : UBXHandler)
    (p : UBXPoll) (c i : bytes) :
  p ∈ polls lib ->
  ubxID p = "CFG-MSG" ->
  payload p = Some (c ++ i) ->
  parse lib data false = Ok m ->
  identity m = "CFG-MSG" ->
  attrs m !! "msgClass" = Some (PBytes c) ->
  attrs m !! "msgID" = Some (PBytes i) ->
  (forall n, n ∈ rate_names -> is_Some (attrs m !! n)) ->
  exists name rates,
    (c ++ i, name) ∈ UBX_CONFIG_MESSAGES lib
    /\ fst (process_data lib int_of_text data self) = Ok m
    /\ ubx_state (snd (process_data lib int_of_text data self)) !! name
       = Some (PTuple rates).
Proof.
  intros Hin Hid Hpay Hp Hidm Hc Hi Hrates.
  assert (Hkey : c ++ i ∈ (UBX_CONFIG_MESSAGES lib).*1).
  { unfold polls in Hin. rewrite !elem_of_app in Hin.
    destruct Hin as [Hin|[Hin|Hin]].
    - apply elem_of_cons in Hin as [->|Hin]; [discriminate Hid|].
      apply elem_of_cons in Hin as [->|Hin]; [discriminate Hid|inversion Hin].
    - apply list_elem_of_fmap in Hin as ([k n] & -> & Hin).
      cbn in Hpay. injection Hpay as <-.
      apply list_elem_of_fmap. exists (k, n). split; [reflexivity|exact Hin].
    - apply elem_of_cons in Hin as [->|Hin]; [discriminate Hid|inversion Hin]. }
  destruct (dict_get_elem _ _ Hkey) as (name & Hname & Hentry).
  destruct (tuple_present m rate_names Hrates) as (rates & Ht & _).
  exists name, rates. split; [exact Hentry|].
  assert (He : CFG_MSG_entry lib m = Ok (name, PTuple rates)).
  { rewrite (cfg_msg_entry_bytes m c i Hc Hi), Hname, Ht. reflexivity. }
  rewrite (cfg_msg_store_step data m self name _ Hp Hidm He).
  split; [reflexivity|]. cbn [snd].
  change (<[name := PTuple rates]> (ubx_state self) !! name = Some (PTuple rates)).
  apply lookup_insert_eq.
Qed.

End Whole.

(** ** Navigation messages that decode *)

Section Navigation.

Variable lib : pyubx2.
Variable int_of_text : string -> option Z.

Lemma assigned_all steps (self : UBXHandler) :
  NoDup steps.*1 ->
  decodes_before (length steps) steps ->
  all_assigned steps (assigned steps self)
  /\ app (assigned steps self) = app self.
Proof.
  intros Hnd Hpre. split; [|apply assigned_frame].
  intros a e Hin. apply list_elem_of_lookup in Hin as [i Hi].
  destruct (Hpre i) as (b & v & Hv); [apply lookup_lt_Some in Hi; exact Hi|].
  rewrite Hi in Hv. injection Hv as Hb He. subst b e.
  rewrite (assigned_get_in steps self i a v Hnd Hi). reflexivity.
Qed.

Ltac decoded H :=
  repeat (let b := fresh "b" in let v := fresh "v" in let E := fresh "E" in
          apply decodes_before_cons in H as [(b & v & E) H];
          injection E as _ E).

Ltac run_decoded self :=
  destruct self as [[[? ?] ?] ? ? ? ? ? ? ? ? ? ? ? ? ? ? ? ? ?];
  vm_compute;
  repeat match goal with
  | |- context [match ?w with true => _ | false => _ end] => is_var w; destruct w
  end;
  reflexivity.

Lemma _process_NAV_POSLLH_decoded (m : UBXMessage) (self : UBXHandler) :
  decodes_before 6 (POSLLH_assignments lib m) ->
  _process_NAV_POSLLH lib m self
  = (Ok tt,
     let self' := assigned (POSLLH_assignments lib m) self in
     app_call (map_call self') (app_call (POSLLH_banner self') self')).
Proof.
  intros H. unfold _process_NAV_POSLLH, POSLLH_assignments in *.
  decoded H. rewrite E, E0, E1, E2, E3, E4. run_decoded self.
Qed.

Lemma _process_NAV_PVT_decoded (m : UBXMessage) (self : UBXHandler) (fix' : pyval) :
  decodes_before 10 (PVT_assignments lib m) ->
  getattr m "fixType" >>= gpsfix2str lib = Ok fix' ->
  _process_NAV_PVT lib m self
  = (Ok tt,
     let self' := assigned (PVT_assignments lib m) self in
     app_call (map_call self') (app_call (PVT_banner self' fix') self')).
Proof.
  intros H Hfix. unfold _process_NAV_PVT, PVT_assignments in *.
  decoded H. rewrite E, E0, E1, E2, E3, E4, E5, E6, E7, E8, Hfix.
  run_decoded self.
Qed.

Lemma _process_NAV_VELNED_decoded (m : UBXMessage) (self : UBXHandler) :
  decodes_before 2 (VELNED_assignments m) ->
  _process_NAV_VELNED m self
  = (Ok tt,
     let self' := assigned (VELNED_assignments m) self in
     app_call (VELNED_banner self') self').
Proof.
  intros H. unfold _process_NAV_VELNED, VELNED_assignments in *.
  decoded H. rewrite E, E0. run_decoded self.
Qed.

Lemma _process_NAV_SOL_decoded (m : UBXMessage) (self : UBXHandler) (fix' : pyval) :
  decodes_before 2 (SOL_assignments m) ->
  getattr m "gpsFix" >>= gpsfix2str lib = Ok fix' ->
  _process_NAV_SOL lib m self
  = (Ok tt,
     let self' := assigned (SOL_assignments m) self in
     app_call (SOL_banner self' fix') self').
Proof.
  intros H Hfix. unfold _process_NAV_SOL, SOL_assignments in *.
  decoded H. rewrite E, E0, Hfix. run_decoded self.
Qed.

Lemma _process_NAV_DOP_decoded (m : UBXMessage) (self : UBXHandler) :
  decodes_before 3 (DOP_assignments m) ->
  _process_NAV_DOP m self
  = (Ok tt,
     let self' := assigned (DOP_assignments m) self in
     app_call (DOP_banner self') self').
Proof.
  intros H. unfold _process_NAV_DOP, DOP_assignments in *.
  decoded H. rewrite E, E0, E1. run_decoded self.
Qed.
Lemma console_echo_app (data : bytes) (m : UBXMessage) (c : call)
    (self : UBXHandler) :
  console_echo data m (app_call c self) = console_echo data m self.
Proof. reflexivity. Qed.

Lemma assigned_preserves {B} (f : UBXHandler -> B) steps :
  (forall a v self, f (self_set a v self) = f self) ->
  forall self, f (assigned steps self) = f self.
Proof.
  intros Hset. unfold assigned.
  induction steps as [|[a [v|e]] steps IH]; intros self; cbn [fold_left].
  - reflexivity.
  - rewrite IH. apply Hset.
  - apply IH.
Qed.

(** X11: a NAV-POSLLH message whose six fields decode is returned by
    [process_data] after three calls, in this order: the banner and the map,
    both with the values just stored, and the console.  The map's last
    argument is the negation of the [webmap] setting. *)
Theorem posllh_decoded (data : bytes) (m : UBXMessage) (self : UBXHandler) :
  parse lib data false = Ok m ->
  identity m = "NAV-POSLLH" ->
  decodes_before 6 (POSLLH_assignments lib m) ->
  let self' := assigned (POSLLH_assignments lib m) self in
  process_data lib int_of_text data self
  = (Ok m, app_call (console_echo data m self')
             (app_call (map_call self') (app_call (POSLLH_banner self') self')))
  /\ all_assigned (POSLLH_assignments lib m) self'
  /\ app self' = app self.
Proof.
  intros Hp Hid Hdec self'.
  assert (Hh : handler_of lib int_of_text (identity m)
               = Some (_process_NAV_POSLLH lib)) by (rewrite Hid; reflexivity).
  rewrite (handler_return lib int_of_text data m _ self _ Hp Hh
             (_process_NAV_POSLLH_decoded m self Hdec)).
  split; [cbv zeta; rewrite !console_echo_app; reflexivity|].
  apply assigned_all; [apply NoDup_attrs; reflexivity|exact Hdec].
Qed.

(** X12: a NAV-PVT message whose ten fields and fix type decode is returned
    after the banner call (which carries the fix string and the unscaled
    pDOP just stored), the map call and the console call, in this order. *)
Theorem pvt_decoded (data : bytes) (m : UBXMessage) (self : UBXHandler)
    (fix' : pyval) :
  parse lib data false = Ok m ->
  identity m = "NAV-PVT" ->
  decodes_before 10 (PVT_assignments lib m) ->
  getattr m "fixType" >>= gpsfix2str lib = Ok fix' ->
  let self' := assigned (PVT_assignments lib m) self in
  process_data lib int_of_text data self
  = (Ok m, app_call (console_echo data m self')
             (app_call (map_call self') (app_call (PVT_banner self' fix') self')))
  /\ all_assigned (PVT_assignments lib m) self'
  /\ app self' = app self.
Proof.
  intros Hp Hid Hdec Hfix self'.
  assert (Hh : handler_of lib int_of_text (identity m)
               = Some (_process_NAV_PVT lib)) by (rewrite Hid; reflexivity).
  rewrite (handler_return lib int_of_text data m _ self _ Hp Hh
             (_process_NAV_PVT_decoded m self fix' Hdec Hfix)).
  split; [cbv zeta; rewrite !console_echo_app; reflexivity|].
  apply assigned_all; [apply NoDup_attrs; reflexivity|exact Hdec].
Qed.

(** X13: a NAV-VELNED message whose heading and ground speed decode stores
    them as track and speed and is returned after the banner call and the
    console call; no map call is made. *)
Theorem velned_decoded (data : bytes) (m : UBXMessage) (self : UBXHandler) :
  parse lib data false = Ok m ->
  identity m = "NAV-VELNED" ->
  decodes_before 2 (VELNED_assignments m) ->
  let self' := assigned (VELNED_assignments m) self in
  process_data lib int_of_text data self
  = (Ok m, app_call (console_echo data m self')
             (app_call (VELNED_banner self') self'))
  /\ all_assigned (VELNED_assignments m) self'
  /\ app self' = app self.
Proof.
  intros Hp Hid Hdec self'.
  assert (Hh : handler_of lib int_of_text (identity m) = Some _process_NAV_VELNED)
    by (rewrite Hid; reflexivity).
  rewrite (handler_return lib int_of_text data m _ self _ Hp Hh
             (_process_NAV_VELNED_decoded m self Hdec)).
  split; [cbv zeta; rewrite !console_echo_app; reflexivity|].
  apply assigned_all; [apply NoDup_attrs; reflexivity|exact Hdec].
Qed.

(** X14: a NAV-SOL message whose pDOP, satellite count and fix decode stores
    the first two and is returned after the banner call (with the fix
    string, which is not stored) and the console call. *)
Theorem sol_decoded (data : bytes) (m : UBXMessage) (self : UBXHandler)
    (fix' : pyval) :
  parse lib data false = Ok m ->
  identity m = "NAV-SOL" ->
  decodes_before 2 (SOL_assignments m) ->
  getattr m "gpsFix" >>= gpsfix2str lib = Ok fix' ->
  let self' := assigned (SOL_assignments m) self in
  process_data lib int_of_text data self
  = (Ok m, app_call (console_echo data m self')
             (app_call (SOL_banner self' fix') self'))
  /\ all_assigned (SOL_assignments m) self'
  /\ fix_ self' = fix_ self
  /\ app self' = app self.
Proof.
  intros Hp Hid Hdec Hfix self'.
  assert (Hh : handler_of lib int_of_text (identity m) = Some (_process_NAV_SOL lib))
    by (rewrite Hid; reflexivity).
  rewrite (handler_return lib int_of_text data m _ self _ Hp Hh
             (_process_NAV_SOL_decoded m self fix' Hdec Hfix)).
  split; [cbv zeta; rewrite !console_echo_app; reflexivity|].
  destruct (assigned_all (SOL_assignments m) self) as [Hall Happ];
    [apply NoDup_attrs; reflexivity|exact Hdec|].
  split; [exact Hall|]. split; [|exact Happ].
  apply (assigned_preserves fix_). reflexivity.
Qed.

(** X15: a NAV-DOP message whose three DOP fields decode stores them and is
    returned after the banner call and the console call. *)
Theorem dop_decoded (data : bytes) (m : UBXMessage) (self : UBXHandler) :
  parse lib data false = Ok m ->
  identity m = "NAV-DOP" ->
  decodes_before 3 (DOP_assignments m) ->
  let self' := assigned (DOP_assignments m) self in
  process_data lib int_of_text data self
  = (Ok m, app_call (console_echo data m self') (app_call (DOP_banner self') self'))
  /\ all_assigned (DOP_assignments m) self'
  /\ app self' = app self.
Proof.
  intros Hp Hid Hdec self'.
  assert (Hh : handler_of lib int_of_text (identity m) = Some _process_NAV_DOP)
    by (rewrite Hid; reflexivity).
  rewrite (handler_return lib int_of_text data m _ self _ Hp Hh
             (_process_NAV_DOP_decoded m self Hdec)).
  split; [cbv zeta; rewrite !console_echo_app; reflexivity|].
  apply assigned_all; [apply NoDup_attrs; reflexivity|exact Hdec].
Qed.

End Navigation.

(** ** No silent partial update *)

Lemma getattr_not_ValueError (m : UBXMessage) (name : string) :
  getattr m name <> Raise ValueError.
Proof. unfold getattr. destruct (attrs m !! name); discriminate. Qed.

Lemma float_truediv_not_ValueError (x y : spec_float) :
  Py.float_truediv x y <> Raise ValueError.
Proof. unfold Py.float_truediv. destruct y; discriminate. Qed.

Lemma truediv_not_ValueError (x y : pyval) : (x / y)%py <> Raise ValueError.
Proof.
  destruct x, y; cbn [Py.truediv]; try discriminate.
  - unfold Py.int_truediv. destruct (_ =? _); [discriminate|].
    destruct (SFdiv _ _ _ _); discriminate.
  - unfold Py.float_of_int. destruct (binary_normalize _ _ _ _ _); cbn [obind];
      first [discriminate | apply float_truediv_not_ValueError].
  - unfold Py.float_of_int. destruct (binary_normalize _ _ _ _ _); cbn [obind];
      first [discriminate | apply float_truediv_not_ValueError].
  - apply float_truediv_not_ValueError.
Qed.

Lemma divided_not_ValueError (m : UBXMessage) (name : string) (d : Z) :
  getattr m name >>= divided_by d <> Raise ValueError.
Proof.
  unfold getattr. destruct (attrs m !! name) as [v|]; [|discriminate].
  apply truediv_not_ValueError.
Qed.

Lemma assigns_result steps : forall self : UBXHandler,
  match assigns steps self with
  | (Ok _, self') =>
      decodes_before (length steps) steps /\ self' = assigned steps self
  | (Raise e, _) => exists a, (a, Raise e) ∈ steps
  end.
Proof.
  induction steps as [|[a [v|e]] steps IH]; intros self.
  - split; [apply decodes_before_0|reflexivity].
  - rewrite assigns_cons_ok. specialize (IH (self_set a v self)).
    destruct (assigns steps (self_set a v self)) as [[[]|e] s'].
    + destruct IH as [Hdec ->]. split; [|reflexivity].
      apply decodes_before_S, Hdec.
    + destruct IH as [b Hb]. exists b. apply list_elem_of_further, Hb.
  - rewrite assigns_cons_raise. exists a. apply list_elem_of_here.
Qed.

Section Failures.

Variable lib : pyubx2.
Variable int_of_text : string -> option Z.

Hypothesis itow2utc_type : forall v, itow2utc lib v <> Raise ValueError.

Lemma itow_not_ValueError (m : UBXMessage) :
  getattr m "iTOW" >>= itow2utc lib <> Raise ValueError.
Proof.
  unfold getattr. destruct (attrs m !! "iTOW") as [v|]; [|discriminate].
  apply itow2utc_type.
Qed.

Lemma assignments_not_ValueError (ident : string) (m : UBXMessage) (a : attr) :
  (a, Raise ValueError) ∉ assignments_of lib ident m.
Proof.
  unfold assignments_of, POSLLH_assignments, PVT_assignments, VELNED_assignments,
    SOL_assignments, DOP_assignments.
  repeat match goal with
  | |- context [String.eqb ident ?t] => destruct (String.eqb ident t)
  end;
  rewrite ?not_elem_of_cons;
  repeat (split; [intros [= _ H]; symmetry in H; revert H;
                  first [apply itow_not_ValueError | apply divided_not_ValueError
                        | apply getattr_not_ValueError]|]);
  apply not_elem_of_nil.
Qed.

Lemma navigation_handler_runs (m : UBXMessage) :
  (identity m = "NAV-POSLLH"
   /\ handler_of lib int_of_text (identity m) = Some (_process_NAV_POSLLH lib)
   /\ runs_assignments (assignments_of lib (identity m) m) (_process_NAV_POSLLH lib m))
  \/ (identity m = "NAV-PVT"
      /\ handler_of lib int_of_text (identity m) = Some (_process_NAV_PVT lib)
      /\ runs_assignments (assignments_of lib (identity m) m) (_process_NAV_PVT lib m))
  \/ (identity m = "NAV-VELNED"
      /\ handler_of lib int_of_text (identity m) = Some _process_NAV_VELNED
      /\ runs_assignments (assignments_of lib (identity m) m) (_process_NAV_VELNED m))
  \/ (identity m = "NAV-SOL"
      /\ handler_of lib int_of_text (identity m) = Some (_process_NAV_SOL lib)
      /\ runs_assignments (assignments_of lib (identity m) m) (_process_NAV_SOL lib m))
  \/ (identity m = "NAV-DOP"
      /\ handler_of lib int_of_text (identity m) = Some _process_NAV_DOP
      /\ runs_assignments (assignments_of lib (identity m) m) (_process_NAV_DOP m))
  \/ assignments_of lib (identity m) m = [].
Proof.
  unfold assignments_of.
  destruct (String.eqb_spec (identity m) "NAV-POSLLH") as [E|_].
  { left. rewrite E. repeat split. apply _process_NAV_POSLLH_runs. }
  destruct (String.eqb_spec (identity m) "NAV-PVT") as [E|_].
  { right; left. rewrite E. repeat split. apply _process_NAV_PVT_runs. }
  destruct (String.eqb_spec (identity m) "NAV-VELNED") as [E|_].
  { do 2 right; left. rewrite E. repeat split. apply _process_NAV_VELNED_runs. }
  destruct (String.eqb_spec (identity m) "NAV-SOL") as [E|_].
  { do 3 right; left. rewrite E. repeat split. apply _process_NAV_SOL_runs. }
  destruct (String.eqb_spec (identity m) "NAV-DOP") as [E|_].
  { do 4 right; left. rewrite E. repeat split. apply _process_NAV_DOP_runs. }
  do 5 right. reflexivity.
Qed.

(** X16: provided the time conversion never raises [ValueError], a
    navigation message that [process_data] returns has been stored whole:
    every assignment of its handler decoded and every attribute the handler
    assigns holds the decoded value.  (Attribute reads and divisions never
    raise [ValueError], so [except ValueError] hides no partial update.) *)
Theorem returned_means_stored (data : bytes) (m m' : UBXMessage)
    (self : UBXHandler) :
  parse lib data false = Ok m ->
  fst (process_data lib int_of_text data self) = Ok m' ->
  decodes_before (length (assignments_of lib (identity m) m))
                 (assignments_of lib (identity m) m)
  /\ all_assigned (assignments_of lib (identity m) m)
                  (snd (process_data lib int_of_text data self)).
Proof.
  intros Hp Hret.
  destruct (navigation_handler_runs m)
    as [(Hid & Hh & Hrun)|[(Hid & Hh & Hrun)|[(Hid & Hh & Hrun)|
        [(Hid & Hh & Hrun)|[(Hid & Hh & Hrun)|Hnil]]]]];
    [| | | | |rewrite Hnil; split;
              [apply decodes_before_0|intros a e Hin; inversion Hin]].
  all: destruct (process_data_state lib int_of_text data m _ self Hp Hh)
         as (Hattr & _ & _).
  all: assert (Hnd : NoDup (assignments_of lib (identity m) m).*1)
         by (rewrite Hid; apply NoDup_attrs; reflexivity).
  all: pose proof (Hrun self) as Hself.
  all: pose proof (assigns_result (assignments_of lib (identity m) m) self) as Hres.
  all: destruct (assigns (assignments_of lib (identity m) m) self) as [[[]|e] s'].
  all: try (destruct Hres as [Hdec ->]; destruct Hself as (Hget & _ & _);
            split; [exact Hdec|];
            destruct (assigned_all _ self Hnd Hdec) as [Hall _];
            intros a e Hin; rewrite Hattr, Hget; apply Hall, Hin).
  all: exfalso; destruct Hres as [a Ha];
    rewrite (handler_escape lib int_of_text data m _ self s' e Hp Hh) in Hret;
    [discriminate Hret|];
    rewrite Hself; destruct e; try reflexivity;
    exfalso; exact (assignments_not_ValueError _ _ _ Ha).
Qed.

End Failures.

(** ** The satellite list, whatever the message *)

Lemma set_gsv_data_twice (l l' : list pyval) (self : UBXHandler) :
  set_gsv_data l' (set_gsv_data l self) = set_gsv_data l' self.
Proof. reflexivity. Qed.

Lemma sat_record_missing (m : UBXMessage) (idx : string) (field : string) :
  field ∈ sat_fields ->
  attrs m !! (field +:+ idx) = None ->
  sat_record m idx = Raise AttributeError.
Proof.
  intros Hf Hnone. unfold sat_record, tuple, tuple_items, getattr.
  unfold sat_fields in Hf. rewrite !elem_of_cons in Hf.
  destruct (attrs m !! ("svid" +:+ idx)) eqn:E1; [|reflexivity].
  destruct (attrs m !! ("elev" +:+ idx)) eqn:E2; [|reflexivity].
  destruct (attrs m !! ("azim" +:+ idx)) eqn:E3; [|reflexivity].
  destruct (attrs m !! ("cno" +:+ idx)) eqn:E4; [|reflexivity].
  destruct Hf as [->|[->|[->|[->|Hf]]]]; [congruence ..|inversion Hf].
Qed.

Lemma for_range_state (m : UBXMessage) :
  forall (n : nat) (i : N) (self : UBXHandler),
    snd (for_range i n (append_sat m) self)
    = set_gsv_data (gsv_data self ++ sats m i n) self.
Proof.
  induction n as [|n IH]; intros i self.
  - cbn [for_range sats]. unfold ret. cbn [snd].
    rewrite app_nil_r, set_gsv_data_id. reflexivity.
  - cbn [for_range sats]. unfold bind at 1, append_sat at 1.
    fold (sat_idx (i + 1)). unfold bind at 1, eval at 1, update at 1.
    destruct (sat_record m (sat_idx (i + 1))) as [sat|e].
    + rewrite IH. cbn [gsv_data set_gsv_data]. rewrite <- app_assoc. reflexivity.
    + cbn [snd]. rewrite app_nil_r, set_gsv_data_id. reflexivity.
Qed.

Lemma for_range_raises (m : UBXMessage) (e : exn) :
  forall (k n : nat) (i : N) (self : UBXHandler),
    (k < n)%nat ->
    (forall j, (j < k)%nat ->
       succeeds (sat_record m (sat_idx (i + 1 + N.of_nat j)))) ->
    sat_record m (sat_idx (i + 1 + N.of_nat k)) = Raise e ->
    fst (for_range i n (append_sat m) self) = Raise e
    /\ sats m i n = sats m i k.
Proof.
  induction k as [|k IH]; intros n i self Hk Hok Hfail;
    (destruct n as [|n]; [lia|]); cbn [for_range sats];
    unfold bind at 1, append_sat at 1; fold (sat_idx (i + 1));
    unfold bind at 1, eval at 1, update at 1.
  - rewrite N.add_0_r in Hfail. rewrite Hfail. split; reflexivity.
  - destruct (Hok 0%nat) as [sat Hsat]; [lia|].
    rewrite N.add_0_r in Hsat. rewrite Hsat.
    destruct (IH n (N.succ i) (set_gsv_data (gsv_data self ++ [sat]) self))
      as [Hfst Hsats].
    + lia.
    + intros j Hj. specialize (Hok (S j)).
      replace (N.succ i + 1 + N.of_nat j)%N with (i + 1 + N.of_nat (S j))%N by lia.
      apply Hok. lia.
    + replace (N.succ i + 1 + N.of_nat k)%N with (i + 1 + N.of_nat (S k))%N by lia.
      exact Hfail.
    + split; [exact Hfst|]. rewrite Hsats. reflexivity.
Qed.

Section Satellites.

Variable lib : pyubx2.
Variable int_of_text : string -> option Z.

Lemma _process_NAV_SVINFO_counted (m : UBXMessage) (self : UBXHandler) (z : Z) :
  getattr m "numCh" >>= Py.int int_of_text = Ok z ->
  let self0 := app_call (update_banner [("siv", PInt z)]) (set_gsv_data [] self) in
  let loop := for_range 0 (Z.to_nat z) (append_sat m) self0 in
  _process_NAV_SVINFO int_of_text m self
  = match fst loop with
    | Ok _ =>
        (Ok tt,
         app_call (update_graph (gsv_data (snd loop)) (PInt z))
           (app_call (update_sats (gsv_data (snd loop))) (snd loop)))
    | Raise ValueError => (Ok tt, snd loop)
    | Raise e => (Raise e, snd loop)
    end.
Proof.
  intros Hn self0 loop. unfold _process_NAV_SVINFO, try_except_ValueError.
  unfold bind at 1, update at 1. unfold bind at 1, eval at 1. rewrite Hn.
  unfold bind at 1, frm at 1, update at 1. fold self0.
  unfold bind at 1. fold loop.
  destruct loop as [[[]|e] s']; cbn [fst snd].
  - unfold bind, read, frm, update. reflexivity.
  - destruct e; reflexivity.
Qed.

Lemma _process_NAV_SVINFO_uncounted (m : UBXMessage) (self : UBXHandler) (e : exn) :
  getattr m "numCh" >>= Py.int int_of_text = Raise e ->
  _process_NAV_SVINFO int_of_text m self
  = (match e with ValueError => Ok tt | _ => Raise e end, set_gsv_data [] self).
Proof.
  intros Hn. unfold _process_NAV_SVINFO, try_except_ValueError.
  unfold bind at 1, update at 1. unfold bind at 1, eval at 1. rewrite Hn.
  destruct e; reflexivity.
Qed.

Lemma svinfo_handler :
  forall m : UBXMessage, identity m = "NAV-SVINFO" ->
    handler_of lib int_of_text (identity m) = Some (_process_NAV_SVINFO int_of_text).
Proof. intros m ->. reflexivity. Qed.

(** X17: when the satellite count of a NAV-SVINFO message cannot be read
    (no [numCh], or a value [int()] rejects), the handler leaves the
    satellite list empty, not as it was: the list is cleared before the
    count is read, and no call is made.  A [ValueError] is dropped; any other
    exception leaves the handler.  For a frame decoded to such a message,
    [process_data] returns the message after the console call alone in the
    first case, and raises in the second. *)
Theorem svinfo_count_unreadable (m : UBXMessage) (self : UBXHandler) (e : exn) :
  getattr m "numCh" >>= Py.int int_of_text = Raise e ->
  _process_NAV_SVINFO int_of_text m self
  = (match e with ValueError => Ok tt | _ => Raise e end, set_gsv_data [] self)
  /\ gsv_data (snd (_process_NAV_SVINFO int_of_text m self)) = []
  /\ app (snd (_process_NAV_SVINFO int_of_text m self)) = app self
  /\ forall data, parse lib data false = Ok m -> identity m = "NAV-SVINFO" ->
       process_data lib int_of_text data self
       = match e with
         | ValueError =>
             (Ok m, app_call (console_echo data m self) (set_gsv_data [] self))
         | _ => (Raise e, set_gsv_data [] self)
         end.
Proof.
  intros Hn.
  pose proof (_process_NAV_SVINFO_uncounted m self e Hn) as Hrun.
  split; [exact Hrun|]. rewrite Hrun. split; [reflexivity|]. split; [reflexivity|].
  intros data Hp Hid.
  pose proof (svinfo_handler m Hid) as Hh.
  destruct e;
    first [ rewrite (handler_return lib int_of_text data m _ self _ Hp Hh Hrun)
          | rewrite (handler_escape lib int_of_text data m _ self _ _ Hp Hh Hrun) ];
    reflexivity.
Qed.

(** X18: on a NAV-SVINFO message that announces more satellites than it
    has attributes for (satellites 1 to [k] complete, an attribute of
    satellite [k + 1] missing), the handler raises [AttributeError] after the
    banner call; the satellite list then holds the [k] records read so far,
    in index order, and nothing of the prior list.  A frame decoded to such a
    message makes [process_data] raise likewise, with no console call. *)
Theorem svinfo_short_message (m : UBXMessage) (self : UBXHandler) (z : Z)
    (k : nat) (field : string) (svid elev azim cno : nat -> pyval) :
  attrs m !! "numCh" = Some (PInt z) ->
  (k < Z.to_nat z)%nat ->
  (forall i, (1 <= i <= k)%nat -> has_satellite m svid elev azim cno i) ->
  field ∈ sat_fields ->
  attrs m !! (field +:+ index_suffix (S k)) = None ->
  fst (_process_NAV_SVINFO int_of_text m self) = Raise AttributeError
  /\ gsv_data (snd (_process_NAV_SVINFO int_of_text m self))
     = records svid elev azim cno k
  /\ calls (app (snd (_process_NAV_SVINFO int_of_text m self)))
     = calls (app self) ++ [update_banner [("siv", PInt z)]]
  /\ forall data, parse lib data false = Ok m -> identity m = "NAV-SVINFO" ->
       process_data lib int_of_text data self
       = (Raise AttributeError, snd (_process_NAV_SVINFO int_of_text m self)).
Proof.
  intros Hn Hk Hsat Hf Hnone.
  assert (Hcount : getattr m "numCh" >>= Py.int int_of_text = Ok z)
    by (rewrite (getattr_present _ _ _ Hn); reflexivity).
  pose proof (sat_records_decode m svid elev azim cno k Hsat) as Hok.
  assert (Hfail : sat_record m (sat_idx (0 + 1 + N.of_nat k)) = Raise AttributeError).
  { replace (0 + 1 + N.of_nat k)%N with (N.of_nat (S k)) by lia.
    apply (sat_record_missing m _ field Hf).
    rewrite sat_idx_index_suffix. exact Hnone. }
  set (self0 := app_call (update_banner [("siv", PInt z)]) (set_gsv_data [] self)).
  destruct (for_range_raises m AttributeError k (Z.to_nat z) 0 self0 Hk Hok Hfail)
    as [Hfst Hsats].
  pose proof (_process_NAV_SVINFO_counted m self z Hcount) as Hrun.
  cbv zeta in Hrun. fold self0 in Hrun. rewrite Hfst in Hrun.
  rewrite (for_range_state m (Z.to_nat z) 0 self0), Hsats in Hrun.
  change 0%N with (N.of_nat 0) in Hrun.
  rewrite (sats_records m svid elev azim cno k 0) in Hrun
    by (intros i Hi; apply Hsat; lia).
  split; [rewrite Hrun; reflexivity|]. split; [rewrite Hrun; reflexivity|].
  split; [rewrite Hrun; reflexivity|].
  intros data Hp Hid. rewrite Hrun. cbn [snd].
  apply (handler_escape lib int_of_text data m _ self _ _ Hp
           (svinfo_handler m Hid) Hrun).
Qed.

(** X19: a NAV-SVINFO message that carries the satellites it announces is
    returned after four calls, in this order: the banner with the count, the
    sky view and the graph with the new list (the graph also with the
    count), and the console. *)
Theorem svinfo_calls (data : bytes) (m : UBXMessage) (self : UBXHandler)
    (n : nat) :
  parse lib data false = Ok m ->
  identity m = "NAV-SVINFO" ->
  attrs m !! "numCh" = Some (PInt (Z.of_nat n)) ->
  (forall i f, (1 <= i <= n)%nat -> f ∈ sat_fields ->
     is_Some (attrs m !! (f +:+ sat_idx (N.of_nat i)))) ->
  gsv_data (snd (process_data lib int_of_text data self)) = sats m 0 n
  /\ calls (app (snd (process_data lib int_of_text data self)))
     = calls (app self)
       ++ SVINFO_calls (Z.of_nat n) (sats m 0 n) ++ [console_echo data m self].
Proof.
  intros Hp Hid Hn Hsat.
  assert (Hcount : getattr m "numCh" >>= Py.int int_of_text = Ok (Z.of_nat n))
    by (rewrite (getattr_present _ _ _ Hn); reflexivity).
  assert (Hok : forall j, (j < n)%nat ->
            succeeds (sat_record m (sat_idx (0 + 1 + N.of_nat j)))).
  { intros j Hj. replace (0 + 1 + N.of_nat j)%N with (N.of_nat (S j)) by lia.
    destruct (sat_record_attrs int_of_text m (sat_idx (N.of_nat (S j))))
      as (a & b & c & d & _ & _ & _ & _ & E).
    - intros f Hin. apply Hsat; [lia|exact Hin].
    - eexists. exact E. }
  set (self0 := app_call (update_banner [("siv", PInt (Z.of_nat n))])
                  (set_gsv_data [] self)).
  destruct (for_range_sats m n 0%N self0 Hok) as (Hloop & _ & _).
  pose proof (_process_NAV_SVINFO_counted m self _ Hcount) as Hrun.
  cbv zeta in Hrun. fold self0 in Hrun. rewrite Nat2Z.id, Hloop in Hrun.
  cbn [fst snd] in Hrun.
  rewrite (handler_return lib int_of_text data m _ self _ Hp
             (svinfo_handler m Hid) Hrun).
  cbn [snd]. split; [reflexivity|].
  cbn [app_call app calls gsv_data set_gsv_data self0]. unfold SVINFO_calls.
  rewrite <- !app_assoc. reflexivity.
Qed.

(** X20: a NAV-SVINFO message whose count is zero or negative reads no
    satellite attribute: the list is emptied, the message is returned, and
    the banner and the graph are given the count as it is. *)
Theorem svinfo_no_satellite (data : bytes) (m : UBXMessage) (self : UBXHandler)
    (z : Z) :
  parse lib data false = Ok m ->
  identity m = "NAV-SVINFO" ->
  attrs m !! "numCh" = Some (PInt z) ->
  z <= 0 ->
  fst (process_data lib int_of_text data self) = Ok m
  /\ gsv_data (snd (process_data lib int_of_text data self)) = []
  /\ calls (app (snd (process_data lib int_of_text data self)))
     = calls (app self) ++ SVINFO_calls z [] ++ [console_echo data m self].
Proof.
  intros Hp Hid Hn Hz.
  assert (Hcount : getattr m "numCh" >>= Py.int int_of_text = Ok z)
    by (rewrite (getattr_present _ _ _ Hn); reflexivity).
  pose proof (_process_NAV_SVINFO_counted m self z Hcount) as Hrun.
  cbv zeta in Hrun. replace (Z.to_nat z) with 0%nat in Hrun by lia.
  cbn [for_range] in Hrun. unfold ret in Hrun. cbn [fst snd] in Hrun.
  rewrite (handler_return lib int_of_text data m _ self _ Hp
             (svinfo_handler m Hid) Hrun).
  cbn [fst snd]. split; [reflexivity|]. split; [reflexivity|].
  cbn [app_call app calls gsv_data set_gsv_data]. unfold SVINFO_calls.
  rewrite <- !app_assoc. reflexivity.
Qed.

(** X1: [process_data] runs the handler of the message's identity, and no
    other.  When that handler returns, the console is updated (with the raw
    bytes if the [raw] setting is on, with the parsed message otherwise) and
    the parsed message is returned; when it raises, the exception leaves
    [process_data] and the console is not updated. *)
Theorem process_data_routes (data : bytes) (m : UBXMessage) (self : UBXHandler)
    (h : UBXMessage -> M unit) :
  parse lib data false = Ok m ->
  handler_of lib int_of_text (identity m) = Some h ->
  process_data lib int_of_text data self
  = match h m self with
    | (Ok _, self') =>
        (Ok m,
         app_call (update_console
                     (if raw (get_settings (app self')) then str_raw data
                      else str_parsed m)) self')
    | (Raise e, self') => (Raise e, self')
    end.
Proof.
  intros Hp Hh. destruct (h m self) as [[[]|e] self'] eqn:Hr.
  - apply (handler_return lib int_of_text data m h self self' Hp Hh Hr).
  - apply (handler_escape lib int_of_text data m h self self' e Hp Hh Hr).
Qed.

(** X21: one run of the poller keeps what the sink already held and appends
    three chunks more than the catalog has entries; with an empty catalog it
    writes the CFG-PRT, CFG-USB and CFG-INF polls only. *)
Theorem poll_ubx_config_appends (serial : list bytes) :
  take (length serial) (poll_ubx_config lib serial) = serial
  /\ length (poll_ubx_config lib serial)
     = (length serial + length (UBX_CONFIG_MESSAGES lib) + 3)%nat
  /\ (UBX_CONFIG_MESSAGES lib = [] ->
      poll_ubx_config lib serial
      = serial ++ [serialize lib "CFG" "CFG-PRT" None;
                   serialize lib "CFG" "CFG-USB" None;
                   serialize lib "CFG" "CFG-INF" (Some [x00])]).
Proof.
  assert (Hrun : poll_ubx_config lib serial
                 = serial
                   ++ [serialize lib "CFG" "CFG-PRT" None;
                       serialize lib "CFG" "CFG-USB" None]
                   ++ map (fun k => serialize lib "CFG" "CFG-MSG" (Some k))
                          (map fst (UBX_CONFIG_MESSAGES lib))
                   ++ [serialize lib "CFG" "CFG-INF" (Some [x00])]).
  { unfold poll_ubx_config, serial_write. cbn [fold_left ubxClass ubxID payload].
    rewrite (fold_left_write
               (fun payload => serialize lib "CFG" "CFG-MSG" (Some payload))).
    rewrite <- !app_assoc. reflexivity. }
  rewrite Hrun. split; [apply take_app_length|]. split.
  - rewrite !length_app, !length_map. cbn [length]. lia.
  - intros ->. reflexivity.
Qed.

End Satellites.

(** ** The properties of the whole class on frames and message objects *)

Ltac frame_parsed :=
  apply parsed_ok; vm_compute; reflexivity.

Ltac computed := vm_compute; reflexivity.

Ltac not_member H :=
  intros H; apply list_elem_of_In in H; vm_compute in H;
  repeat (destruct H as [H|H]; [discriminate H|]); exact H.

Ltac attrs_present Hf :=
  apply list_elem_of_In in Hf; vm_compute in Hf;
  repeat (destruct Hf as [<-|Hf]; [eexists; vm_compute; reflexivity|]);
  destruct Hf.

Lemma process_data_routes_witness :
  fst (Frames.run Frames.velned (init Frames.app0))
  = Ok (Frames.parsed Frames.velned).
Proof.
  assert (Hp : parse Ublox.lib Frames.velned false = Ok (Frames.parsed Frames.velned))
    by frame_parsed.
  assert (Hid : identity (Frames.parsed Frames.velned) = "NAV-VELNED") by computed.
  assert (Hh : handler_of Ublox.lib Ublox.int_of_text
                 (identity (Frames.parsed Frames.velned))
               = Some _process_NAV_VELNED) by (rewrite Hid; reflexivity).
  unfold Frames.run.
  rewrite (process_data_routes Ublox.lib Ublox.int_of_text Frames.velned _
             (init Frames.app0) _ Hp Hh).
  computed.
Defined.

Lemma cfg_prt_stores_witness :
  ubx_state (snd (Frames.run Frames.cfg_prt (init Frames.app0))) !! "CFG-PRT"
  = Some (PTuple [PBytes [xc0; x08; x00; x00]; PInt 9600; PBytes [x07; x00];
                  PBytes [x03; x00]])
  /\ ubx_state (snd (Frames.run Frames.cfg_prt (init Frames.app0))) !! "CFG-INF"
     = None.
Proof.
  assert (Hp : parse Ublox.lib Frames.cfg_prt false = Ok (Frames.parsed Frames.cfg_prt))
    by frame_parsed.
  destruct (cfg_prt_stores Ublox.lib Ublox.int_of_text Frames.cfg_prt _
              (init Frames.app0) (PBytes [xc0; x08; x00; x00]) (PInt 9600)
              (PBytes [x07; x00]) (PBytes [x03; x00]) Hp) as [Hrun Hother];
    [computed ..|].
  unfold Frames.run. split.
  - rewrite Hrun. apply lookup_insert_eq.
  - rewrite Hother by discriminate. reflexivity.
Defined.

Lemma cfg_inf_stores_witness :
  ubx_state (snd (Frames.run Frames.cfg_inf (init Frames.app0))) !! "CFG-INF"
  = Some (PTuple [PBytes [x07]; PBytes [x07]; PBytes [x00]; PBytes [x07];
                  PBytes [x00]]).
Proof.
  assert (Hp : parse Ublox.lib Frames.cfg_inf false = Ok (Frames.parsed Frames.cfg_inf))
    by frame_parsed.
  destruct (cfg_inf_stores Ublox.lib Ublox.int_of_text Frames.cfg_inf _
              (init Frames.app0) (PBytes [x07]) (PBytes [x07]) (PBytes [x00])
              (PBytes [x07]) (PBytes [x00]) Hp) as [Hrun _];
    [computed ..|].
  unfold Frames.run. rewrite Hrun. apply lookup_insert_eq.
Defined.

Lemma cfg_msg_rates_present :
  forall n, n ∈ rate_names -> is_Some (attrs (Frames.parsed Frames.cfg_msg) !! n).
Proof. intros n Hn. attrs_present Hn. Defined.

Lemma cfg_msg_stores_witness :
  exists rates,
    ubx_state (snd (Frames.run Frames.cfg_msg (init Frames.app0))) !! "NAV-POSLLH"
    = Some (PTuple rates).
Proof.
  assert (Hp : parse Ublox.lib Frames.cfg_msg false = Ok (Frames.parsed Frames.cfg_msg))
    by frame_parsed.
  destruct (cfg_msg_stores Ublox.lib Ublox.int_of_text Frames.cfg_msg _
              (init Frames.app0) [x01] [x02] "NAV-POSLLH" Hp)
    as (rates & _ & Hrun & _); [computed ..|exact cfg_msg_rates_present|].
  exists rates. unfold Frames.run. rewrite Hrun. apply lookup_insert_eq.
Defined.

Lemma cfg_msg_unknown_key_witness :
  Frames.run Frames.cfg_msg_unlisted (init Frames.app0)
  = (Raise KeyError, init Frames.app0).
Proof.
  assert (Hp : parse Ublox.lib Frames.cfg_msg_unlisted false
               = Ok (Frames.parsed Frames.cfg_msg_unlisted)) by frame_parsed.
  apply (cfg_msg_unknown_key Ublox.lib Ublox.int_of_text Frames.cfg_msg_unlisted _
           (init Frames.app0) [x0a] [x04] Hp); computed.
Defined.

Lemma cfg_msg_two_responses_witness :
  ubx_state (snd (Frames.run Frames.cfg_msg_pvt
                    (snd (Frames.run Frames.cfg_msg (init Frames.app0)))))
  = ubx_state (snd (Frames.run Frames.cfg_msg
                      (snd (Frames.run Frames.cfg_msg_pvt (init Frames.app0))))).
Proof.
  assert (Hp1 : parse Ublox.lib Frames.cfg_msg false = Ok (Frames.parsed Frames.cfg_msg))
    by frame_parsed.
  assert (Hp2 : parse Ublox.lib Frames.cfg_msg_pvt false
                = Ok (Frames.parsed Frames.cfg_msg_pvt)) by frame_parsed.
  refine (proj2 (proj2 (cfg_msg_two_responses Ublox.lib Ublox.int_of_text
                          Frames.cfg_msg Frames.cfg_msg_pvt _ _ (init Frames.app0)
                          "NAV-POSLLH" "NAV-PVT"
                          (PTuple [PInt 0; PInt 1; PInt 0; PInt 1; PInt 0; PInt 0])
                          (PTuple [PInt 0; PInt 0; PInt 0; PInt 1; PInt 0; PInt 0])
                          Hp1 _ Hp2 _ _ _) _));
    first [computed | discriminate].
Defined.

Lemma poll_response_stored_witness :
  exists name rates,
    ([x01; x02], name) ∈ UBX_CONFIG_MESSAGES Ublox.lib
    /\ fst (Frames.run Frames.cfg_msg (init Frames.app0))
       = Ok (Frames.parsed Frames.cfg_msg)
    /\ ubx_state (snd (Frames.run Frames.cfg_msg (init Frames.app0))) !! name
       = Some (PTuple rates).
Proof.
  assert (Hp : parse Ublox.lib Frames.cfg_msg false = Ok (Frames.parsed Frames.cfg_msg))
    by frame_parsed.
  apply (poll_response_stored Ublox.lib Ublox.int_of_text Frames.cfg_msg _
           (init Frames.app0) (poll "CFG-MSG" (Some [x01; x02])) [x01] [x02]).
  - vm_compute. repeat constructor.
  - reflexivity.
  - reflexivity.
  - exact Hp.
  - computed.
  - computed.
  - computed.
  - exact cfg_msg_rates_present.
Defined.

Lemma process_data_other_attributes_witness :
  lat (snd (Frames.run Frames.velned Frames.after_posllh)) = lat Frames.after_posllh.
Proof.
  assert (Hp : parse Ublox.lib Frames.velned false = Ok (Frames.parsed Frames.velned))
    by frame_parsed.
  apply (process_data_other_attributes Ublox.lib Ublox.int_of_text Frames.velned _
           Frames.after_posllh Lat Hp).
  not_member H.
Defined.

Lemma process_data_state_owners_witness :
  ubx_state (snd (Frames.run Frames.posllh Frames.after_svinfo))
  = ubx_state Frames.after_svinfo
  /\ gsv_data (snd (Frames.run Frames.posllh Frames.after_svinfo))
     = gsv_data Frames.after_svinfo.
Proof.
  assert (Hp : parse Ublox.lib Frames.posllh false = Ok (Frames.parsed Frames.posllh))
    by frame_parsed.
  destruct (process_data_state_owners Ublox.lib Ublox.int_of_text Frames.posllh _
              Frames.after_svinfo Hp) as [Hstore Hlist].
  split; [apply Hstore; not_member H|apply Hlist; vm_compute; discriminate].
Defined.

Lemma posllh_decoded_witness :
  fst (Frames.run Frames.posllh (init Frames.app0)) = Ok (Frames.parsed Frames.posllh)
  /\ exists banner console,
       calls (app (snd (Frames.run Frames.posllh (init Frames.app0))))
       = [banner;
          update_map (float_literal 47.3397625) (float_literal (-0.1234567))
                     (float_literal 2.5) (float_literal 3.5) "3D" true;
          console].
Proof.
  assert (Hp : parse Ublox.lib Frames.posllh false = Ok (Frames.parsed Frames.posllh))
    by frame_parsed.
  destruct (posllh_decoded Ublox.lib Ublox.int_of_text Frames.posllh _
              (init Frames.app0) Hp) as (Hrun & _ & _);
    [computed | apply decodes_beforeb_true; computed |].
  unfold Frames.run. rewrite Hrun. split; [reflexivity|].
  eexists _, _. computed.
Defined.

Lemma pvt_decoded_witness :
  fst (Frames.run Frames.pvt (init Frames.app0)) = Ok (Frames.parsed Frames.pvt)
  /\ length (calls (app (snd (Frames.run Frames.pvt (init Frames.app0))))) = 3%nat.
Proof.
  assert (Hp : parse Ublox.lib Frames.pvt false = Ok (Frames.parsed Frames.pvt))
    by frame_parsed.
  destruct (pvt_decoded Ublox.lib Ublox.int_of_text Frames.pvt _
              (init Frames.app0) (PStr "3D") Hp) as (Hrun & _ & _);
    [computed | apply decodes_beforeb_true; computed | computed |].
  unfold Frames.run. rewrite Hrun. split; reflexivity.
Defined.

Lemma velned_decoded_witness :
  fst (Frames.run Frames.velned (init Frames.app0)) = Ok (Frames.parsed Frames.velned)
  /\ track (snd (Frames.run Frames.velned (init Frames.app0))) = float_literal 45
  /\ speed (snd (Frames.run Frames.velned (init Frames.app0))) = float_literal 2.5.
Proof.
  assert (Hp : parse Ublox.lib Frames.velned false = Ok (Frames.parsed Frames.velned))
    by frame_parsed.
  destruct (velned_decoded Ublox.lib Ublox.int_of_text Frames.velned _
              (init Frames.app0) Hp) as (Hrun & _ & _);
    [computed | apply decodes_beforeb_true; computed |].
  unfold Frames.run. rewrite Hrun. split; [reflexivity|]. split; computed.
Defined.

Lemma sol_decoded_witness :
  fst (Frames.run Frames.sol (init Frames.app0)) = Ok (Frames.parsed Frames.sol)
  /\ pdop (snd (Frames.run Frames.sol (init Frames.app0))) = float_literal 1.8
  /\ fix_ (snd (Frames.run Frames.sol (init Frames.app0))) = PStr "-".
Proof.
  assert (Hp : parse Ublox.lib Frames.sol false = Ok (Frames.parsed Frames.sol))
    by frame_parsed.
  destruct (sol_decoded Ublox.lib Ublox.int_of_text Frames.sol _
              (init Frames.app0) (PStr "3D") Hp) as (Hrun & _ & _);
    [computed | apply decodes_beforeb_true; computed | computed |].
  unfold Frames.run. rewrite Hrun. split; [reflexivity|]. split; computed.
Defined.

Lemma dop_decoded_witness :
  fst (Frames.run Frames.dop (init Frames.app0)) = Ok (Frames.parsed Frames.dop)
  /\ hdop (snd (Frames.run Frames.dop (init Frames.app0))) = float_literal 1.5
  /\ vdop (snd (Frames.run Frames.dop (init Frames.app0))) = float_literal 2.
Proof.
  assert (Hp : parse Ublox.lib Frames.dop false = Ok (Frames.parsed Frames.dop))
    by frame_parsed.
  destruct (dop_decoded Ublox.lib Ublox.int_of_text Frames.dop _
              (init Frames.app0) Hp) as (Hrun & _ & _);
    [computed | apply decodes_beforeb_true; computed |].
  unfold Frames.run. rewrite Hrun. split; [reflexivity|]. split; computed.
Defined.

Lemma ublox_itow2utc_type : forall v, itow2utc Ublox.lib v <> Raise ValueError.
Proof. intros v. destruct v; discriminate. Defined.

Lemma returned_means_stored_witness :
  decodes_before
    (length (assignments_of Ublox.lib (identity (Frames.parsed Frames.posllh))
               (Frames.parsed Frames.posllh)))
    (assignments_of Ublox.lib (identity (Frames.parsed Frames.posllh))
       (Frames.parsed Frames.posllh)).
Proof.
  assert (Hp : parse Ublox.lib Frames.posllh false = Ok (Frames.parsed Frames.posllh))
    by frame_parsed.
  refine (proj1 (returned_means_stored Ublox.lib Ublox.int_of_text
                   ublox_itow2utc_type Frames.posllh _ (Frames.parsed Frames.posllh)
                   (init Frames.app0) Hp _)).
  computed.
Defined.

Lemma svinfo_count_unreadable_witness :
  gsv_data Frames.after_svinfo <> []
  /\ _process_NAV_SVINFO Ublox.int_of_text Frames.svinfo_no_count Frames.after_svinfo
     = (Raise AttributeError, set_gsv_data [] Frames.after_svinfo)
  /\ _process_NAV_SVINFO Ublox.int_of_text Frames.svinfo_count_text Frames.after_svinfo
     = (Ok tt, set_gsv_data [] Frames.after_svinfo).
Proof.
  split; [vm_compute; discriminate|]. split.
  - refine (proj1 (svinfo_count_unreadable Ublox.lib Ublox.int_of_text
                     Frames.svinfo_no_count Frames.after_svinfo AttributeError _)).
    vm_compute. reflexivity.
  - refine (proj1 (svinfo_count_unreadable Ublox.lib Ublox.int_of_text
                     Frames.svinfo_count_text Frames.after_svinfo ValueError _)).
    vm_compute. reflexivity.
Defined.

Lemma svinfo_short_message_witness :
  fst (_process_NAV_SVINFO Ublox.int_of_text Frames.svinfo_two_of_three
         Frames.after_svinfo) = Raise AttributeError
  /\ gsv_data (snd (_process_NAV_SVINFO Ublox.int_of_text Frames.svinfo_two_of_three
                      Frames.after_svinfo))
     = [PTuple [PInt 12; PInt 10; PInt 90; PInt 28];
        PTuple [PInt 19; PInt 62; PInt 315; PInt 44]].
Proof.
  destruct (svinfo_short_message Ublox.lib Ublox.int_of_text
              Frames.svinfo_two_of_three Frames.after_svinfo 3 2 "elev"
              (fun i => nth (i - 1) [PInt 12; PInt 19] PNone)
              (fun i => nth (i - 1) [PInt 10; PInt 62] PNone)
              (fun i => nth (i - 1) [PInt 90; PInt 315] PNone)
              (fun i => nth (i - 1) [PInt 28; PInt 44] PNone))
    as (Hraise & Hlist & _).
  - vm_compute. reflexivity.
  - vm_compute. lia.
  - intros i Hi. assert (Hi' : i = 1%nat \/ i = 2%nat) by lia.
    destruct Hi' as [-> | ->]; unfold has_satellite; repeat split;
      vm_compute; reflexivity.
  - vm_compute. repeat constructor.
  - vm_compute. reflexivity.
  - split; [exact Hraise|]. rewrite Hlist. reflexivity.
Defined.

Lemma svinfo_calls_witness :
  length (calls (app (snd (Frames.run Frames.svinfo (init Frames.app0))))) = 4%nat.
Proof.
  assert (Hp : parse Ublox.lib Frames.svinfo false = Ok (Frames.parsed Frames.svinfo))
    by frame_parsed.
  destruct (svinfo_calls Ublox.lib Ublox.int_of_text Frames.svinfo _
              (init Frames.app0) 2 Hp) as [_ Hcalls].
  - computed.
  - computed.
  - intros i f Hi Hf. assert (Hi' : i = 1%nat \/ i = 2%nat) by lia.
    destruct Hi' as [-> | ->]; attrs_present Hf.
  - unfold Frames.run. rewrite Hcalls. reflexivity.
Defined.

Lemma svinfo_no_satellite_witness :
  fst (Frames.run Frames.svinfo_empty Frames.after_svinfo)
  = Ok (Frames.parsed Frames.svinfo_empty)
  /\ gsv_data (snd (Frames.run Frames.svinfo_empty Frames.after_svinfo)) = [].
Proof.
  assert (Hp : parse Ublox.lib Frames.svinfo_empty false
               = Ok (Frames.parsed Frames.svinfo_empty)) by frame_parsed.
  destruct (svinfo_no_satellite Ublox.lib Ublox.int_of_text Frames.svinfo_empty _
              Frames.after_svinfo 0 Hp) as (Hret & Hlist & _);
    [computed | computed | lia |].
  split; [exact Hret|exact Hlist].
Defined.
